(** * med-sight: the medical imaging page ([imaging_google.py])

    A shallow embedding of the Streamlit script: the text helpers and the
    markdown to document converter ([create_docx]), the DICOM pixel
    normalisation and the display resize in IEEE 754 binary64 arithmetic
    (Python [float], numpy [float64]), and the script itself as a program
    in a small monad that records what the page renders. *)

From Stdlib Require Import String Ascii List ZArith Lia Bool Arith.
From Stdlib Require Import SpecFloat QArith Qpower Lqa.
Import ListNotations.

Local Close Scope Q_scope.

Local Open Scope string_scope.

(** ** Python [str] helpers

    A [string] stands for a Python [str] whose characters have code
    points below 256, one [ascii] per character. *)
Module Text.

(** [str.isspace] on one character (code points below 256). *)
Definition isspace (c : ascii) : bool :=
  let n := nat_of_ascii c in
  (((9 <=? n) && (n <=? 13)) || ((28 <=? n) && (n <=? 32))
   || (n =? 133) || (n =? 160))%nat.

Fixpoint lstrip (s : string) : string :=
  match s with
  | "" => ""
  | String c s' => if isspace c then lstrip s' else s
  end.

Fixpoint rstrip (s : string) : string :=
  match s with
  | "" => ""
  | String c s' =>
      match rstrip s' with
      | "" => if isspace c then "" else String c ""
      | r => String c r
      end
  end.

(** [s.strip()] *)
Definition strip (s : string) : string := lstrip (rstrip s).

(** [s.startswith(p)] *)
Definition startswith (p s : string) : bool := String.prefix p s.

(** [s.replace(old, new)] for a one-character [old]. *)
Fixpoint replace (old : ascii) (new s : string) : string :=
  match s with
  | "" => ""
  | String c s' =>
      if Ascii.eqb c old then new ++ replace old new s'
      else String c (replace old new s')
  end.

(** [s.split(sep)] for a one-character separator: never empty. *)
Fixpoint split (sep : ascii) (s : string) : list string :=
  match s with
  | "" => [""]
  | String c s' =>
      if Ascii.eqb c sep then "" :: split sep s'
      else match split sep s' with
           | h :: t => String c h :: t
           | [] => [String c ""]
           end
  end.

(** [s[n:]] *)
Fixpoint drop (n : nat) (s : string) : string :=
  match n, s with
  | O, _ => s
  | S n', String _ s' => drop n' s'
  | S _, "" => ""
  end.

(** [s[a:b]] for [a <= b]; empty when [b < a], as in Python. *)
Definition slice (s : string) (a b : nat) : string := substring a (b - a) s.

Definition newline : ascii := ascii_of_nat 10.

(** [s.endswith(p)] *)
Definition endswith (p s : string) : bool :=
  (String.length p <=? String.length s)%nat
  && String.eqb (drop (String.length s - String.length p) s) p.

(** [str.lower] on one character (code points below 256). *)
Definition lower_char (c : ascii) : ascii :=
  let n := nat_of_ascii c in
  if (((65 <=? n) && (n <=? 90))
      || ((192 <=? n) && (n <=? 222) && negb (n =? 215)))%nat
  then ascii_of_nat (n + 32) else c.

(** [s.lower()] *)
Fixpoint lower (s : string) : string :=
  match s with
  | "" => ""
  | String c s' => String (lower_char c) (lower s')
  end.

(** Does the character occur in the string? *)
Fixpoint mem (c : ascii) (s : string) : bool :=
  match s with
  | "" => false
  | String d s' => Ascii.eqb d c || mem c s'
  end.

End Text.

(** ** The regular expression [(\*\*|__)(.+?)\1] *)
Module Regex.
Import Text.

(** A match object: [m.start()], [m.end()] and [m.group(2)]. *)
Record rmatch := { m_start : nat; m_end : nat; m_group2 : string }.

(** Group 1, [(\*\*|__)], tried at the head of [s]. *)
Definition delim_at (s : string) : option string :=
  if startswith "**" s then Some "**"
  else if startswith "__" s then Some "__"
  else None.

(** [(.+?)\1] at the head of [s], [d] being what group 1 matched: the
    shortest non-empty run of characters other than a newline that is
    followed by [d]. *)
Fixpoint lazy_inner (d s : string) : option string :=
  match s with
  | "" => None
  | String c s' =>
      if Ascii.eqb c newline then None
      else if startswith d s' then Some (String c "")
      else option_map (String c) (lazy_inner d s')
  end.

(** The whole pattern at the head of [s]: group 2 and the length of the
    match. *)
Definition match_here (s : string) : option (string * nat) :=
  match delim_at s with
  | Some d =>
      match lazy_inner d (drop 2 s) with
      | Some g => Some (g, 2 + String.length g + 2)
      | None => None
      end
  | None => None
  end.

(** The scan of [finditer]: [s] is the rest of the line from index [pos]
    on. A match is never empty, so the scan resumes at its end; every step
    consumes a character and [fuel] bounds the steps. *)
Fixpoint scan (fuel pos : nat) (s : string) : list rmatch :=
  match fuel with
  | O => []
  | S fuel' =>
      match s with
      | "" => []
      | String _ s' =>
          match match_here s with
          | Some (g, len) =>
              {| m_start := pos; m_end := pos + len; m_group2 := g |}
                :: scan fuel' (pos + len) (drop len s)
          | None => scan fuel' (S pos) s'
          end
      end
  end.

(** [bold_pattern.finditer(line)] *)
Definition finditer (line : string) : list rmatch :=
  scan (String.length line) 0 line.

End Regex.

(** ** The document built by [create_docx] *)
Module Docx.
Import Text Regex.
Local Open Scope list_scope.

(** A run of a paragraph: [add_run(text)], and [.bold = True] or not. *)
Record run := { run_text : string; run_bold : bool }.

Definition plain (t : string) : run := {| run_text := t; run_bold := false |}.
Definition bold (t : string) : run := {| run_text := t; run_bold := true |}.

Section Document.
(** The picture is whatever image the caller passes. *)
Variable image : Type.

Inductive block :=
| Heading (level : nat) (text : string)
| Picture (img : image) (width_inches : nat)
| PageBreak
| Paragraph (runs : list run).

(** [python-docx]'s [Document], as its body in order. *)
Definition document := list block.

(** The loop over the matches of one line: the runs so far and
    [last_idx]. *)
Definition add_match (line : string) (st : list run * nat) (m : rmatch)
  : list run * nat :=
  let '(runs, last_idx) := st in
  let runs :=
    if (last_idx <? m_start m)%nat
    then runs ++ [plain (slice line last_idx (m_start m))]
    else runs in
  (runs ++ [bold (m_group2 m)], m_end m).

(** The runs of the paragraph of a text line. *)
Definition paragraph_runs (line : string) : list run :=
  let '(runs, last_idx) :=
    fold_left (add_match line) (finditer line) ([], 0) in
  if (last_idx <? String.length line)%nat
  then runs ++ [plain (slice line last_idx (String.length line))]
  else runs.

(** The body of the loop over the lines. *)
Definition add_line (doc : document) (line : string) : document :=
  if startswith "#" line then
    doc ++ [Heading 1 (strip (replace "#" "" line))]
  else if String.eqb (strip line) "---" then
    doc ++ [PageBreak]
  else if negb (String.eqb (strip line) "") then
    doc ++ [Paragraph (paragraph_runs line)]
  else doc.

Definition create_docx (analysis_markdown : string) (image_pil : image)
  : document :=
  let doc :=
    [ Heading 0 "Medical Imaging Analysis";
      Heading 1 "Uploaded Image";
      Picture image_pil 5 ] in
  fold_left add_line (split newline analysis_markdown) doc.

End Document.

Arguments Heading {image}.
Arguments Picture {image}.
Arguments PageBreak {image}.
Arguments Paragraph {image}.
Arguments add_line {image}.
Arguments create_docx {image}.

End Docx.


(** ** IEEE 754 binary64: Python [float] and numpy [float64]

    The operations are those of [SpecFloat] at precision 53 and maximal
    exponent 1024, rounding to nearest, ties to even. *)
Module F64.
Local Open Scope Z_scope.

Definition prec : Z := 53.
Definition emax : Z := 1024.

Definition float := spec_float.

(** [float(n)] for a Python or numpy integer. *)
Definition of_int (n : Z) : float := binary_normalize prec emax n 0 false.

Definition zero : float := S754_zero false.

Definition sub : float -> float -> float := SFsub prec emax.
Definition mul : float -> float -> float := SFmul prec emax.
Definition div : float -> float -> float := SFdiv prec emax.
Definition ltb : float -> float -> bool := SFltb.

Definition is_nan (x : float) : bool :=
  match x with S754_nan => true | _ => false end.

(** Rounding toward zero, as [int(x)] and a C cast do; nothing for an
    infinity or a NaN. *)
Definition trunc (x : float) : option Z :=
  match x with
  | S754_zero _ => Some 0
  | S754_finite s m e => Some (cond_Zopp s (Z.shiftl (Zpos m) e))
  | S754_infinity _ | S754_nan => None
  end.

(** numpy's [minimum] and [maximum] on two scalars. *)
Definition minimum (a b : float) : float :=
  if is_nan a then a else if ltb a b then a else b.
Definition maximum (a b : float) : float :=
  if is_nan a then a else if ltb b a then a else b.

(** [arr.min()] and [arr.max()]: nothing on an empty array, where numpy
    raises [ValueError]. *)
Definition array_min (arr : list float) : option float :=
  match arr with
  | [] => None
  | x :: rest => Some (fold_left minimum rest x)
  end.
Definition array_max (arr : list float) : option float :=
  match arr with
  | [] => None
  | x :: rest => Some (fold_left maximum rest x)
  end.

(** [.astype("uint8")] on one element: the C conversion, which truncates;
    a value outside 0..255 is reduced modulo 256 and a non-finite one
    gives 0, as on the usual platforms. *)
Definition astype_uint8 (x : float) : Z :=
  match trunc x with
  | Some z => z mod 256
  | None => 0
  end.

End F64.

(** ** Exceptions *)

(** A Python exception, by its message. *)
Definition exn := string.

Inductive result (A : Type) : Type :=
| Ok (a : A)
| Raised (e : exn).
Arguments Ok {A}.
Arguments Raised {A}.

(** ** DICOM normalisation (lines 108 to 113) *)
Module Dicom.
Import F64.
Local Open Scope Z_scope.

(** The integer samples of [ds.pixel_array], flattened: [min] and [max]
    range over the whole array. *)
Definition normalize (pixel_array : list Z) : result (list Z) :=
  (* pixel_array = ds.pixel_array.astype(float) *)
  let arr := map of_int pixel_array in
  (* pixel_array -= pixel_array.min() *)
  match array_min arr with
  | None => Raised "zero-size array to reduction operation minimum which has no identity"
  | Some lo =>
      let arr := map (fun x => sub x lo) arr in
      (* if pixel_array.max() > 0: pixel_array /= pixel_array.max() *)
      match array_max arr with
      | None => Raised "zero-size array to reduction operation maximum which has no identity"
      | Some hi =>
          let arr :=
            if ltb (of_int 0) hi then map (fun x => div x hi) arr else arr in
          (* (pixel_array * 255).astype("uint8") *)
          Ok (map (fun x => astype_uint8 (mul x (of_int 255))) arr)
      end
  end.

(** The least and the greatest element of an image's samples. *)
Definition list_min (l : list Z) : option Z :=
  match l with
  | [] => None
  | x :: rest => Some (fold_left Z.min rest x)
  end.
Definition list_max (l : list Z) : option Z :=
  match l with
  | [] => None
  | x :: rest => Some (fold_left Z.max rest x)
  end.

(** A stored sample of Pixel Data: 8, 16 or 32 bits allocated, signed or
    unsigned. *)
Definition valid_sample (x : Z) : Prop := - 2 ^ 31 <= x < 2 ^ 32.

End Dicom.

(** ** Display resize (lines 123 to 127) *)
Module Resize.
Import F64.
Local Open Scope Z_scope.

(** [a / b] on Python integers: the quotient rounded to binary64 (both
    operands convert exactly below [2 ^ 53]). *)
Definition truediv (a b : Z) : result float :=
  if b =? 0 then Raised "division by zero"
  else Ok (div (of_int a) (of_int b)).

(** [n / x] for an integer [n] and a float [x]. *)
Definition int_div_float (n : Z) (x : float) : result float :=
  match x with
  | S754_zero _ => Raised "float division by zero"
  | _ => Ok (div (of_int n) x)
  end.

(** [int(x)] *)
Definition int_of_float (x : float) : result Z :=
  match trunc x with
  | Some z => Ok z
  | None => Raised "cannot convert float infinity or NaN to integer"
  end.

Definition new_width : Z := 500.

(** Lines 124 to 126: the size handed to [image.resize]. *)
Definition display_size (width height : Z) : result (Z * Z) :=
  match truediv width height with
  | Raised e => Raised e
  | Ok aspect_ratio =>
      match int_div_float new_width aspect_ratio with
      | Raised e => Raised e
      | Ok q =>
          match int_of_float q with
          | Raised e => Raised e
          | Ok new_height => Ok (new_width, new_height)
          end
      end
  end.

End Resize.

(** ** The page script

    One run of the script, from top to bottom, for one interaction. What
    the run renders and does is recorded in order; the file decoders, the
    resampling, the hosted model and the calls of [st.image],
    [image.save] and python-docx that can refuse their argument are the
    collaborators of the script and are taken as given. Labels are
    written without their emoji. *)
Module App.
Import Text Docx F64.
Local Open Scope list_scope.

(** A PIL image: [image.size] is [(width, height)]. *)
Record PILImage := { size : Z * Z; raster : list Z }.

(** The uploaded file: [uploaded_file.name] and its bytes. *)
Record upload := { name : string; content : list Byte.byte }.

(** The decoded data set: the shape of [ds.pixel_array] (rows, columns)
    and its samples. *)
Record pixel_array := { shape : Z * Z; samples : list Z }.

(** What a run renders ([st.*]) and does, in order. *)
Inductive effect :=
| Title (s : string)
| Info (s : string)
| Warning (s : string)
| Success (s : string)
| Error (s : string)
| Write (s : string)
| Markdown (s : string)
| Caption (s : string)
| FileUploader (label : string)
| ShowImage (img : PILImage) (caption : string)
| Button (label : string)
| DownloadButton (label : string) (data : document PILImage)
    (file_name : string)
| SaveImage (path : string) (img : PILImage)
| ModelCall (prompt : string) (img : PILImage).

(** [st.session_state] *)
Record session := {
  analysis_result : option string;
  analysis_image : option PILImage
}.

Record state := { rendered : list effect; session_state : session }.

(** How a piece of the script ends: normally, with an exception, or in
    [st.stop()], which no [except Exception] catches. *)
Inductive outcome (A : Type) : Type :=
| Done (a : A)
| Exc (e : exn)
| Halt.
Arguments Done {A}.
Arguments Exc {A}.
Arguments Halt {A}.

Definition M (A : Type) : Type := state -> outcome A * state.

Definition ret {A} (a : A) : M A := fun st => (Done a, st).

Definition bind {A B} (m : M A) (k : A -> M B) : M B :=
  fun st =>
    match m st with
    | (Done a, st') => k a st'
    | (Exc e, st') => (Exc e, st')
    | (Halt, st') => (Halt, st')
    end.

Notation "x <- m ;; k" := (bind m (fun x => k))
  (at level 61, m at next level, right associativity).
Notation "m ;; k" := (bind m (fun _ => k))
  (at level 61, right associativity).
Notation "' pat <- m ;; k" :=
  (bind m (fun x => match x with pat => k end))
  (at level 61, pat pattern, m at next level, right associativity).

Definition emit (e : effect) : M unit :=
  fun st =>
    (Done tt, {| rendered := rendered st ++ [e];
                 session_state := session_state st |}).

Definition raise {A} (e : exn) : M A := fun st => (Exc e, st).

(** [st.stop()] *)
Definition stop {A} : M A := fun st => (Halt, st).

Definition lift {A} (r : result A) : M A :=
  match r with
  | Ok a => ret a
  | Raised e => raise e
  end.

(** [try: body except Exception as e: handler(e)] *)
Definition try_except {A} (body : M A) (handler : exn -> M A) : M A :=
  fun st =>
    match body st with
    | (Exc e, st') => handler e st'
    | r => r
    end.

Definition set_session (s : session) : M unit :=
  fun st => (Done tt, {| rendered := rendered st; session_state := s |}).

Definition get_session : M session :=
  fun st => (Done (session_state st), st).

(** Python truth of [os.getenv(...)]: unset and empty both count as
    false. *)
Definition truthy (v : option string) : bool :=
  match v with
  | None | Some "" => false
  | Some _ => true
  end.

Definition query : string := "
You are a highly skilled medical expert specializing in diagnostic imaging and analytical interpretation of medical graphs. Analyze the provided medical image or graph comprehensively, solely based on the visual data available, and structure your analysis clearly under the following headings:

### 1. Image/Graph Type & Anatomical Region
- Specify the imaging or graph modality clearly (X-ray, MRI, CT, Ultrasound, ECG, EEG, etc.)
- Identify the anatomical region or physiological system depicted
- Comment on the technical quality, clarity, and adequacy of the data provided


### 2. Detailed Observations & Key Findings
- Systematically list primary visual or numerical observations
- Clearly describe any abnormalities, anomalies, or deviations from normal reference ranges
- Include precise measurements, numerical values, or densities as applicable
- Clearly describe the location, size, shape, characteristics, or pattern of abnormalities
- Rate severity clearly as Normal, Mild, Moderate, or Severe

### 3. Diagnostic Assessment
- State your primary diagnosis clearly and confidently based solely on visual or graphical evidence
- List possible differential diagnoses ranked by likelihood, supported by the provided data
- Highlight specific visual or numerical evidence underpinning each diagnosis
- Clearly flag any critical, urgent, or emergent findings requiring immediate medical attention

### 4. Patient-Friendly Explanation
- Clearly and simply explain your findings without medical jargon
- Provide definitions or analogies to help the patient understand the significance
- Address potential patient concerns about severity, prognosis, or immediate next steps
- Suggest general recommendations or follow-up steps clearly understandable by a non-medical individual

Ensure your analysis remains precise, thorough, and clear, making it fully applicable to multimodal medical data including both images and graphical presentations. Consider that your interpretation may need to stand independently without additional patient history or symptomatic context.
".

(** Pillow's [fromarray] on a two-dimensional 8-bit array: the size is
    (columns, rows). *)
Definition fromarray (shape : Z * Z) (data : list Z) : PILImage :=
  {| size := (snd shape, fst shape); raster := data |}.

Section Script.
(** The collaborators: [pydicom.dcmread(...).pixel_array]; [PILImage.open]
    together with the decoding of the pixels, which Pillow puts off until
    [resize] asks for them (either failure leaves the script the same
    way, before anything of the image is rendered); the resampling of
    [Image.resize]; and the answer of the hosted model to [Agent.run],
    its text or what the call raises. *)
Variable dcmread : upload -> result pixel_array.
Variable pil_open : upload -> result PILImage.
Variable resample : PILImage -> Z * Z -> list Z.
Variable gemini : string -> PILImage -> result string.

(** The calls that can refuse an image or a document: [st.image], which
    raises for an image it cannot encode or send (a very high one, say);
    [image.save(path)], which raises for a mode that the format of the
    path cannot hold (CMYK as PNG); and python-docx at work
    on the document of [create_docx], up to [doc.save]: it raises what
    [add_heading], [add_picture], [add_run] or [save] raise (a text with
    a control character is refused). *)
Variable st_image : PILImage -> result unit.
Variable image_save : PILImage -> string -> result unit.
Variable docx_save : document PILImage -> result unit.

(** The environment of one run: the key, the file held by the uploader
    and whether the button was clicked. *)
Variable GOOGLE_API_KEY : option string.
Variable uploaded_file : option upload.
Variable clicked : bool.

(** [image.resize(size)]: Pillow refuses a target with a side below
    one pixel. *)
Definition resize (img : PILImage) (target : Z * Z) : result PILImage :=
  if ((fst target <? 1) || (snd target <? 1))%Z
  then Raised "height and width must be > 0"
  else Ok {| size := target; raster := resample img target |}.

(** [medical_agent]: an agent when the key is set, [None] otherwise. *)
Definition medical_agent : option (string -> PILImage -> result string) :=
  if truthy GOOGLE_API_KEY then Some gemini else None.

(** [medical_agent.run(query, images=[agno_image])] *)
Definition agent_run (prompt : string) (img : PILImage) : M string :=
  match medical_agent with
  | None => raise "'NoneType' object has no attribute 'run'"
  | Some run =>
      emit (ModelCall prompt img) ;;
      lift (run prompt img)
  end.

(** Lines 20 to 37. *)
Definition sidebar : M unit :=
  emit (Title "Configuration") ;;
  emit (Info "This tool provides AI-powered analysis of medical imaging data using advanced computer vision and radiological expertise.") ;;
  emit (Warning "DISCLAIMER: This tool is for educational and informational purposes only. All analyses should be reviewed by qualified healthcare professionals. Do not make medical decisions based solely on this analysis.") ;;
  if truthy GOOGLE_API_KEY then emit (Success "Workspace ready!")
  else emit (Error "Google API key is not configured on the server. Please set GOOGLE_API_KEY in your environment or .env file.").

(** Lines 104 to 119: the image of the upload, or [None]. *)
Definition ingest (f : upload) : M (option PILImage) :=
  let file_name := lower (name f) in
  if endswith ".dcm" file_name || endswith ".dicom" file_name then
    try_except
      (ds <- lift (dcmread f) ;;
       px <- lift (Dicom.normalize (samples ds)) ;;
       ret (Some (fromarray (shape ds) px)))
      (fun e =>
         emit (Error ("Failed to read DICOM file: " ++ e)%string) ;;
         ret None)
  else
    img <- lift (pil_open f) ;;
    ret (Some img).

(** Lines 121 to 139: resize, show the image, offer the button. What
    [st.image] raises leaves the script like any other exception of
    these lines. *)
Definition present (image : option PILImage) : M (PILImage * bool) :=
  image <- match image with
           | None => stop
           | Some i => ret i
           end ;;
  let '(width, height) := size image in
  target <- lift (Resize.display_size width height) ;;
  resized_image <- lift (resize image target) ;;
  lift (st_image resized_image) ;;
  emit (ShowImage resized_image "Uploaded Medical Image") ;;
  emit (Button "Analyze Image") ;;
  ret (resized_image, clicked).

(** Lines 143 to 219. The session state is written (lines 200 and 201)
    before the document is built for the download (lines 211 to 216):
    what the export raises is caught, as what the save and the call to
    the model raise, and leaves the state written. *)
Definition analyze (resized_image : PILImage) : M unit :=
  try_except
    (let temp_path := "temp_resized_image.png" in
     lift (image_save resized_image temp_path) ;;
     emit (SaveImage temp_path resized_image) ;;
     response <- agent_run query resized_image ;;
     emit (Markdown "### Analysis Results") ;;
     emit (Markdown "---") ;;
     emit (Markdown response) ;;
     emit (Markdown "---") ;;
     emit (Caption "Note: This analysis is generated by AI and should be reviewed by a qualified healthcare professional.") ;;
     set_session {| analysis_result := Some response;
                    analysis_image := Some resized_image |} ;;
     s <- get_session ;;
     match analysis_result s, analysis_image s with
     | Some text, Some img =>
         let doc := create_docx text img in
         lift (docx_save doc) ;;
         emit (DownloadButton "Download Analysis as DOCX"
                 doc "medical_image_analysis.docx")
     | _, _ => raise "'NoneType' object has no attribute 'split'"
     end)
    (fun e => emit (Error ("Analysis error: " ++ e)%string)).

(** Lines 20 to 97: what every run renders first. *)
Definition shell : M unit :=
  sidebar ;;
  match medical_agent with
  | None => emit (Warning "Service is not available because the API key is not configured.")
  | Some _ => ret tt
  end ;;
  emit (Title "Medical Imaging Diagnosis Agent") ;;
  emit (Write "Upload a medical image for professional analysis") ;;
  emit (FileUploader "Upload Medical Image").

(** The script. *)
Definition script : M unit :=
  shell ;;
  match uploaded_file with
  | Some f =>
      image <- ingest f ;;
      '(resized_image, analyze_button) <- present image ;;
      if analyze_button then analyze resized_image else ret tt
  | None =>
      emit (Info "Please upload a medical image to begin analysis")
  end.

(** A run from an empty page. *)
Definition run (s : session) : outcome unit * state :=
  script {| rendered := []; session_state := s |}.

End Script.

(** Was the effect produced? *)
Definition is_button (e : effect) : bool :=
  match e with Button _ => true | _ => false end.
Definition is_model_call (e : effect) : bool :=
  match e with ModelCall _ _ => true | _ => false end.
Definition is_show_image (e : effect) : bool :=
  match e with ShowImage _ _ => true | _ => false end.
Definition is_save_image (e : effect) : bool :=
  match e with SaveImage _ _ => true | _ => false end.
Definition is_download (e : effect) : bool :=
  match e with DownloadButton _ _ _ => true | _ => false end.
Definition is_file_uploader (e : effect) : bool :=
  match e with FileUploader _ => true | _ => false end.
Definition is_results (e : effect) : bool :=
  match e with Markdown _ | Caption _ => true | _ => false end.

(** The file name sends the upload to the DICOM branch (line 105). *)
Definition is_dicom_name (name : string) : bool :=
  endswith ".dcm" (lower name) || endswith ".dicom" (lower name).

(** What [shell] renders, as a list. *)
Definition page_head (key : option string) : list effect :=
  rendered
    (snd (shell (fun _ _ => Ok EmptyString) key
            {| rendered := [];
               session_state := {| analysis_result := None;
                                   analysis_image := None |} |})).

End App.

(** * Notions used by the statements *)

(** ** Lines and runs *)
Section TextNotions.
Import Text Regex Docx.
Local Open Scope string_scope.

(** Text free of the two delimiter characters. *)
Definition no_delim (s : string) : bool := negb (mem "*" s) && negb (mem "_" s).

Definition shift (k : nat) (m : rmatch) : rmatch :=
  {| m_start := k + m_start m; m_end := k + m_end m; m_group2 := m_group2 m |}.

(** The loop over the matches, unrolled from the left. *)
Fixpoint runs_of (line : string) (ms : list rmatch) (last_idx : nat)
  : list run :=
  match ms with
  | [] =>
      if (last_idx <? String.length line)%nat
      then [plain (slice line last_idx (String.length line))] else []
  | m :: ms' =>
      ((if (last_idx <? m_start m)%nat
        then [plain (slice line last_idx (m_start m))] else [])
       ++ bold (m_group2 m) :: runs_of line ms' (m_end m))%list
  end.

(** Two markers [c] in a row, somewhere in the text. *)
Fixpoint has_pair (c : ascii) (s : string) : bool :=
  match s with
  | String a (String b _ as s') =>
      (Ascii.eqb a c && Ascii.eqb b c) || has_pair c s'
  | _ => false
  end.

(** A plain run for a text, none when it is empty. *)
Definition plain_run (t : string) : list run :=
  match t with "" => [] | _ => [plain t] end.

End TextNotions.

(** ** Runs of the script *)
Section ScriptNotions.
Import Text Docx App.
Local Open Scope list_scope.

(** Nothing that belongs to an analysis: no call to the model, no
    rendered result, no export. *)
Definition no_analysis (e : effect) : bool :=
  negb (is_model_call e) && negb (is_results e) && negb (is_download e).

End ScriptNotions.

(** ** Integers as binary64 numbers *)
Section FloatNotions.
Import F64.
Local Open Scope Z_scope.

(** The mantissa and the exponent of a positive integer below [2 ^ 53]. *)
Definition mant (n : positive) : positive :=
  Z.to_pos (Zpos n * 2 ^ (53 - Zpos (digits2_pos n))).
Definition expo (n : positive) : Z := Zpos (digits2_pos n) - 53.

(** The element computed for the sample [v], the range being [lo .. hi]. *)
Definition scaled (lo hi v : Z) : Z :=
  astype_uint8
    (mul (if 0 <? hi - lo
          then div (of_int (v - lo)) (of_int (hi - lo))
          else of_int (v - lo))
         (of_int 255)).

End FloatNotions.

(** ** The value of a float, as a rational *)
Section ValueNotions.
Import F64.
Local Open Scope Q_scope.

(** The rational a finite float stands for. *)
Definition F2Q (x : float) : Q :=
  match x with
  | S754_finite s m e => inject_Z (cond_Zopp s (Zpos m)) * 2 ^ e
  | _ => 0
  end.

(** Half of the relative spacing of binary64 numbers, doubled: [2 ^ -52]. *)
Definition ulp1 : Q := 1 # 4503599627370496.

End ValueNotions.

(** ** Sample inputs *)
Section Samples.
Import App.

(** An upload of the given name. *)
Definition sample_upload (file_name : string) : upload :=
  {| name := file_name; content := [] |}.

(** An image of the given size. *)
Definition sample_image (width height : Z) : PILImage :=
  {| size := (width, height); raster := [] |}.

(** A decoder that refuses every file. *)
Definition refuses {A : Type} (e : exn) : upload -> result A :=
  fun _ => Raised e.

(** A decoder that opens every file as the given image. *)
Definition opens_as (img : PILImage) : upload -> result PILImage :=
  fun _ => Ok img.

(** A resampling that keeps no pixel. *)
Definition blank_resample : PILImage -> Z * Z -> list Z := fun _ _ => [].

(** A page that shows every image, a disk that holds every file and a
    python-docx that takes every document. *)
Definition shows_all : PILImage -> result unit := fun _ => Ok tt.
Definition saves_all : PILImage -> string -> result unit := fun _ _ => Ok tt.
Definition builds_all : Docx.document PILImage -> result unit :=
  fun _ => Ok tt.

(** A model that gives the same answer to every request. *)
Definition answers (text : string) : string -> PILImage -> result string :=
  fun _ _ => Ok text.

(** The session state of a first run. *)
Definition fresh_session : session :=
  {| analysis_result := None; analysis_image := None |}.

End Samples.

(** ** Lines, blocks and runs, for the statements about documents *)
Section DocumentNotions.
Import Text Regex Docx.
Local Open Scope string_scope.

(** [sep.join(parts)] for a one-character separator. *)
Fixpoint join (sep : ascii) (parts : list string) : string :=
  match parts with
  | [] => ""
  | p :: rest =>
      match rest with
      | [] => p
      | _ => p ++ String sep (join sep rest)
      end
  end.

(** A string of heading markers: only [#]. *)
Fixpoint all_hashes (s : string) : bool :=
  match s with
  | "" => true
  | String c s' => Ascii.eqb c "#" && all_hashes s'
  end.

(** A block the loop over the lines can add: a level 1 heading, a page
    break or a paragraph. *)
Definition line_block {image : Type} (b : block image) : bool :=
  match b with
  | Heading level _ => (level =? 1)%nat
  | Picture _ _ => false
  | PageBreak => true
  | Paragraph _ => true
  end.

(** The characters of the runs, and the runs in bold. *)
Definition text_length (runs : list run) : nat :=
  fold_right (fun r n => String.length (run_text r) + n) 0 runs.
Definition bold_count (runs : list run) : nat :=
  List.length (filter run_bold runs).

(** Matches in order between two indexes, each the length of its group
    and of two markers, the group not empty. *)
Fixpoint ordered (ms : list rmatch) (lo hi : nat) : Prop :=
  match ms with
  | [] => lo <= hi
  | m :: ms' =>
      lo <= m_start m
      /\ m_end m = m_start m + 4 + String.length (m_group2 m)
      /\ 1 <= String.length (m_group2 m)
      /\ ordered ms' (m_end m) hi
  end.

End DocumentNotions.

(** ** The shapes of a run *)
Section RunNotions.
Import Text Docx App.
Local Open Scope list_scope.

(** Nothing of an analysis, not even the saved image. *)
Definition idle (e : effect) : bool :=
  no_analysis e && negb (is_save_image e).

(** What a run can come to, for a key, a click and a session state at
    the start: how it ends, what it has rendered after the page head,
    and the session state at the end. *)
Inductive run_shape (key : option string) (clicked : bool) (s : session)
  : outcome unit * state -> Prop :=
| shape_no_upload :
    run_shape key clicked s
      (Done tt,
       {| rendered :=
            page_head key
            ++ [Info "Please upload a medical image to begin analysis"];
          session_state := s |})
| shape_raised (e : exn) :
    run_shape key clicked s
      (Exc e, {| rendered := page_head key; session_state := s |})
| shape_dicom_failed (e : exn) :
    run_shape key clicked s
      (Halt,
       {| rendered :=
            page_head key
            ++ [Error ("Failed to read DICOM file: " ++ e)%string];
          session_state := s |})
| shape_shown (resized : PILImage) :
    clicked = false ->
    run_shape key clicked s
      (Done tt,
       {| rendered :=
            page_head key
            ++ [ShowImage resized "Uploaded Medical Image";
                Button "Analyze Image"];
          session_state := s |})
| shape_save_failed (resized : PILImage) (e : exn) :
    clicked = true ->
    run_shape key clicked s
      (Done tt,
       {| rendered :=
            page_head key
            ++ [ShowImage resized "Uploaded Medical Image";
                Button "Analyze Image";
                Error ("Analysis error: " ++ e)%string];
          session_state := s |})
| shape_no_agent (resized : PILImage) :
    clicked = true -> truthy key = false ->
    run_shape key clicked s
      (Done tt,
       {| rendered :=
            page_head key
            ++ [ShowImage resized "Uploaded Medical Image";
                Button "Analyze Image";
                SaveImage "temp_resized_image.png" resized;
                Error "Analysis error: 'NoneType' object has no attribute 'run'"];
          session_state := s |})
| shape_model_failed (resized : PILImage) (e : exn) :
    clicked = true -> truthy key = true ->
    run_shape key clicked s
      (Done tt,
       {| rendered :=
            page_head key
            ++ [ShowImage resized "Uploaded Medical Image";
                Button "Analyze Image";
                SaveImage "temp_resized_image.png" resized;
                ModelCall query resized;
                Error ("Analysis error: " ++ e)%string];
          session_state := s |})
| shape_export_failed (resized : PILImage) (response : string) (e : exn) :
    clicked = true -> truthy key = true ->
    run_shape key clicked s
      (Done tt,
       {| rendered :=
            page_head key
            ++ [ShowImage resized "Uploaded Medical Image";
                Button "Analyze Image";
                SaveImage "temp_resized_image.png" resized;
                ModelCall query resized;
                Markdown "### Analysis Results";
                Markdown "---";
                Markdown response;
                Markdown "---";
                Caption "Note: This analysis is generated by AI and should be reviewed by a qualified healthcare professional.";
                Error ("Analysis error: " ++ e)%string];
          session_state :=
            {| analysis_result := Some response;
               analysis_image := Some resized |} |})
| shape_analysed (resized : PILImage) (response : string) :
    clicked = true -> truthy key = true ->
    run_shape key clicked s
      (Done tt,
       {| rendered :=
            page_head key
            ++ [ShowImage resized "Uploaded Medical Image";
                Button "Analyze Image";
                SaveImage "temp_resized_image.png" resized;
                ModelCall query resized;
                Markdown "### Analysis Results";
                Markdown "---";
                Markdown response;
                Markdown "---";
                Caption "Note: This analysis is generated by AI and should be reviewed by a qualified healthcare professional.";
                DownloadButton "Download Analysis as DOCX"
                  (create_docx response resized)
                  "medical_image_analysis.docx"];
          session_state :=
            {| analysis_result := Some response;
               analysis_image := Some resized |} |}).

End RunNotions.

(** * Properties *)

(** ** Strings *)
Section StringFacts.
Import Text.
Local Open Scope string_scope.

Lemma length_append (s t : string) :
  String.length (s ++ t) = String.length s + String.length t.
Proof. induction s as [|c s IH]; simpl; [reflexivity | now rewrite IH]. Qed.

Lemma append_assoc (s t u : string) : (s ++ t) ++ u = s ++ (t ++ u).
Proof. induction s as [|c s IH]; simpl; [reflexivity | now rewrite IH]. Qed.

Lemma append_nil_r (s : string) : s ++ "" = s.
Proof. induction s as [|c s IH]; simpl; [reflexivity | now rewrite IH]. Qed.

Lemma length_drop (n : nat) (s : string) :
  String.length (drop n s) = String.length s - n.
Proof.
  revert s; induction n as [|n IH]; intros [|c s]; simpl; auto.
Qed.

Lemma drop_append (s t : string) : drop (String.length s) (s ++ t) = t.
Proof. induction s as [|c s IH]; simpl; auto. Qed.

Lemma substring_append_skip (s t : string) (a n : nat) :
  substring (String.length s + a) n (s ++ t) = substring a n t.
Proof. induction s as [|c s IH]; simpl; auto. Qed.

Lemma substring_prefix (s t : string) :
  substring 0 (String.length s) (s ++ t) = s.
Proof.
  induction s as [|c s IH]; simpl.
  - now destruct t.
  - now rewrite IH.
Qed.

Lemma slice_shift (p s : string) (a b : nat) :
  slice (p ++ s) (String.length p + a) (String.length p + b) = slice s a b.
Proof.
  unfold slice.
  replace (String.length p + b - (String.length p + a)) with (b - a) by lia.
  apply substring_append_skip.
Qed.

Lemma slice_all (s : string) : slice s 0 (String.length s) = s.
Proof.
  unfold slice. rewrite Nat.sub_0_r.
  induction s as [|c s IH]; simpl; [reflexivity | now rewrite IH].
Qed.

Lemma slice_prefix (s t : string) : slice (s ++ t) 0 (String.length s) = s.
Proof. unfold slice. rewrite Nat.sub_0_r. apply substring_prefix. Qed.

(** [split] and concatenation around a separator. *)
Lemma split_not_nil (sep : ascii) (s : string) : split sep s <> [].
Proof.
  induction s as [|c s IH]; simpl; [discriminate|].
  destruct (Ascii.eqb c sep); [discriminate|].
  destruct (split sep s); [contradiction | discriminate].
Qed.

Lemma split_append (sep : ascii) (a b : string) :
  split sep (a ++ String sep b) = (split sep a ++ split sep b)%list.
Proof.
  induction a as [|c a IH]; simpl.
  - now rewrite Ascii.eqb_refl.
  - destruct (Ascii.eqb c sep).
    + now rewrite IH.
    + rewrite IH. destruct (split sep a) eqn:E; [|reflexivity].
      now apply split_not_nil in E.
Qed.

Lemma mem_replace_empty (c : ascii) (s : string) :
  mem c (replace c "" s) = false.
Proof.
  induction s as [|d s IH]; simpl; [reflexivity|].
  destruct (Ascii.eqb d c) eqn:E; simpl; [exact IH|].
  now rewrite E, IH.
Qed.

Lemma mem_lstrip (c : ascii) (s : string) :
  mem c s = false -> mem c (lstrip s) = false.
Proof.
  induction s as [|d s IH]; simpl; [reflexivity|].
  intros H. apply orb_false_iff in H as [Hd Hs].
  destruct (isspace d); [auto|]. simpl. now rewrite Hd, Hs.
Qed.

Lemma mem_rstrip (c : ascii) (s : string) :
  mem c s = false -> mem c (rstrip s) = false.
Proof.
  induction s as [|d s IH]; simpl; [reflexivity|].
  intros H. apply orb_false_iff in H as [Hd Hs].
  specialize (IH Hs).
  destruct (rstrip s) as [|e r] eqn:E.
  - destruct (isspace d); simpl; [reflexivity | now rewrite Hd].
  - simpl in *. now rewrite Hd, IH.
Qed.

Lemma mem_strip (c : ascii) (s : string) :
  mem c s = false -> mem c (strip s) = false.
Proof. intros H. apply mem_lstrip, mem_rstrip, H. Qed.

(** A character that is not white space survives [strip]. *)
Lemma mem_lstrip_keep (c : ascii) (s : string) :
  isspace c = false -> mem c s = true -> mem c (lstrip s) = true.
Proof.
  intros Hc. induction s as [|d s IH]; simpl; [discriminate|].
  intros H. destruct (isspace d) eqn:Ed.
  - apply orb_true_iff in H as [H|H]; [|auto].
    apply Ascii.eqb_eq in H. congruence.
  - exact H.
Qed.

Lemma mem_rstrip_keep (c : ascii) (s : string) :
  isspace c = false -> mem c s = true -> mem c (rstrip s) = true.
Proof.
  intros Hc. induction s as [|d s IH]; simpl; [discriminate|].
  intros H. destruct (mem c s) eqn:Es.
  - specialize (IH eq_refl). destruct (rstrip s) as [|e r]; [discriminate|].
    change (mem c (String d (String e r))) with (Ascii.eqb d c || mem c (String e r)).
    rewrite IH. apply orb_true_r.
  - rewrite orb_false_r in H. apply Ascii.eqb_eq in H. subst d.
    destruct (rstrip s) as [|e r]; [rewrite Hc|]; simpl;
      now rewrite Ascii.eqb_refl.
Qed.

Lemma mem_strip_keep (c : ascii) (s : string) :
  isspace c = false -> mem c s = true -> mem c (strip s) = true.
Proof. intros Hc H. now apply mem_lstrip_keep, mem_rstrip_keep. Qed.

Lemma mem_append (c : ascii) (s t : string) :
  mem c (s ++ t) = mem c s || mem c t.
Proof.
  induction s as [|d s IH]; simpl; [reflexivity|].
  now rewrite IH, orb_assoc.
Qed.

End StringFacts.

(** ** The scan of the bold pattern *)
Section ScanFacts.
Import Text Regex Docx.
Local Open Scope string_scope.

Lemma startswith_neq (a c : ascii) (p s : string) :
  a <> c -> startswith (String a p) (String c s) = false.
Proof.
  intros H. unfold startswith. cbn [prefix].
  destruct (ascii_dec a c); [contradiction | reflexivity].
Qed.

Lemma startswith_eq (a : ascii) (p s : string) :
  startswith (String a p) (String a s) = startswith p s.
Proof.
  unfold startswith. cbn [prefix].
  destruct (ascii_dec a a); [reflexivity | contradiction].
Qed.

Lemma startswith_nil (s : string) : startswith "" s = true.
Proof. now destruct s. Qed.

Lemma match_here_length (s g : string) (len : nat) :
  match_here s = Some (g, len) -> 4 <= len.
Proof.
  unfold match_here. destruct (delim_at s); [|discriminate].
  destruct (lazy_inner _ _); [|discriminate].
  intros [= _ <-]. lia.
Qed.

Lemma scan_fuel (f1 f2 pos : nat) (s : string) :
  String.length s <= f1 -> String.length s <= f2 ->
  scan f1 pos s = scan f2 pos s.
Proof.
  revert f2 pos s. induction f1 as [|f1 IH]; intros f2 pos s H1 H2.
  - destruct s; [|simpl in H1; lia]. now destruct f2.
  - destruct f2 as [|f2]; [destruct s; [reflexivity | simpl in H2; lia]|].
    destruct s as [|c s]; [reflexivity|].
    cbn [scan]. destruct (match_here (String c s)) as [[g len]|] eqn:E.
    + f_equal. apply match_here_length in E.
      apply IH; rewrite length_drop; cbn [String.length] in *; lia.
    + apply IH; cbn [String.length] in *; lia.
Qed.

Lemma scan_shift (k fuel pos : nat) (s : string) :
  scan fuel (k + pos) s = map (shift k) (scan fuel pos s).
Proof.
  revert pos s. induction fuel as [|fuel IH]; intros pos s; [reflexivity|].
  destruct s as [|c s]; [reflexivity|].
  cbn [scan]. destruct (match_here (String c s)) as [[g len]|].
  - cbn [map]. f_equal.
    + unfold shift; simpl. f_equal. lia.
    + rewrite <- IH. f_equal. lia.
  - rewrite <- IH. f_equal. lia.
Qed.

(** No match starts inside text that has no delimiter character. *)
Lemma scan_skip (pre rest : string) (fuel pos : nat) :
  no_delim pre = true ->
  String.length (pre ++ rest) <= fuel ->
  scan fuel pos (pre ++ rest)
  = scan (fuel - String.length pre) (pos + String.length pre) rest.
Proof.
  revert fuel pos. induction pre as [|c pre IH]; intros fuel pos Hd Hf.
  - simpl. now rewrite Nat.sub_0_r, Nat.add_0_r.
  - unfold no_delim in Hd. simpl in Hd.
    apply andb_true_iff in Hd as [Hs Hu].
    apply negb_true_iff, orb_false_iff in Hs as [Hs1 Hs2].
    apply negb_true_iff, orb_false_iff in Hu as [Hu1 Hu2].
    destruct fuel as [|fuel]; [simpl in Hf; lia|].
    change ((String c pre) ++ rest) with (String c (pre ++ rest)).
    cbn [scan].
    assert (Hm : match_here (String c (pre ++ rest)) = None).
    { apply Ascii.eqb_neq in Hs1, Hu1.
      unfold match_here, delim_at.
      now rewrite !startswith_neq by congruence. }
    rewrite Hm, IH.
    + simpl. f_equal. lia.
    + unfold no_delim. now rewrite Hs2, Hu2.
    + simpl in Hf. lia.
Qed.

Lemma fold_add_match (line : string) (ms : list rmatch) (runs : list run)
      (last_idx : nat) :
  (let '(r, l) := fold_left (add_match line) ms (runs, last_idx) in
   if (l <? String.length line)%nat
   then r ++ [plain (slice line l (String.length line))] else r)%list
  = (runs ++ runs_of line ms last_idx)%list.
Proof.
  revert runs last_idx. induction ms as [|m ms IH]; intros runs last_idx.
  - simpl. destruct (last_idx <? String.length line)%nat;
      [reflexivity | now rewrite app_nil_r].
  - cbn [fold_left runs_of]. unfold add_match at 2.
    rewrite IH. destruct (last_idx <? m_start m)%nat;
      now rewrite <- ?app_assoc.
Qed.

Lemma paragraph_runs_unrolled (line : string) :
  paragraph_runs line = runs_of line (finditer line) 0.
Proof.
  unfold paragraph_runs.
  exact (fold_add_match line (finditer line) [] 0).
Qed.

Lemma runs_of_shift (p s : string) (ms : list rmatch) (last_idx : nat) :
  runs_of (p ++ s) (map (shift (String.length p)) ms)
          (String.length p + last_idx)
  = runs_of s ms last_idx.
Proof.
  revert last_idx. induction ms as [|m ms IH]; intros last_idx.
  - simpl. rewrite length_append, slice_shift.
    now replace (String.length p + last_idx <? String.length p + String.length s)%nat
      with (last_idx <? String.length s)%nat
      by (destruct (Nat.ltb_spec last_idx (String.length s));
          symmetry; [apply Nat.ltb_lt | apply Nat.ltb_ge]; lia).
  - cbn [map runs_of]. cbn [shift m_start m_end m_group2].
    rewrite IH, slice_shift.
    now replace (String.length p + last_idx <? String.length p + m_start m)%nat
      with (last_idx <? m_start m)%nat
      by (destruct (Nat.ltb_spec last_idx (m_start m));
          symmetry; [apply Nat.ltb_lt | apply Nat.ltb_ge]; lia).
Qed.

(** *** A pair of [**] markers *)

Lemma has_pair_tail (c a : ascii) (s : string) :
  has_pair c (String a s) = false -> has_pair c s = false.
Proof.
  destruct s as [|b s]; [reflexivity|].
  cbn [has_pair]. intros H. now apply orb_false_iff in H.
Qed.

Lemma has_pair_head (c b : ascii) (s : string) :
  has_pair c (String c (String b s)) = false -> b <> c.
Proof.
  cbn [has_pair]. rewrite Ascii.eqb_refl. intros H.
  apply orb_false_iff in H as [H _]. now apply Ascii.eqb_neq.
Qed.

(** No match starts in text that has no two markers of a kind in a row,
    the [*] that follows it counted in. *)
Lemma scan_skip_pairs (pre rest : string) (fuel pos : nat) :
  has_pair "*" (pre ++ "*") = false ->
  has_pair "_" pre = false ->
  String.length (pre ++ String "*" rest) <= fuel ->
  scan fuel pos (pre ++ String "*" rest)
  = scan (fuel - String.length pre) (pos + String.length pre)
      (String "*" rest).
Proof.
  revert fuel pos. induction pre as [|c pre IH]; intros fuel pos Hs Hu Hf.
  - simpl. now rewrite Nat.sub_0_r, Nat.add_0_r.
  - destruct fuel as [|fuel]; [simpl in Hf; lia|].
    change ((String c pre) ++ String "*" rest)
      with (String c (pre ++ String "*" rest)).
    change ((String c pre) ++ "*") with (String c (pre ++ "*")) in Hs.
    cbn [scan].
    assert (Hm : match_here (String c (pre ++ String "*" rest)) = None).
    { unfold match_here, delim_at.
      assert (H1 : startswith "**" (String c (pre ++ String "*" rest))
                   = false).
      { destruct (ascii_dec "*" c) as [<-|Hc];
          [|now apply startswith_neq].
        rewrite startswith_eq.
        destruct pre as [|d pre].
        - discriminate Hs.
        - apply has_pair_head in Hs.
          change ((String d pre) ++ String "*" rest)
            with (String d (pre ++ String "*" rest)).
          apply startswith_neq. congruence. }
      assert (H2 : startswith "__" (String c (pre ++ String "*" rest))
                   = false).
      { destruct (ascii_dec "_" c) as [<-|Hc];
          [|now apply startswith_neq].
        rewrite startswith_eq.
        destruct pre as [|d pre].
        - now apply startswith_neq.
        - apply has_pair_head in Hu.
          change ((String d pre) ++ String "*" rest)
            with (String d (pre ++ String "*" rest)).
          apply startswith_neq. congruence. }
      now rewrite H1, H2. }
    rewrite Hm, IH.
    + simpl. f_equal. lia.
    + now apply has_pair_tail in Hs.
    + now apply has_pair_tail in Hu.
    + simpl in Hf. lia.
Qed.

(** The lazy group stops at the first closing [**]: all of a text that
    is not empty, has no newline and, after its first character, no two
    [*] in a row, the [*] that follows it counted in. *)
Lemma lazy_inner_stars (inner post : string) :
  inner <> "" ->
  has_pair "*" (drop 1 inner ++ "*") = false ->
  mem newline inner = false ->
  lazy_inner "**" (inner ++ "**" ++ post) = Some inner.
Proof.
  induction inner as [|c inner IH]; intros Hne Hs Hn; [contradiction|].
  simpl in Hn. apply orb_false_iff in Hn as [Hn1 Hn2].
  cbn [drop] in Hs.
  change ((String c inner) ++ "**" ++ post)
    with (String c (inner ++ "**" ++ post)).
  cbn [lazy_inner]. rewrite Hn1.
  destruct inner as [|d inner].
  - change ("" ++ "**" ++ post) with (String "*" (String "*" post)).
    now rewrite !startswith_eq, startswith_nil.
  - rewrite IH; [| discriminate | now apply has_pair_tail in Hs | assumption].
    assert (H1 : startswith "**" ((String d inner) ++ "**" ++ post) = false).
    { change ((String d inner) ++ "**" ++ post)
        with (String d (inner ++ "**" ++ post)).
      destruct (ascii_dec "*" d) as [<-|Hd]; [|now apply startswith_neq].
      rewrite startswith_eq.
      change ((String "*" inner) ++ "*") with (String "*" (inner ++ "*")) in Hs.
      destruct inner as [|b inner].
      - discriminate Hs.
      - apply has_pair_head in Hs.
        change ((String b inner) ++ "**" ++ post)
          with (String b (inner ++ "**" ++ post)).
        apply startswith_neq. congruence. }
    now rewrite H1.
Qed.

Lemma match_here_stars (inner post : string) :
  inner <> "" ->
  has_pair "*" (drop 1 inner ++ "*") = false ->
  mem newline inner = false ->
  match_here ("**" ++ inner ++ "**" ++ post)
  = Some (inner, 2 + String.length inner + 2).
Proof.
  intros. unfold match_here, delim_at.
  change ("**" ++ inner ++ "**" ++ post)
    with (String "*" (String "*" (inner ++ "**" ++ post))).
  rewrite !startswith_eq, startswith_nil. cbn [drop].
  now rewrite lazy_inner_stars.
Qed.

(** The runs of a line around its first pair, given that the scan
    passes over the text before the pair and that the pattern matches
    the pair. *)
Lemma paragraph_runs_pair (dd pre inner post : string) :
  String.length dd = 2 ->
  match_here (dd ++ inner ++ dd ++ post)
  = Some (inner, 2 + String.length inner + 2) ->
  (forall fuel pos,
      String.length (pre ++ dd ++ inner ++ dd ++ post) <= fuel ->
      scan fuel pos (pre ++ dd ++ inner ++ dd ++ post)
      = scan (fuel - String.length pre) (pos + String.length pre)
          (dd ++ inner ++ dd ++ post)) ->
  paragraph_runs (pre ++ dd ++ inner ++ dd ++ post)
  = (plain_run pre ++ bold inner :: paragraph_runs post)%list.
Proof.
  intros Hdd Hm Hskip.
  rewrite !paragraph_runs_unrolled. unfold finditer.
  set (k := 2 + String.length inner + 2).
  assert (Hlen : String.length (pre ++ dd ++ inner ++ dd ++ post)
                 = String.length pre + (k + String.length post)).
  { unfold k. rewrite !length_append, Hdd. lia. }
  assert (Hk' : k = String.length ((dd ++ inner) ++ dd))
    by (unfold k; rewrite !length_append, Hdd; lia).
  assert (Hdrop : drop k (dd ++ inner ++ dd ++ post) = post).
  { rewrite Hk'.
    replace (dd ++ inner ++ dd ++ post) with (((dd ++ inner) ++ dd) ++ post)
      by (now rewrite !append_assoc).
    apply drop_append. }
  rewrite Hskip by lia.
  rewrite Hlen.
  replace (String.length pre + (k + String.length post) - String.length pre)
    with (S (k + String.length post - 1)) by (unfold k; lia).
  assert (Hscan : forall fuel pos,
             scan (S fuel) pos (dd ++ inner ++ dd ++ post)
             = {| m_start := pos; m_end := pos + k; m_group2 := inner |}
                 :: scan fuel (pos + k) post).
  { intros fuel pos.
    remember (dd ++ inner ++ dd ++ post) as line eqn:El.
    destruct line as [|c line].
    - unfold match_here in Hm. now destruct dd.
    - cbn [scan]. fold k in Hm. now rewrite Hm, Hdrop. }
  rewrite Hscan.
  rewrite (scan_fuel _ (String.length post)) by (unfold k; lia).
  replace (0 + String.length pre + k) with (String.length pre + k + 0) by lia.
  rewrite scan_shift. cbn [runs_of m_start m_end m_group2].
  assert (Hp : pre ++ dd ++ inner ++ dd ++ post
               = (pre ++ dd ++ inner ++ dd) ++ post)
    by (now rewrite !append_assoc).
  assert (Hk : String.length pre + k
               = String.length (pre ++ dd ++ inner ++ dd))
    by (unfold k; rewrite !length_append, Hdd; lia).
  f_equal.
  - destruct pre as [|c pre]; [reflexivity|].
    replace (0 <? 0 + String.length (String c pre))%nat with true
      by (symmetry; apply Nat.ltb_lt; simpl; lia).
    unfold plain_run. do 2 f_equal. apply slice_prefix.
  - f_equal. rewrite Hp.
    replace (0 + String.length pre + k)
      with (String.length (pre ++ dd ++ inner ++ dd) + 0) by lia.
    rewrite Hk. apply runs_of_shift.
Qed.

(** The runs of a line around its first pair of [**]. *)
Lemma paragraph_runs_stars (pre inner post : string) :
  has_pair "*" (pre ++ "*") = false ->
  has_pair "_" pre = false ->
  inner <> "" ->
  has_pair "*" (drop 1 inner ++ "*") = false ->
  mem newline inner = false ->
  paragraph_runs (pre ++ "**" ++ inner ++ "**" ++ post)
  = (plain_run pre ++ bold inner :: paragraph_runs post)%list.
Proof.
  intros Hs Hu Hne Hi Hn.
  apply (paragraph_runs_pair "**"); [reflexivity | |].
  - now apply match_here_stars.
  - intros fuel pos Hf.
    exact (scan_skip_pairs pre (String "*" (inner ++ "**" ++ post))
             fuel pos Hs Hu Hf).
Qed.

Lemma paragraph_runs_plain (t : string) :
  no_delim t = true -> paragraph_runs t = plain_run t.
Proof.
  intros H. rewrite paragraph_runs_unrolled. unfold finditer.
  pose proof (scan_skip t "" (String.length t) 0 H) as Hs.
  rewrite append_nil_r in Hs. rewrite Hs by lia.
  rewrite Nat.sub_diag. cbn [scan runs_of].
  destruct t as [|c t]; [reflexivity|].
  replace (0 <? String.length (String c t))%nat with true
    by (symmetry; apply Nat.ltb_lt; simpl; lia).
  unfold plain_run. now rewrite slice_all.
Qed.

End ScanFacts.

(** ** Markdown to document *)
Section DocxFacts.
Import Text Regex Docx.
Local Open Scope string_scope.
Variable image : Type.

(** Each line of the markdown is handled in turn, after the lines before
    it. *)
Lemma create_docx_append (a b : string) (img : image) :
  create_docx (a ++ String newline b) img
  = fold_left add_line (split newline b) (create_docx a img).
Proof.
  unfold create_docx. now rewrite split_append, fold_left_app.
Qed.

Lemma create_docx_line (a line b : string) (img : image) :
  mem newline line = false ->
  create_docx (a ++ String newline (line ++ String newline b)) img
  = fold_left add_line (split newline b)
      (add_line (create_docx a img) line).
Proof.
  intros H. rewrite create_docx_append, split_append, fold_left_app.
  f_equal.
  assert (Hs : split newline line = [line]).
  { clear -H. induction line as [|c l IH]; [reflexivity|].
    simpl in *. apply orb_false_iff in H as [Hc Hl].
    rewrite Hc, IH by assumption. reflexivity. }
  now rewrite Hs.
Qed.

(** C5: a line [### Title] becomes a heading whose text is exactly
    [Title], wherever the loop stands and, in particular, between any two
    parts of the markdown. *)
Theorem heading_line_title :
  (forall doc : document image,
      add_line doc "### Title" = (doc ++ [Heading 1 "Title"])%list)
  /\ (forall (before after : string) (img : image),
         create_docx
           (before ++ String newline ("### Title" ++ String newline after))
           img
         = fold_left add_line (split newline after)
             (create_docx before img ++ [Heading 1 "Title"])%list).
Proof.
  split.
  - reflexivity.
  - intros. now rewrite create_docx_line.
Qed.

(** C6: a line that is exactly [---] adds a page break and nothing else:
    no heading and no paragraph, hence no text run. *)
Theorem rule_line_page_break :
  (forall doc : document image,
      add_line doc "---" = (doc ++ [PageBreak])%list)
  /\ (forall (before after : string) (img : image),
         create_docx
           (before ++ String newline ("---" ++ String newline after)) img
         = fold_left add_line (split newline after)
             (create_docx before img ++ [PageBreak])%list).
Proof.
  split.
  - reflexivity.
  - intros. now rewrite create_docx_line.
Qed.

Lemma strip_has_star (s : string) :
  mem "*" s = true ->
  String.eqb (strip s) "---" = false /\ String.eqb (strip s) "" = false.
Proof.
  intros H. apply (mem_strip_keep "*" s eq_refl) in H.
  split; apply String.eqb_neq; intros E; rewrite E in H; discriminate.
Qed.

(** C7, amended: in a line that is no heading, a text between two [**]
    markers becomes one bold run holding exactly that text, the text
    before it a plain run, and the runs of the rest of the line follow
    (one plain run when the rest has no [*] and no [_]). This is so
    when the text before the pair has no two [*] and no two [_] in a
    row and does not end in [*], and when the text between the markers
    is not empty, has no two [*] in a row after its first character and,
    if longer than one character, does not end in [*]. *)
Theorem bold_pair_runs (doc : document image) (pre inner post : string) :
  startswith "#" pre = false ->
  has_pair "*" (pre ++ "*") = false ->
  has_pair "_" pre = false ->
  inner <> "" ->
  has_pair "*" (drop 1 inner ++ "*") = false ->
  mem newline inner = false ->
  add_line doc (pre ++ "**" ++ inner ++ "**" ++ post)
  = (doc ++ [Paragraph (plain_run pre ++ bold inner :: paragraph_runs post)])%list
  /\ (no_delim post = true ->
      add_line doc (pre ++ "**" ++ inner ++ "**" ++ post)
      = (doc ++ [Paragraph (plain_run pre ++ bold inner :: plain_run post)])%list).
Proof.
  intros Hh Hpre Hpre' Hne Hs Hn.
  assert (Hline : add_line doc (pre ++ "**" ++ inner ++ "**" ++ post)
                  = (doc ++ [Paragraph (plain_run pre ++ bold inner
                                          :: paragraph_runs post)])%list).
  { unfold add_line.
    assert (Hstart : startswith "#" (pre ++ "**" ++ inner ++ "**" ++ post)
                     = false).
    { destruct pre as [|c pre]; [reflexivity|].
      destruct (ascii_dec "#" c) as [<-|Hc].
      - rewrite startswith_eq, startswith_nil in Hh. discriminate.
      - change ((String c pre) ++ "**" ++ inner ++ "**" ++ post)
          with (String c (pre ++ "**" ++ inner ++ "**" ++ post)).
        now apply startswith_neq. }
    assert (Hm : mem "*" (pre ++ "**" ++ inner ++ "**" ++ post) = true).
    { rewrite mem_append. simpl. apply orb_true_r. }
    destruct (strip_has_star _ Hm) as [H1 H2].
    rewrite Hstart, H1, H2. cbn [negb].
    now rewrite paragraph_runs_stars. }
  split; [exact Hline|].
  intros Hpost. now rewrite Hline, paragraph_runs_plain.
Qed.

(** C9: a line that starts with [#] becomes a level 1 heading, however
    many markers lead it, and its text is the line with every [#] taken
    out, stripped: no [#] is left in it, inner ones included. *)
Theorem heading_drops_every_hash :
  (forall (doc : document image) (rest : string),
      add_line doc (String "#" rest)
      = (doc ++ [Heading 1 (strip (replace "#" "" rest))])%list
      /\ mem "#" (strip (replace "#" "" rest)) = false)
  /\ (forall doc : document image,
         add_line doc "## A # B" = (doc ++ [Heading 1 "A  B"])%list).
Proof.
  split.
  - intros doc rest. split.
    + unfold add_line. now rewrite startswith_eq, startswith_nil.
    + apply mem_strip, mem_replace_empty.
  - reflexivity.
Qed.

End DocxFacts.

Section DocxWitnesses.
Import Text Regex Docx.
Local Open Scope string_scope.

Lemma bold_pair_runs_witness :
  add_line (image:=unit) []
    ("* Pleural_space: " ++ "**" ++ "mild" ++ "**" ++ " effusion")
  = [Paragraph [plain "* Pleural_space: "; bold "mild"; plain " effusion"]].
Proof.
  refine (proj2 (bold_pair_runs unit [] "* Pleural_space: " "mild" " effusion"
                   eq_refl eq_refl eq_refl _ eq_refl eq_refl) eq_refl).
  discriminate.
Defined.

(** C7 as stated fails on these lines. A heading keeps the markers of
    the pair in its text and has no run in bold. A [*] at the end of the
    wrapped text, or right before the pair, moves the bold run by one
    character. Two [*] in a row before the pair, or inside the wrapped
    text, pair up with its markers: the bold run is another text. A pair
    inside a pair of [__] is kept, markers and all, in the bold run of
    the outer pair. An empty text between two pairs of [*] is no pair
    at all. *)
Lemma bold_pair_not_rendered :
  add_line (image:=unit) [] "### **1. Image Type**"
  = [Heading 1 "**1. Image Type**"]
  /\ add_line (image:=unit) [] ("**" ++ "a*" ++ "**")
     = [Paragraph [bold "a"; plain "*"]]
  /\ add_line (image:=unit) [] ("x*" ++ "**" ++ "b" ++ "**")
     = [Paragraph [plain "x"; bold "*b"]]
  /\ add_line (image:=unit) [] ("**a " ++ "**" ++ "b" ++ "**")
     = [Paragraph [bold "a "; plain "b**"]]
  /\ add_line (image:=unit) [] ("**" ++ "a**b" ++ "**")
     = [Paragraph [bold "a"; plain "b**"]]
  /\ add_line (image:=unit) [] ("__a " ++ "**" ++ "b" ++ "**" ++ " c__")
     = [Paragraph [bold "a **b** c"]]
  /\ add_line (image:=unit) [] ("**" ++ "" ++ "**")
     = [Paragraph [plain "****"]].
Proof. repeat split. Qed.

End DocxWitnesses.

(** ** The page script *)
Import Text Docx App.
Local Open Scope list_scope.

Section ScriptFacts.
Variable dcmread : upload -> result pixel_array.
Variable pil_open : upload -> result PILImage.
Variable resample : PILImage -> Z * Z -> list Z.
Variable gemini : string -> PILImage -> result string.
Variable st_image : PILImage -> result unit.
Variable image_save : PILImage -> string -> result unit.
Variable docx_save : document PILImage -> result unit.

Lemma medical_agent_none (key : option string) :
  truthy key = false -> medical_agent gemini key = None.
Proof. unfold medical_agent. now intros ->. Qed.

Lemma shell_run (key : option string) (st : state) :
  shell gemini key st
  = (Done tt, {| rendered := rendered st ++ page_head key;
                 session_state := session_state st |}).
Proof.
  unfold page_head, shell, sidebar, medical_agent.
  destruct (truthy key); cbn; unfold emit; cbn; now rewrite <- !app_assoc.
Qed.

Lemma page_head_shell (key : option string) :
  forallb (fun e => negb (is_show_image e) && negb (is_button e)
                    && negb (is_save_image e) && negb (is_model_call e)
                    && negb (is_download e) && negb (is_results e))
          (page_head key) = true
  /\ existsb is_file_uploader (page_head key) = true.
Proof.
  unfold page_head, shell, sidebar, medical_agent.
  destruct (truthy key); cbn; auto.
Qed.

(** C4: when the upload goes to the DICOM branch and decoding raises,
    the run shows the decode error after the page head, produces no
    image and halts in [st.stop()]: nothing is resized or shown, no
    button is offered, nothing is saved, sent to the model or
    exported, and the session state is untouched. *)
Theorem corrupt_dicom_halts (key : option string) (f : upload)
        (clicked : bool) (s : session) (e : exn) :
  is_dicom_name (name f) = true ->
  dcmread f = Raised e ->
  let r := run dcmread pil_open resample gemini st_image image_save
             docx_save key (Some f) clicked s in
  fst r = Halt
  /\ rendered (snd r)
     = page_head key ++ [Error ("Failed to read DICOM file: " ++ e)%string]
  /\ forallb (fun x => negb (is_show_image x) && negb (is_button x)
                       && negb (is_save_image x) && negb (is_model_call x)
                       && negb (is_download x) && negb (is_results x))
             (rendered (snd r)) = true
  /\ session_state (snd r) = s.
Proof.
  intros Hname Hread r.
  assert (Hr : r = (Halt,
                    {| rendered := page_head key
                                   ++ [Error ("Failed to read DICOM file: " ++ e)%string];
                       session_state := s |})).
  { unfold r, run, script, bind at 1. rewrite shell_run. cbn [rendered session_state app].
    unfold bind at 1, ingest. unfold is_dicom_name in Hname. rewrite Hname.
    unfold try_except, bind at 1, bind at 1, lift. rewrite Hread.
    reflexivity. }
  rewrite Hr. cbn [fst snd rendered session_state].
  repeat split.
  rewrite forallb_app. rewrite (proj1 (page_head_shell key)). reflexivity.
Qed.

End ScriptFacts.

(** ** Binary64 arithmetic *)
Section FloatFacts.
Import F64.
Local Open Scope Z_scope.

(** *** Digits and shifts *)

Lemma digits2_bounds (p : positive) :
  2 ^ (Zpos (digits2_pos p) - 1) <= Zpos p < 2 ^ Zpos (digits2_pos p).
Proof.
  induction p as [p IH|p IH|]; cbn [digits2_pos].
  - rewrite Pos2Z.inj_succ.
    replace (Z.succ (Zpos (digits2_pos p)) - 1)
      with (Z.succ (Zpos (digits2_pos p) - 1)) by lia.
    rewrite !Z.pow_succ_r by lia.
    generalize dependent (2 ^ (Zpos (digits2_pos p) - 1)).
    generalize (2 ^ Zpos (digits2_pos p)). lia.
  - rewrite Pos2Z.inj_succ.
    replace (Z.succ (Zpos (digits2_pos p)) - 1)
      with (Z.succ (Zpos (digits2_pos p) - 1)) by lia.
    rewrite !Z.pow_succ_r by lia.
    generalize dependent (2 ^ (Zpos (digits2_pos p) - 1)).
    generalize (2 ^ Zpos (digits2_pos p)). lia.
  - cbn. lia.
Qed.

Lemma digits2_unique (p : positive) (d : Z) :
  2 ^ (d - 1) <= Zpos p < 2 ^ d -> Zpos (digits2_pos p) = d.
Proof.
  intros [Hl Hu]. pose proof (digits2_bounds p) as [Hl' Hu'].
  assert (0 < d).
  { destruct (Z.ltb_spec 0 d); [assumption|].
    rewrite (Z.pow_neg_r 2 (d - 1)) in Hl by lia.
    destruct (Z.eqb_spec d 0) as [->|]; [cbn in Hu; lia|].
    rewrite Z.pow_neg_r in Hu by lia. lia. }
  assert (d - 1 < Zpos (digits2_pos p)).
  { apply (Z.pow_lt_mono_r_iff 2); lia. }
  assert (Zpos (digits2_pos p) - 1 < d).
  { apply (Z.pow_lt_mono_r_iff 2); lia. }
  lia.
Qed.

Lemma digits2_mul_pow2 (p : positive) (k : Z) :
  0 <= k ->
  Zdigits2 (Zpos p * 2 ^ k) = Zpos (digits2_pos p) + k.
Proof.
  intros Hk. pose proof (digits2_bounds p) as [Hl Hu].
  assert (Hpos : 0 < Zpos p * 2 ^ k) by (apply Z.mul_pos_pos; lia).
  destruct (Zpos p * 2 ^ k) as [|q|q] eqn:E; try lia.
  cbn [Zdigits2]. apply digits2_unique. rewrite <- E.
  replace (Zpos (digits2_pos p) + k - 1)
    with ((Zpos (digits2_pos p) - 1) + k) by lia.
  rewrite !Z.pow_add_r by lia.
  split.
  - apply Z.mul_le_mono_nonneg_r; lia.
  - apply Z.mul_lt_mono_pos_r; lia.
Qed.

Lemma iter_xO (m d : positive) :
  Zpos (Pos.iter xO m d) = Zpos m * 2 ^ Zpos d.
Proof.
  induction d as [|d IH] using Pos.peano_ind.
  - cbn. lia.
  - rewrite Pos.iter_succ, Pos2Z.inj_succ, Z.pow_succ_r by lia.
    change (Zpos (Pos.iter xO m d)~0) with (2 * Zpos (Pos.iter xO m d)).
    rewrite IH. lia.
Qed.

Lemma iter_pos_iter {A} (f : A -> A) (p : positive) (x : A) :
  SpecFloat.iter_pos f p x = Pos.iter f x p.
Proof.
  revert x. induction p as [p IH|p IH|]; intros x; cbn [SpecFloat.iter_pos Pos.iter].
  - now rewrite !IH, !Pos.iter_swap.
  - now rewrite !IH.
  - reflexivity.
Qed.

(** Shifting out zero bits keeps the record exact. *)
Lemma shr_1_exact (m : positive) :
  shr_1 {| shr_m := Zpos m~0; shr_r := false; shr_s := false |}
  = {| shr_m := Zpos m; shr_r := false; shr_s := false |}.
Proof. reflexivity. Qed.

Lemma shr_exact (m j : positive) (e : Z) :
  shr {| shr_m := Zpos (Pos.iter xO m j); shr_r := false; shr_s := false |}
      e (Zpos j)
  = ({| shr_m := Zpos m; shr_r := false; shr_s := false |}, e + Zpos j).
Proof.
  unfold shr. f_equal. rewrite iter_pos_iter.
  induction j as [|j IH] using Pos.peano_ind.
  - reflexivity.
  - rewrite Pos.iter_succ_r, Pos.iter_succ. cbn [shr_1]. exact IH.
Qed.


(** *** Rounding a value that needs none *)

Lemma fexp_normal (x : Z) : -1021 <= x -> fexp prec emax x = x - 53.
Proof. intros H. unfold fexp, emin, prec, emax. lia. Qed.

Lemma shr_fexp_canonical (m : positive) (e : Z) :
  Zpos (digits2_pos m) = 53 -> -1074 <= e ->
  shr_fexp prec emax (Zpos m) e loc_Exact
  = ({| shr_m := Zpos m; shr_r := false; shr_s := false |}, e).
Proof.
  intros Hd He. unfold shr_fexp.
  cbn [Zdigits2 shr_record_of_loc]. rewrite Hd, fexp_normal by lia.
  replace (53 + e - 53 - e) with 0 by lia. reflexivity.
Qed.

Lemma round_aux_tail (s : bool) (m : positive) (e : Z) :
  Zpos (digits2_pos m) = 53 -> -1074 <= e <= 971 ->
  (let '(mrs, e') := shr_fexp prec emax (Zpos m) e loc_Exact in
   match shr_m mrs with
   | 0 => S754_zero s
   | Zpos m' =>
       if e' <=? emax - prec then S754_finite s m' e' else S754_infinity s
   | Zneg _ => S754_nan
   end) = S754_finite s m e.
Proof.
  intros Hd He. rewrite shr_fexp_canonical by lia. cbn [shr_m].
  replace (e <=? emax - prec) with true
    by (symmetry; apply Z.leb_le; unfold emax, prec; lia).
  reflexivity.
Qed.

Lemma round_aux_canonical (s : bool) (m : positive) (e : Z) :
  Zpos (digits2_pos m) = 53 -> -1074 <= e <= 971 ->
  binary_round_aux prec emax s (Zpos m) e loc_Exact = S754_finite s m e.
Proof.
  intros Hd He. unfold binary_round_aux.
  rewrite shr_fexp_canonical by lia.
  cbn [loc_of_shr_record shr_m round_nearest_even].
  now apply round_aux_tail.
Qed.

Lemma mant_spec (n : positive) :
  Zpos n < 2 ^ 53 ->
  Zpos (mant n) = Zpos n * 2 ^ (53 - Zpos (digits2_pos n))
  /\ Zpos (digits2_pos (mant n)) = 53
  /\ -52 <= expo n <= 0.
Proof.
  intros Hn. pose proof (digits2_bounds n) as [Hl Hu].
  assert (Hd : Zpos (digits2_pos n) <= 53).
  { destruct (Z.leb_spec (Zpos (digits2_pos n)) 53); [assumption|].
    assert (2 ^ 53 <= 2 ^ (Zpos (digits2_pos n) - 1))
      by (apply Z.pow_le_mono_r; lia).
    lia. }
  assert (Hm : Zpos (mant n) = Zpos n * 2 ^ (53 - Zpos (digits2_pos n))).
  { unfold mant. rewrite Z2Pos.id; [reflexivity|].
    apply Z.mul_pos_pos; [lia|]. apply Z.pow_pos_nonneg; lia. }
  split; [exact Hm|]. split; [|unfold expo; lia].
  pose proof (digits2_mul_pow2 n (53 - Zpos (digits2_pos n))) as H.
  rewrite <- Hm in H. cbn [Zdigits2] in H. rewrite H; lia.
Qed.

Lemma of_int_pos (n : positive) :
  Zpos n < 2 ^ 53 ->
  of_int (Zpos n) = S754_finite false (mant n) (expo n).
Proof.
  intros Hn. destruct (mant_spec n Hn) as (Hm & Hd & He).
  unfold of_int, binary_normalize, binary_round.
  rewrite fexp_normal by lia.
  replace (Zpos (digits2_pos n) + 0 - 53) with (expo n)
    by (unfold expo; lia).
  unfold shl_align. rewrite Z.sub_0_r.
  destruct (expo n) as [|q|q] eqn:E; [| lia |].
  - assert (Hmn : mant n = n).
    { apply Pos2Z.inj. rewrite Hm. unfold expo in E.
      replace (53 - Zpos (digits2_pos n)) with 0 by lia. lia. }
    rewrite Hmn in *.
    apply round_aux_canonical; [assumption | lia].
  - assert (Pos.iter xO n q = mant n) as ->.
    { apply Pos2Z.inj. rewrite iter_xO, Hm. unfold expo in E.
      do 2 f_equal. lia. }
    apply round_aux_canonical; [assumption | lia].
Qed.

Lemma of_int_neg (n : positive) :
  Zpos n < 2 ^ 53 ->
  of_int (Zneg n) = S754_finite true (mant n) (expo n).
Proof.
  intros Hn. destruct (mant_spec n Hn) as (Hm & Hd & He).
  unfold of_int, binary_normalize, binary_round.
  rewrite fexp_normal by lia.
  replace (Zpos (digits2_pos n) + 0 - 53) with (expo n)
    by (unfold expo; lia).
  unfold shl_align. rewrite Z.sub_0_r.
  destruct (expo n) as [|q|q] eqn:E; [| lia |].
  - assert (Hmn : mant n = n).
    { apply Pos2Z.inj. rewrite Hm. unfold expo in E.
      replace (53 - Zpos (digits2_pos n)) with 0 by lia. lia. }
    rewrite Hmn in *.
    apply round_aux_canonical; [assumption | lia].
  - assert (Pos.iter xO n q = mant n) as ->.
    { apply Pos2Z.inj. rewrite iter_xO, Hm. unfold expo in E.
      do 2 f_equal. lia. }
    apply round_aux_canonical; [assumption | lia].
Qed.


Lemma of_int_zero : of_int 0 = S754_zero false.
Proof. reflexivity. Qed.

(** *** Order: integers below [2 ^ 53] compare as their floats do *)

Lemma compare_normal (a b : positive) :
  Zpos a < 2 ^ 53 -> Zpos b < 2 ^ 53 ->
  match expo a ?= expo b with
  | Lt => Lt
  | Gt => Gt
  | Eq => Pos.compare_cont Eq (mant a) (mant b)
  end = (Zpos a ?= Zpos b).
Proof.
  intros Ha Hb.
  destruct (mant_spec a Ha) as (Hma & _ & Hea).
  destruct (mant_spec b Hb) as (Hmb & _ & Heb).
  pose proof (digits2_bounds a) as [Hla Hua].
  pose proof (digits2_bounds b) as [Hlb Hub].
  unfold expo in *.
  destruct (Z.compare_spec (Zpos (digits2_pos a) - 53)
                           (Zpos (digits2_pos b) - 53)) as [E|E|E].
  - change (Pos.compare_cont Eq (mant a) (mant b))
      with (mant a ?= mant b)%positive.
    rewrite Pos2Z.inj_compare, Hma, Hmb.
    replace (Zpos (digits2_pos b)) with (Zpos (digits2_pos a)) by lia.
    symmetry. apply Zmult_compare_compat_r.
    apply Z.lt_gt, Z.pow_pos_nonneg; lia.
  - symmetry. apply Z.compare_lt_iff.
    assert (2 ^ Zpos (digits2_pos a) <= 2 ^ (Zpos (digits2_pos b) - 1))
      by (apply Z.pow_le_mono_r; lia).
    lia.
  - symmetry. apply Z.compare_gt_iff.
    assert (2 ^ Zpos (digits2_pos b) <= 2 ^ (Zpos (digits2_pos a) - 1))
      by (apply Z.pow_le_mono_r; lia).
    lia.
Qed.

Lemma compare_of_int (a b : Z) :
  Z.abs a < 2 ^ 53 -> Z.abs b < 2 ^ 53 ->
  SFcompare (of_int a) (of_int b) = Some (a ?= b).
Proof.
  intros Ha Hb.
  destruct a as [|a|a], b as [|b|b];
    rewrite ?of_int_zero, ?of_int_pos, ?of_int_neg by lia;
    try reflexivity.
  - cbn [SFcompare]. f_equal. apply compare_normal; lia.
  - cbn [SFcompare]. f_equal.
    pose proof (compare_normal a b ltac:(lia) ltac:(lia)) as H.
    change (Zpos a ?= Zpos b) with (a ?= b)%positive in H.
    cbn [Z.compare]. rewrite <- H.
    now destruct (expo a ?= expo b).
Qed.

Lemma ltb_of_int (a b : Z) :
  Z.abs a < 2 ^ 53 -> Z.abs b < 2 ^ 53 ->
  ltb (of_int a) (of_int b) = (a <? b).
Proof.
  intros Ha Hb. unfold ltb, SFltb. rewrite compare_of_int by assumption.
  unfold Z.ltb. now destruct (a ?= b).
Qed.

Lemma of_int_not_nan (a : Z) : Z.abs a < 2 ^ 53 -> is_nan (of_int a) = false.
Proof.
  intros Ha. destruct a; rewrite ?of_int_zero, ?of_int_pos, ?of_int_neg by lia;
    reflexivity.
Qed.

Lemma minimum_of_int (a b : Z) :
  Z.abs a < 2 ^ 53 -> Z.abs b < 2 ^ 53 ->
  minimum (of_int a) (of_int b) = of_int (Z.min a b).
Proof.
  intros Ha Hb. unfold minimum.
  rewrite of_int_not_nan, ltb_of_int by assumption.
  destruct (Z.ltb_spec a b); f_equal; lia.
Qed.

Lemma maximum_of_int (a b : Z) :
  Z.abs a < 2 ^ 53 -> Z.abs b < 2 ^ 53 ->
  maximum (of_int a) (of_int b) = of_int (Z.max a b).
Proof.
  intros Ha Hb. unfold maximum.
  rewrite of_int_not_nan, ltb_of_int by assumption.
  destruct (Z.ltb_spec b a); f_equal; lia.
Qed.


(** *** Subtraction of integers is exact *)

Lemma round_aux_shifted (s : bool) (m j : positive) (e : Z) :
  Zpos (digits2_pos m) = 53 -> -1074 <= e -> e + Zpos j <= 971 ->
  binary_round_aux prec emax s (Zpos (Pos.iter xO m j)) e loc_Exact
  = S754_finite s m (e + Zpos j).
Proof.
  intros Hd He Hj. unfold binary_round_aux at 1, shr_fexp at 1.
  assert (Hq : Zdigits2 (Zpos (Pos.iter xO m j)) = 53 + Zpos j).
  { rewrite iter_xO, digits2_mul_pow2 by lia. lia. }
  rewrite Hq, fexp_normal by lia.
  replace (53 + Zpos j + e - 53 - e) with (Zpos j) by lia.
  cbn [shr_record_of_loc]. rewrite shr_exact.
  cbn [loc_of_shr_record shr_m round_nearest_even].
  apply round_aux_tail; [assumption | lia].
Qed.

(** Normalising [n * 2 ^ k] at exponent [- k] gives [float(n)]. *)
Lemma normalize_scaled (n k : Z) :
  Z.abs n < 2 ^ 53 -> 0 <= k <= 1000 ->
  binary_normalize prec emax (n * 2 ^ k) (- k) false = of_int n.
Proof.
  intros Hn Hk.
  assert (Hp : 0 < 2 ^ k) by (apply Z.pow_pos_nonneg; lia).
  assert (Hround : forall (s : bool) (p q : positive),
             Zpos p < 2 ^ 53 -> Zpos q = Zpos p * 2 ^ k ->
             binary_round prec emax s q (- k)
             = S754_finite s (mant p) (expo p)).
  { intros s p q Hlt Hq. destruct (mant_spec p Hlt) as (Hm & Hd & He).
    unfold binary_round.
    assert (Hdq : Zpos (digits2_pos q) = Zpos (digits2_pos p) + k).
    { pose proof (digits2_mul_pow2 p k (proj1 Hk)) as H.
      rewrite <- Hq in H. exact H. }
    rewrite Hdq, fexp_normal by (unfold expo in He; lia).
    replace (Zpos (digits2_pos p) + k + - k - 53) with (expo p)
      by (unfold expo; lia).
    unfold shl_align.
    destruct (expo p - - k) as [|j|j] eqn:E.
    - replace (- k) with (expo p) by lia.
      assert (q = mant p) as ->.
      { apply Pos2Z.inj. rewrite Hq, Hm. f_equal. f_equal.
        unfold expo in E. lia. }
      apply round_aux_canonical; [assumption | lia].
    - assert (q = Pos.iter xO (mant p) j) as ->.
      { apply Pos2Z.inj. rewrite iter_xO, Hq, Hm, <- Z.mul_assoc,
          <- Z.pow_add_r by (unfold expo in *; lia).
        do 2 f_equal. unfold expo in E. lia. }
      replace (expo p) with (- k + Zpos j) by lia.
      apply round_aux_shifted; [assumption | lia | lia].
    - assert (Pos.iter xO q j = mant p) as ->.
      { apply Pos2Z.inj. rewrite iter_xO, Hq, Hm, <- Z.mul_assoc,
          <- Z.pow_add_r by lia.
        do 2 f_equal. unfold expo in E. lia. }
      apply round_aux_canonical; [assumption | lia]. }
  destruct n as [|p|p].
  - reflexivity.
  - rewrite of_int_pos by lia.
    destruct (Zpos p * 2 ^ k) as [|q|q] eqn:E; try lia.
    cbn [binary_normalize]. apply Hround; [lia | now rewrite E].
  - rewrite of_int_neg by lia.
    assert (E : Zneg p * 2 ^ k = - (Zpos p * 2 ^ k)) by lia.
    destruct (Zpos p * 2 ^ k) as [|q|q] eqn:E'; try lia.
    rewrite E. cbn [Z.opp binary_normalize].
    apply Hround; [lia | now rewrite E'].
Qed.

Lemma shl_align_fst (m : positive) (e e' : Z) :
  e' <= e ->
  Zpos (fst (shl_align m e e')) = Zpos m * 2 ^ (e - e').
Proof.
  intros H. unfold shl_align.
  destruct (e' - e) as [|j|j] eqn:E; cbn [fst]; try lia.
  - replace (e - e') with 0 by lia. lia.
  - rewrite iter_xO. do 2 f_equal. lia.
Qed.

Lemma sub_of_int (a b : Z) :
  Z.abs a < 2 ^ 52 -> Z.abs b < 2 ^ 52 ->
  sub (of_int a) (of_int b) = of_int (a - b).
Proof.
  intros Ha Hb.
  assert (H52 : 2 ^ 53 = 2 * 2 ^ 52) by reflexivity.
  assert (Hfin : forall (sa sb : bool) (p q : positive),
             Zpos p < 2 ^ 52 -> Zpos q < 2 ^ 52 ->
             sub (S754_finite sa (mant p) (expo p))
                 (S754_finite sb (mant q) (expo q))
             = of_int (cond_Zopp sa (Zpos p) - cond_Zopp sb (Zpos q))).
  { intros sa sb p q Hp Hq.
    destruct (mant_spec p) as (Hmp & _ & Hep); [lia|].
    destruct (mant_spec q) as (Hmq & _ & Heq); [lia|].
    unfold sub, SFsub.
    set (ez := Z.min (expo p) (expo q)).
    rewrite !shl_align_fst by (unfold ez; lia).
    rewrite Hmp, Hmq, <- !Z.mul_assoc, <- !Z.pow_add_r
      by (unfold expo in *; unfold ez; lia).
    replace (53 - Zpos (digits2_pos p) + (expo p - ez)) with (- ez)
      by (unfold expo; lia).
    replace (53 - Zpos (digits2_pos q) + (expo q - ez)) with (- ez)
      by (unfold expo; lia).
    replace (cond_Zopp sa (Zpos p * 2 ^ (- ez))
             - cond_Zopp sb (Zpos q * 2 ^ (- ez)))
      with ((cond_Zopp sa (Zpos p) - cond_Zopp sb (Zpos q)) * 2 ^ (- ez))
      by (destruct sa, sb; cbn [cond_Zopp]; lia).
    replace ez with (- - ez) at 2 by lia.
    apply normalize_scaled; [|unfold ez; lia].
    destruct sa, sb; cbn [cond_Zopp]; lia. }
  destruct a as [|p|p], b as [|q|q].
  - reflexivity.
  - change (0 - Zpos q) with (Zneg q).
    now rewrite of_int_zero, of_int_pos, of_int_neg by lia.
  - change (0 - Zneg q) with (Zpos q).
    now rewrite of_int_zero, of_int_pos, of_int_neg by lia.
  - rewrite Z.sub_0_r, of_int_zero. now rewrite of_int_pos by lia.
  - rewrite !of_int_pos by lia. now rewrite (Hfin false false) by lia.
  - rewrite of_int_pos, of_int_neg by lia.
    now rewrite (Hfin false true) by lia.
  - rewrite Z.sub_0_r, of_int_zero. now rewrite of_int_neg by lia.
  - rewrite of_int_pos, of_int_neg by lia.
    now rewrite (Hfin true false) by lia.
  - rewrite !of_int_neg by lia. now rewrite (Hfin true true) by lia.
Qed.


(** *** A quotient of equal operands is one *)

Lemma div_eucl_div_mod (a b : Z) : Z.div_eucl a b = (a / b, a mod b).
Proof. unfold Z.div, Z.modulo. now destruct (Z.div_eucl a b). Qed.

Lemma new_location_zero (n : Z) : new_location n 0 = loc_Exact.
Proof.
  unfold new_location, new_location_even, new_location_odd.
  now destruct (Z.even n).
Qed.

Lemma div_self (s : bool) (m : positive) (e : Z) :
  div (S754_finite s m e) (S754_finite s m e) = of_int 1.
Proof.
  unfold div, SFdiv, SFdiv_core_binary.
  replace (Zdigits2 (Zpos m) + e - (Zdigits2 (Zpos m) + e)) with 0 by lia.
  replace (e - e) with 0 by lia.
  change (Z.min (fexp prec emax 0) 0) with (-53).
  change (0 - -53) with 53. cbv iota.
  rewrite Z.shiftl_mul_pow2, div_eucl_div_mod by lia.
  rewrite (Z.mul_comm (Zpos m)), Z.div_mul, Z.mod_mul by lia.
  rewrite new_location_zero. now destruct s.
Qed.

Lemma div_self_of_int (n : Z) :
  n <> 0 -> Z.abs n < 2 ^ 53 -> div (of_int n) (of_int n) = of_int 1.
Proof.
  intros H0 Hn. destruct n as [|p|p]; [contradiction| |].
  - rewrite of_int_pos by lia. apply div_self.
  - rewrite of_int_neg by lia. apply div_self.
Qed.

Lemma div_zero_of_int (p : positive) :
  Zpos p < 2 ^ 53 -> div (of_int 0) (of_int (Zpos p)) = S754_zero false.
Proof. intros H. now rewrite of_int_pos by lia. Qed.

Lemma astype_uint8_range (x : float) : 0 <= astype_uint8 x <= 255.
Proof.
  unfold astype_uint8. destruct (trunc x); [|lia].
  pose proof (Z.mod_pos_bound z 256). lia.
Qed.

End FloatFacts.

(** ** DICOM normalisation *)
Section NormalizeFacts.
Import F64 Dicom.
Local Open Scope Z_scope.

Lemma fold_min_spec (l : list Z) (x : Z) :
  let m := fold_left Z.min l x in
  (m = x \/ In m l) /\ m <= x /\ (forall y, In y l -> m <= y).
Proof.
  revert x. induction l as [|a l IH]; intros x; cbv zeta; cbn [fold_left In].
  - repeat split; auto; try lia; try (now intros y []).
  - destruct (IH (Z.min x a)) as (Hin & Hle & Hall). cbv zeta in *.
    split; [|split].
    + destruct Hin as [E|Hin]; [|auto].
      destruct (Z.min_spec x a) as [[_ E']|[_ E']];
        [left | right; left]; congruence.
    + lia.
    + intros y [<-|Hy]; [lia | auto].
Qed.

Lemma fold_max_spec (l : list Z) (x : Z) :
  let m := fold_left Z.max l x in
  (m = x \/ In m l) /\ x <= m /\ (forall y, In y l -> y <= m).
Proof.
  revert x. induction l as [|a l IH]; intros x; cbv zeta; cbn [fold_left In].
  - repeat split; auto; try lia; try (now intros y []).
  - destruct (IH (Z.max x a)) as (Hin & Hle & Hall). cbv zeta in *.
    split; [|split].
    + destruct Hin as [E|Hin]; [|auto].
      destruct (Z.max_spec x a) as [[_ E']|[_ E']];
        [right; left | left]; congruence.
    + lia.
    + intros y [<-|Hy]; [lia | auto].
Qed.

Lemma list_min_spec (l : list Z) (m : Z) :
  list_min l = Some m <-> In m l /\ (forall y, In y l -> m <= y).
Proof.
  destruct l as [|x l]; cbn [list_min].
  - split; [discriminate | intros [[] _]].
  - pose proof (fold_min_spec l x) as (Hin & Hle & Hall). split.
    + intros [= <-]. split.
      * destruct Hin as [->|Hin]; [now left | now right].
      * intros y [<-|Hy]; auto.
    + intros [Hm Hmin]. f_equal. apply Z.le_antisymm.
      * destruct Hm as [<-|Hm]; auto.
      * apply Hmin. destruct Hin as [->|Hin]; [now left | now right].
Qed.

Lemma list_max_spec (l : list Z) (m : Z) :
  list_max l = Some m <-> In m l /\ (forall y, In y l -> y <= m).
Proof.
  destruct l as [|x l]; cbn [list_max].
  - split; [discriminate | intros [[] _]].
  - pose proof (fold_max_spec l x) as (Hin & Hle & Hall). split.
    + intros [= <-]. split.
      * destruct Hin as [->|Hin]; [now left | now right].
      * intros y [<-|Hy]; auto.
    + intros [Hm Hmax]. f_equal. apply Z.le_antisymm.
      * apply Hmax. destruct Hin as [->|Hin]; [now left | now right].
      * destruct Hm as [<-|Hm]; auto.
Qed.

Lemma fold_minimum_of_int (l : list Z) (x : Z) :
  Z.abs x < 2 ^ 53 -> Forall (fun y => Z.abs y < 2 ^ 53) l ->
  fold_left minimum (map of_int l) (of_int x)
  = of_int (fold_left Z.min l x).
Proof.
  revert x. induction l as [|a l IH]; intros x Hx Hl; [reflexivity|].
  inversion Hl as [|? ? Ha Hl']; subst.
  cbn [map fold_left]. rewrite minimum_of_int by assumption.
  apply IH; [lia | assumption].
Qed.

Lemma fold_maximum_of_int (l : list Z) (x : Z) :
  Z.abs x < 2 ^ 53 -> Forall (fun y => Z.abs y < 2 ^ 53) l ->
  fold_left maximum (map of_int l) (of_int x)
  = of_int (fold_left Z.max l x).
Proof.
  revert x. induction l as [|a l IH]; intros x Hx Hl; [reflexivity|].
  inversion Hl as [|? ? Ha Hl']; subst.
  cbn [map fold_left]. rewrite maximum_of_int by assumption.
  apply IH; [lia | assumption].
Qed.

Lemma array_min_of_int (l : list Z) :
  Forall (fun y => Z.abs y < 2 ^ 53) l ->
  array_min (map of_int l) = option_map of_int (list_min l).
Proof.
  destruct l as [|x l]; [reflexivity|]. intros H.
  inversion H; subst. cbn [map array_min list_min option_map].
  now rewrite fold_minimum_of_int.
Qed.

Lemma array_max_of_int (l : list Z) :
  Forall (fun y => Z.abs y < 2 ^ 53) l ->
  array_max (map of_int l) = option_map of_int (list_max l).
Proof.
  destruct l as [|x l]; [reflexivity|]. intros H.
  inversion H; subst. cbn [map array_max list_max option_map].
  now rewrite fold_maximum_of_int.
Qed.

Lemma list_max_shift (l : list Z) (hi c : Z) :
  list_max l = Some hi -> list_max (map (fun v => v - c) l) = Some (hi - c).
Proof.
  rewrite !list_max_spec. intros [Hin Hmax]. split.
  - apply in_map_iff. now exists hi.
  - intros y Hy. apply in_map_iff in Hy as (v & <- & Hv).
    specialize (Hmax v Hv). lia.
Qed.

(** On samples of at most 32 bits the conversion and the shift are exact:
    the result is [scaled] of each sample. *)
Lemma normalize_scaled_samples (px : list Z) (lo hi : Z) :
  Forall valid_sample px ->
  list_min px = Some lo -> list_max px = Some hi ->
  normalize px = Ok (map (scaled lo hi) px).
Proof.
  intros Hv Hlo Hhi. unfold valid_sample in Hv.
  assert (H31 : 2 ^ 31 = 2147483648) by reflexivity.
  assert (H32 : 2 ^ 32 = 4294967296) by reflexivity.
  assert (H52 : 2 ^ 52 = 4503599627370496) by reflexivity.
  assert (H53 : 2 ^ 53 = 9007199254740992) by reflexivity.
  assert (Hlo' := proj1 (list_min_spec px lo) Hlo).
  assert (Hhi' := proj1 (list_max_spec px hi) Hhi).
  destruct Hlo' as [Hlo_in Hlo_min]. destruct Hhi' as [Hhi_in Hhi_max].
  rewrite Forall_forall in Hv.
  pose proof (Hv lo Hlo_in) as Hlo_v. pose proof (Hv hi Hhi_in) as Hhi_v.
  unfold normalize.
  rewrite array_min_of_int, Hlo
    by (apply Forall_forall; intros y Hy; specialize (Hv y Hy); lia).
  cbn [option_map].
  assert (Hshift : map (fun x => sub x (of_int lo)) (map of_int px)
                   = map of_int (map (fun v => v - lo) px)).
  { rewrite !map_map. apply map_ext_in. intros v Hin.
    specialize (Hv v Hin). apply sub_of_int; lia. }
  rewrite Hshift, array_max_of_int, (list_max_shift px hi lo Hhi).
  2:{ apply Forall_forall. intros y Hy.
      apply in_map_iff in Hy as (v & <- & Hin). specialize (Hv v Hin). lia. }
  cbn [option_map]. rewrite ltb_of_int by lia.
  f_equal. unfold scaled.
  destruct (0 <? hi - lo); rewrite !map_map; reflexivity.
Qed.


Lemma scaled_low (lo hi : Z) :
  valid_sample lo -> valid_sample hi -> lo < hi -> scaled lo hi lo = 0.
Proof.
  unfold valid_sample, scaled. intros Hl Hh Hlt.
  assert (H53 : 2 ^ 53 = 9007199254740992) by reflexivity.
  replace (0 <? hi - lo) with true by (symmetry; apply Z.ltb_lt; lia).
  rewrite Z.sub_diag.
  destruct (hi - lo) as [|p|p] eqn:E; try lia.
  rewrite div_zero_of_int by lia. reflexivity.
Qed.

Lemma scaled_high (lo hi : Z) :
  valid_sample lo -> valid_sample hi -> lo < hi -> scaled lo hi hi = 255.
Proof.
  unfold valid_sample, scaled. intros Hl Hh Hlt.
  assert (H53 : 2 ^ 53 = 9007199254740992) by reflexivity.
  replace (0 <? hi - lo) with true by (symmetry; apply Z.ltb_lt; lia).
  rewrite div_self_of_int by lia. reflexivity.
Qed.

Lemma scaled_flat (c : Z) : scaled c c c = 0.
Proof. unfold scaled. rewrite Z.sub_diag. reflexivity. Qed.

(** C2: for integer samples of at most 32 bits whose least and greatest
    values differ, normalisation returns an 8-bit array whose minimum is 0
    and whose maximum is 255. *)
Theorem normalize_full_range (pixel_array : list Z) (lo hi : Z) :
  Forall valid_sample pixel_array ->
  list_min pixel_array = Some lo ->
  list_max pixel_array = Some hi ->
  lo <> hi ->
  exists out,
    normalize pixel_array = Ok out
    /\ length out = length pixel_array
    /\ list_min out = Some 0
    /\ list_max out = Some 255.
Proof.
  intros Hv Hlo Hhi Hne.
  exists (map (scaled lo hi) pixel_array).
  split; [now apply normalize_scaled_samples|].
  split; [apply length_map|].
  destruct (proj1 (list_min_spec _ _) Hlo) as [Hlo_in Hlo_min].
  destruct (proj1 (list_max_spec _ _) Hhi) as [Hhi_in Hhi_max].
  assert (Hlt : lo < hi) by (specialize (Hlo_min hi Hhi_in); lia).
  rewrite Forall_forall in Hv.
  split.
  - apply list_min_spec. split.
    + apply in_map_iff. exists lo. split; [|assumption].
      apply scaled_low; auto.
    + intros y Hy. apply in_map_iff in Hy as (v & <- & _).
      apply astype_uint8_range.
  - apply list_max_spec. split.
    + apply in_map_iff. exists hi. split; [|assumption].
      apply scaled_high; auto.
    + intros y Hy. apply in_map_iff in Hy as (v & <- & _).
      apply astype_uint8_range.
Qed.

(** C3: for integer samples of at most 32 bits that all have one value,
    normalisation raises nothing and returns zeros, one per sample. *)
Theorem normalize_constant (pixel_array : list Z) (c : Z) :
  Forall valid_sample pixel_array ->
  list_min pixel_array = Some c ->
  list_max pixel_array = Some c ->
  normalize pixel_array = Ok (repeat 0 (length pixel_array)).
Proof.
  intros Hv Hlo Hhi.
  rewrite (normalize_scaled_samples pixel_array c c) by assumption.
  f_equal.
  destruct (proj1 (list_min_spec _ _) Hlo) as [_ Hmin].
  destruct (proj1 (list_max_spec _ _) Hhi) as [_ Hmax].
  assert (Hall : forall v, In v pixel_array -> v = c).
  { intros v Hin. specialize (Hmin v Hin). specialize (Hmax v Hin). lia. }
  clear -Hall. induction pixel_array as [|v l IH]; [reflexivity|].
  cbn [map length repeat]. rewrite (Hall v) by now left.
  rewrite scaled_flat. f_equal. apply IH. intros w Hw. apply Hall. now right.
Qed.

End NormalizeFacts.

Lemma normalize_full_range_witness :
  exists out,
    Dicom.normalize [3; 7; 5; -2; 100]%Z = Ok out
    /\ length out = 5%nat
    /\ Dicom.list_min out = Some 0%Z
    /\ Dicom.list_max out = Some 255%Z.
Proof.
  apply (normalize_full_range [3; 7; 5; -2; 100]%Z (-2) 100).
  - unfold Dicom.valid_sample. repeat constructor; cbn; lia.
  - reflexivity.
  - reflexivity.
  - lia.
Defined.

Lemma normalize_constant_witness :
  Dicom.normalize [1200; 1200; 1200]%Z = Ok [0; 0; 0]%Z.
Proof.
  apply (normalize_constant [1200; 1200; 1200]%Z 1200).
  - unfold Dicom.valid_sample. repeat constructor; cbn; lia.
  - reflexivity.
  - reflexivity.
Defined.

(** ** Division of normal numbers: the quotient is within one unit in the
    last place *)
Section DivFacts.
Import F64.
Local Open Scope Z_scope.

Lemma shr_record_of_loc_m (m : Z) (l : location) :
  shr_m (shr_record_of_loc m l) = m.
Proof. now destruct l as [|[]]. Qed.

Lemma round_nearest_even_cases (m : Z) (l : location) :
  round_nearest_even m l = m \/ round_nearest_even m l = m + 1.
Proof.
  destruct l as [|[]]; cbn [round_nearest_even]; auto.
  destruct (Z.even m); auto.
Qed.

Lemma shr_1_m (r : shr_record) :
  0 < shr_m r -> shr_m (shr_1 r) = shr_m r / 2.
Proof.
  destruct r as [m r s]. cbn [shr_m]. intros Hm.
  destruct m as [|[p|p|]|]; try lia; cbn [shr_1 shr_m].
  - rewrite Pos2Z.inj_xI. apply Z.div_unique with 1; lia.
  - rewrite Pos2Z.inj_xO. apply Z.div_unique with 0; lia.
  - reflexivity.
Qed.

Lemma digits2_53 (q : positive) :
  2 ^ 52 <= Zpos q < 2 ^ 53 -> Zpos (digits2_pos q) = 53.
Proof. intros H. now apply digits2_unique. Qed.

Lemma digits2_54 (q : positive) :
  2 ^ 53 <= Zpos q < 2 ^ 54 -> Zpos (digits2_pos q) = 54.
Proof. intros H. now apply digits2_unique. Qed.

(** The second half of [binary_round_aux] on a rounded mantissa, which
    may have reached [2 ^ 53]. *)
Lemma round_aux_renorm (m : positive) (e : Z) :
  2 ^ 52 <= Zpos m <= 2 ^ 53 -> -1074 <= e <= 970 ->
  exists (M : positive) (sh : Z),
    (let '(mrs, e') := shr_fexp prec emax (Zpos m) e loc_Exact in
     match shr_m mrs with
     | 0 => S754_zero false
     | Zpos m' =>
         if e' <=? emax - prec then S754_finite false m' e'
         else S754_infinity false
     | Zneg _ => S754_nan
     end) = S754_finite false M (e + sh)
    /\ Zpos (digits2_pos M) = 53
    /\ 0 <= sh <= 1
    /\ Zpos M * 2 ^ sh = Zpos m.
Proof.
  intros Hm He.
  destruct (Z.eq_dec (Zpos m) (2 ^ 53)) as [E|E].
  - exists (4503599627370496%positive), 1.
    assert (m = 9007199254740992%positive) as -> by (apply Pos2Z.inj; exact E).
    unfold shr_fexp. cbn [Zdigits2 digits2_pos Pos.succ].
    rewrite fexp_normal by lia.
    replace (54 + e - 53 - e) with 1 by lia.
    cbn [shr_record_of_loc shr SpecFloat.iter_pos shr_1 shr_m].
    replace (e + 1 <=? emax - prec) with true
      by (symmetry; apply Z.leb_le; unfold emax, prec; lia).
    repeat split; lia.
  - exists m, 0.
    assert (Hd : Zpos (digits2_pos m) = 53) by (apply digits2_53; lia).
    rewrite round_aux_tail by (auto; lia).
    rewrite Z.add_0_r. repeat split; lia.
Qed.

(** Rounding a quotient mantissa of 53 or 54 bits. *)
Lemma round_aux_quotient (q : positive) (e : Z) (loc : location) :
  2 ^ 52 <= Zpos q < 2 ^ 54 -> -1074 <= e <= 960 ->
  exists (M : positive) (sh : Z),
    binary_round_aux prec emax false (Zpos q) e loc
    = S754_finite false M (e + sh)
    /\ Zpos (digits2_pos M) = 53
    /\ 0 <= sh <= 2
    /\ (Zpos M - 1) * 2 ^ sh <= Zpos q
    /\ Zpos q + 1 <= (Zpos M + 1) * 2 ^ sh.
Proof.
  intros Hq He.
  assert (H52 : 2 ^ 52 = 4503599627370496) by reflexivity.
  assert (H53 : 2 ^ 53 = 9007199254740992) by reflexivity.
  assert (H54 : 2 ^ 54 = 18014398509481984) by reflexivity.
  unfold binary_round_aux.
  destruct (Z.ltb_spec (Zpos q) (2 ^ 53)) as [Hlt|Hge].
  - (* 53 bits: no shift *)
    assert (Hd : Zpos (digits2_pos q) = 53) by (apply digits2_53; lia).
    unfold shr_fexp at 1. cbn [Zdigits2]. rewrite Hd, fexp_normal by lia.
    replace (53 + e - 53 - e) with 0 by lia. cbn [shr].
    rewrite shr_record_of_loc_m.
    set (l := loc_of_shr_record (shr_record_of_loc (Zpos q) loc)).
    destruct (round_nearest_even_cases (Zpos q) l) as [E|E]; rewrite E.
    + destruct (round_aux_renorm q e) as (M & sh & HM & Hd' & Hsh & Hv);
        [lia | lia |].
      exists M, sh. rewrite HM.
      assert (0 < 2 ^ sh) by (apply Z.pow_pos_nonneg; lia).
      repeat split; try lia.
    + destruct (Zpos q + 1) as [|q1|q1] eqn:Eq1; try lia.
      destruct (round_aux_renorm q1 e) as (M & sh & HM & Hd' & Hsh & Hv);
        [lia | lia |].
      exists M, sh. rewrite HM.
      assert (0 < 2 ^ sh) by (apply Z.pow_pos_nonneg; lia).
      repeat split; try lia.
  - (* 54 bits: one bit goes *)
    assert (Hd : Zpos (digits2_pos q) = 54) by (apply digits2_54; lia).
    unfold shr_fexp at 1. cbn [Zdigits2]. rewrite Hd, fexp_normal by lia.
    replace (54 + e - 53 - e) with 1 by lia. cbn [shr SpecFloat.iter_pos].
    rewrite shr_1_m by (rewrite shr_record_of_loc_m; lia).
    rewrite shr_record_of_loc_m.
    set (l := loc_of_shr_record (shr_1 (shr_record_of_loc (Zpos q) loc))).
    pose proof (Z.div_mod (Zpos q) 2 ltac:(lia)) as Hdm.
    pose proof (Z.mod_pos_bound (Zpos q) 2 ltac:(lia)) as Hmod.
    destruct (Zpos q / 2) as [|h|h] eqn:Eh; try lia.
    destruct (round_nearest_even_cases (Zpos h) l) as [E|E]; rewrite E.
    + destruct (round_aux_renorm h (e + 1)) as (M & sh & HM & Hd' & Hsh & Hv);
        [lia | lia |].
      exists M, (1 + sh). rewrite HM.
      replace (e + (1 + sh)) with (e + 1 + sh) by lia.
      rewrite Z.pow_add_r by lia. change (2 ^ 1) with 2.
      assert (0 < 2 ^ sh) by (apply Z.pow_pos_nonneg; lia).
      repeat split; try lia.
    + destruct (Zpos h + 1) as [|h1|h1] eqn:Eh1; try lia.
      destruct (round_aux_renorm h1 (e + 1)) as (M & sh & HM & Hd' & Hsh & Hv);
        [lia | lia |].
      exists M, (1 + sh). rewrite HM.
      replace (e + (1 + sh)) with (e + 1 + sh) by lia.
      rewrite Z.pow_add_r by lia. change (2 ^ 1) with 2.
      assert (0 < 2 ^ sh) by (apply Z.pow_pos_nonneg; lia).
      repeat split; try lia.
Qed.


Lemma div_normal (mx my : positive) (ex ey : Z) :
  Zpos (digits2_pos mx) = 53 -> Zpos (digits2_pos my) = 53 ->
  -500 <= ex <= 500 -> -500 <= ey <= 500 ->
  exists (M : positive) (sh : Z),
    div (S754_finite false mx ex) (S754_finite false my ey)
    = S754_finite false M (ex - ey - 53 + sh)
    /\ Zpos (digits2_pos M) = 53
    /\ 0 <= sh <= 2
    /\ (Zpos M - 1) * 2 ^ sh * Zpos my <= Zpos mx * 2 ^ 53
    /\ Zpos mx * 2 ^ 53 < (Zpos M + 1) * 2 ^ sh * Zpos my.
Proof.
  intros Hdx Hdy Hex Hey.
  assert (H52 : 2 ^ 52 = 4503599627370496) by reflexivity.
  assert (H53 : 2 ^ 53 = 9007199254740992) by reflexivity.
  assert (H54 : 2 ^ 54 = 18014398509481984) by reflexivity.
  pose proof (digits2_bounds mx) as Hbx. rewrite Hdx in Hbx.
  pose proof (digits2_bounds my) as Hby. rewrite Hdy in Hby.
  change (53 - 1) with 52 in *.
  unfold div, SFdiv, SFdiv_core_binary. cbn [Zdigits2 xorb].
  rewrite Hdx, Hdy, fexp_normal by lia.
  replace (Z.min (53 + ex - (53 + ey) - 53) (ex - ey)) with (ex - ey - 53)
    by lia.
  replace (ex - ey - (ex - ey - 53)) with 53 by lia. cbv iota.
  rewrite Z.shiftl_mul_pow2, div_eucl_div_mod by lia.
  pose proof (Z.div_mod (Zpos mx * 2 ^ 53) (Zpos my) ltac:(lia)) as Hdm.
  pose proof (Z.mod_pos_bound (Zpos mx * 2 ^ 53) (Zpos my) ltac:(lia)) as Hmod.
  assert (Hq : 2 ^ 52 <= Zpos mx * 2 ^ 53 / Zpos my < 2 ^ 54).
  { split.
    - apply Z.div_le_lower_bound; [lia|]. nia.
    - apply Z.div_lt_upper_bound; [lia|]. nia. }
  generalize dependent ((Zpos mx * 2 ^ 53) mod Zpos my). intros r Hdm Hmod.
  destruct (Zpos mx * 2 ^ 53 / Zpos my) as [|q|q] eqn:Eq; try lia.
  destruct (round_aux_quotient q (ex - ey - 53) (new_location (Zpos my) r))
    as (M & sh & HM & HdM & Hsh & Hlo & Hhi); [lia | lia |].
  exists M, sh. rewrite HM. repeat split; try lia.
  - apply Z.le_trans with (Zpos q * Zpos my); [|lia].
    apply Z.mul_le_mono_nonneg_r; lia.
  - apply Z.lt_le_trans with ((Zpos q + 1) * Zpos my); [lia|].
    apply Z.mul_le_mono_nonneg_r; lia.
Qed.

End DivFacts.

(** ** The value of a float, as a rational *)
Section ValueFacts.
Import F64.
Local Open Scope Q_scope.

Lemma pow2_pos (e : Z) : 0 < 2 ^ e.
Proof. apply Qpower_0_lt. reflexivity. Qed.

Lemma pow2_add (a b : Z) : 2 ^ (a + b) == 2 ^ a * 2 ^ b.
Proof. apply Qpower_plus. discriminate. Qed.

Lemma pow2_inject (n : Z) : (0 <= n)%Z -> inject_Z (2 ^ n) == 2 ^ n.
Proof. intros H. now rewrite Zpower_Qpower. Qed.

Lemma F2Q_of_int (n : Z) :
  (Z.abs n < 2 ^ 53)%Z -> F2Q (of_int n) == inject_Z n.
Proof.
  intros Hn.
  assert (Hpos : forall (s : bool) (p : positive),
             (Zpos p < 2 ^ 53)%Z ->
             F2Q (S754_finite s (mant p) (expo p))
             == inject_Z (cond_Zopp s (Zpos p))).
  { intros s p Hp. destruct (mant_spec p Hp) as (Hm & _ & He).
    unfold F2Q.
    assert (E : inject_Z (cond_Zopp s (Zpos (mant p)))
                == inject_Z (cond_Zopp s (Zpos p))
                   * 2 ^ (53 - Zpos (digits2_pos p))).
    { rewrite <- pow2_inject by (unfold expo in He; lia).
      rewrite <- inject_Z_mult. destruct s; cbn [cond_Zopp].
      - rewrite Hm. apply inject_Z_injective. lia.
      - now rewrite Hm. }
    rewrite E, <- Qmult_assoc, <- pow2_add.
    replace (53 - Zpos (digits2_pos p) + expo p)%Z with 0%Z
      by (unfold expo; lia).
    change (2 ^ 0) with 1. ring. }
  destruct n as [|p|p].
  - reflexivity.
  - rewrite of_int_pos by lia. apply (Hpos false). lia.
  - rewrite of_int_neg by lia. apply (Hpos true). lia.
Qed.

(** The quotient of two normal numbers is normal and within [2 ^ -52],
    relatively, of the exact quotient. *)
Lemma div_error (mx my : positive) (ex ey : Z) :
  Zpos (digits2_pos mx) = 53%Z -> Zpos (digits2_pos my) = 53%Z ->
  (-500 <= ex <= 500)%Z -> (-500 <= ey <= 500)%Z ->
  let x := S754_finite false mx ex in
  let y := S754_finite false my ey in
  exists (M : positive) (sh : Z),
    div x y = S754_finite false M (ex - ey - 53 + sh)
    /\ Zpos (digits2_pos M) = 53%Z
    /\ (0 <= sh <= 2)%Z
    /\ (1 - ulp1) * (F2Q (div x y) * F2Q y) <= F2Q x
    /\ F2Q x <= (1 + ulp1) * (F2Q (div x y) * F2Q y).
Proof.
  intros Hdx Hdy Hex Hey x y.
  destruct (div_normal mx my ex ey Hdx Hdy Hex Hey)
    as (M & sh & Hdiv & HdM & Hsh & Hlo & Hhi).
  exists M, sh. unfold x, y. rewrite Hdiv.
  split; [reflexivity|]. split; [assumption|]. split; [assumption|].
  pose proof (digits2_bounds M) as HbM. rewrite HdM in HbM.
  change (2 ^ (53 - 1))%Z with 4503599627370496%Z in HbM.
  set (T := (Zpos M * 2 ^ sh * Zpos my)%Z).
  set (N := (Zpos mx * 2 ^ 53)%Z).
  assert (Hs : (0 < 2 ^ sh * Zpos my)%Z).
  { apply Z.mul_pos_pos; [apply Z.pow_pos_nonneg|]; lia. }
  assert (HT : F2Q (S754_finite false M (ex - ey - 53 + sh))
               * F2Q (S754_finite false my ey)
               == inject_Z T * 2 ^ (ex - 53)).
  { unfold F2Q, T. cbn [cond_Zopp].
    rewrite !inject_Z_mult, pow2_inject by lia.
    replace (ex - ey - 53 + sh)%Z with (ex - 53 + sh + - ey)%Z by lia.
    rewrite !pow2_add.
    assert (E : 2 ^ (- ey) * 2 ^ ey == 1).
    { rewrite <- pow2_add. now replace (- ey + ey)%Z with 0%Z by lia. }
    setoid_replace
      (inject_Z (Zpos M) * (2 ^ (ex - 53) * 2 ^ sh * 2 ^ (- ey))
       * (inject_Z (Zpos my) * 2 ^ ey))
      with (inject_Z (Zpos M) * 2 ^ sh * inject_Z (Zpos my) * 2 ^ (ex - 53)
            * (2 ^ (- ey) * 2 ^ ey)) by ring.
    rewrite E. ring. }
  assert (HN : F2Q (S754_finite false mx ex) == inject_Z N * 2 ^ (ex - 53)).
  { unfold F2Q, N. cbn [cond_Zopp].
    rewrite inject_Z_mult, pow2_inject by lia.
    replace ex with (53 + (ex - 53))%Z at 1 by lia.
    rewrite pow2_add. ring. }
  assert (Hlo' : (4503599627370495 * T <= 4503599627370496 * N)%Z).
  { unfold T, N. rewrite <- !Z.mul_assoc in *.
    generalize dependent (2 ^ sh * Zpos my)%Z. intros t Hlo Hhi Ht.
    apply Z.le_trans with (4503599627370496 * ((Zpos M - 1) * t))%Z.
    - rewrite !Z.mul_assoc. apply Z.mul_le_mono_nonneg_r; lia.
    - apply Z.mul_le_mono_nonneg_l; lia. }
  assert (Hhi' : (4503599627370496 * N <= 4503599627370497 * T)%Z).
  { unfold T, N. rewrite <- !Z.mul_assoc in *.
    generalize dependent (2 ^ sh * Zpos my)%Z. intros t Hlo Hhi Ht.
    apply Z.le_trans with (4503599627370496 * ((Zpos M + 1) * t))%Z.
    - apply Z.mul_le_mono_nonneg_l; lia.
    - rewrite !Z.mul_assoc. apply Z.mul_le_mono_nonneg_r; lia. }
  rewrite Zle_Qle, !inject_Z_mult in Hlo', Hhi'.
  change (inject_Z 4503599627370495) with (4503599627370495 # 1) in Hlo'.
  change (inject_Z 4503599627370496) with (4503599627370496 # 1) in Hlo', Hhi'.
  change (inject_Z 4503599627370497) with (4503599627370497 # 1) in Hhi'.
  rewrite HT, HN.
  pose proof (pow2_pos (ex - 53)) as Hc.
  revert Hlo' Hhi' Hc.
  generalize (2 ^ (ex - 53)) (inject_Z T) (inject_Z N).
  intros c t n Hlo' Hhi' Hc.
  unfold ulp1. split; nra.
Qed.


Lemma F2Q_pos (m : positive) (e : Z) : 0 < F2Q (S754_finite false m e).
Proof.
  unfold F2Q. cbn [cond_Zopp].
  apply Qmult_lt_0_compat; [reflexivity | apply pow2_pos].
Qed.

(** [int(x)] of a positive number is the floor of its value. *)
Lemma trunc_floor (m : positive) (e : Z) :
  exists t : Z,
    trunc (S754_finite false m e) = Some t
    /\ (0 <= t)%Z
    /\ inject_Z t <= F2Q (S754_finite false m e)
    /\ F2Q (S754_finite false m e) < inject_Z t + 1.
Proof.
  exists (Z.shiftl (Zpos m) e). split; [reflexivity|].
  unfold F2Q. cbn [cond_Zopp].
  destruct (Z.leb_spec 0 e) as [He|He].
  - rewrite Z.shiftl_mul_pow2 by assumption.
    split; [apply Z.mul_nonneg_nonneg; [lia | apply Z.pow_nonneg; lia]|].
    rewrite inject_Z_mult, pow2_inject by assumption.
    split; lra.
  - rewrite Z.shiftl_div_pow2 by lia.
    assert (Hp : (0 < 2 ^ (- e))%Z) by (apply Z.pow_pos_nonneg; lia).
    pose proof (Z.div_mod (Zpos m) (2 ^ (- e)) ltac:(lia)) as Hdm.
    pose proof (Z.mod_pos_bound (Zpos m) (2 ^ (- e)) Hp) as Hmod.
    set (t := (Zpos m / 2 ^ (- e))%Z) in *.
    assert (Ht : (0 <= t)%Z) by (apply Z.div_pos; lia).
    split; [exact Ht|].
    assert (Hlo : (t * 2 ^ (- e) <= Zpos m)%Z) by lia.
    assert (Hhi : (Zpos m + 1 <= (t + 1) * 2 ^ (- e))%Z) by lia.
    rewrite Zle_Qle, inject_Z_mult, pow2_inject in Hlo by lia.
    rewrite Zle_Qle, inject_Z_mult, !inject_Z_plus, pow2_inject in Hhi by lia.
    assert (E : 2 ^ (- e) * 2 ^ e == 1).
    { rewrite <- pow2_add. now replace (- e + e)%Z with 0%Z by lia. }
    pose proof (pow2_pos e) as He'. pose proof (pow2_pos (- e)) as Hne.
    generalize dependent (2 ^ (- e)). intros c Hlo Hhi E Hc.
    generalize dependent (2 ^ e). intros d E Hd.
    generalize dependent (inject_Z (Zpos m)). intros x Hlo Hhi.
    generalize dependent (inject_Z t). intros n Hlo Hhi.
    change (inject_Z 1) with 1 in Hhi.
    assert (P1 : n * c * d <= x * d)
      by (apply Qmult_le_compat_r; [exact Hlo | apply Qlt_le_weak; exact E]).
    assert (P2 : (x + 1) * d <= (n + 1) * c * d)
      by (apply Qmult_le_compat_r; [exact Hhi | apply Qlt_le_weak; exact E]).
    setoid_replace (n * c * d) with (n * (c * d)) in P1 by ring.
    setoid_replace ((n + 1) * c * d) with ((n + 1) * (c * d)) in P2 by ring.
    rewrite Hd in P1, P2.
    split; lra.
Qed.

(** The arithmetic of the resize in the rationals: two quotients, each
    within [2 ^ -52] of the exact one, and a floor. *)
Lemma height_bounds (A B W H n : Q) :
  0 < A -> 0 < B -> 0 < W -> 0 < H -> H <= 2147483648 # 1 ->
  (1 - ulp1) * (A * H) <= W -> W <= (1 + ulp1) * (A * H) ->
  (1 - ulp1) * (B * A) <= 500 -> 500 <= (1 + ulp1) * (B * A) ->
  n <= B -> B < n + 1 ->
  n * W < 500 * H + 1 /\ 500 * H - 1 < (n + 1) * W.
Proof.
  intros HA HB HW HH Hmax Hl1 Hu1 Hl2 Hu2 Hn1 Hn2. unfold ulp1 in *.
  assert (P1 : n * W <= B * W) by nra.
  assert (P2 : B * W < (n + 1) * W) by nra.
  assert (P3 : B * W <= (1 + (1 # 4503599627370496)) * (A * B * H)) by nra.
  assert (P4 : (1 - (1 # 4503599627370496)) * (A * B * H) <= B * W) by nra.
  assert (P5 : (1 - (1 # 4503599627370496)) * (A * B * H) <= 500 * H) by nra.
  assert (P6 : 500 * H <= (1 + (1 # 4503599627370496)) * (A * B * H)) by nra.
  generalize dependent (A * B * H). intros p P3 P4 P5 P6.
  generalize dependent (B * W). intros bw P1 P2 P3 P4.
  generalize dependent (n * W). intros nw P1.
  generalize dependent ((n + 1) * W). intros nw1 P2.
  split; lra.
Qed.

End ValueFacts.

(** ** Display resize *)
Section ResizeFacts.
Import F64 Resize.
Local Open Scope Z_scope.

(** The height computed for an image of at most [2 ^ 31] pixels a side:
    it is 500 times the height over the width, within one pixel below,
    never above. *)
Lemma display_size_bounds (width height : Z) :
  1 <= width < 2 ^ 31 -> 1 <= height < 2 ^ 31 ->
  exists new_height,
    display_size width height = Ok (500, new_height)
    /\ 0 <= new_height
    /\ new_height * width <= 500 * height <= (new_height + 1) * width.
Proof.
  intros Hw Hh.
  assert (H31 : 2 ^ 31 = 2147483648) by reflexivity.
  assert (H53 : 2 ^ 53 = 9007199254740992) by reflexivity.
  destruct width as [|pw|pw]; try lia. destruct height as [|ph|ph]; try lia.
  destruct (mant_spec pw ltac:(lia)) as (_ & Hdw & Hew).
  destruct (mant_spec ph ltac:(lia)) as (_ & Hdh & Heh).
  destruct (mant_spec 500 ltac:(lia)) as (_ & Hd5 & He5).
  pose proof (F2Q_of_int (Zpos pw) ltac:(lia)) as Qw.
  pose proof (F2Q_of_int (Zpos ph) ltac:(lia)) as Qh.
  pose proof (F2Q_of_int 500 ltac:(lia)) as Q5.
  rewrite of_int_pos in Qw, Qh, Q5 by lia.
  unfold display_size, truediv, new_width.
  replace (Zpos ph =? 0) with false by reflexivity.
  rewrite !of_int_pos by lia.
  pose proof (div_error (mant pw) (mant ph) (expo pw) (expo ph)
                Hdw Hdh ltac:(lia) ltac:(lia)) as D1.
  cbv zeta in D1. destruct D1 as (Ma & sa & Ha & HdA & Hsa & Hl1 & Hu1).
  rewrite Ha in *. unfold int_div_float. rewrite of_int_pos by lia.
  pose proof (div_error (mant 500) Ma (expo 500)
                (expo pw - expo ph - 53 + sa)
                Hd5 HdA ltac:(lia) ltac:(lia)) as D2.
  cbv zeta in D2. destruct D2 as (Mb & sb & Hb & HdB & Hsb & Hl2 & Hu2).
  rewrite Hb in *. unfold int_of_float.
  destruct (trunc_floor Mb (expo 500 - (expo pw - expo ph - 53 + sa) - 53 + sb))
    as (t & Ht & Ht0 & Htl & Htu).
  rewrite Ht. exists t. split; [reflexivity|]. split; [assumption|].
  pose proof (F2Q_pos Ma (expo pw - expo ph - 53 + sa)) as HA.
  pose proof (F2Q_pos Mb (expo 500 - (expo pw - expo ph - 53 + sa) - 53 + sb))
    as HB.
  rewrite Qw in Hl1, Hu1. rewrite Qh in Hl1, Hu1. rewrite Q5 in Hl2, Hu2.
  destruct (height_bounds _ _ (inject_Z (Zpos pw)) (inject_Z (Zpos ph))
              (inject_Z t) HA HB) as [G1 G2]; try assumption.
  - reflexivity.
  - reflexivity.
  - change (2147483648 # 1)%Q with (inject_Z 2147483648).
    rewrite <- Zle_Qle. lia.
  - change 500%Q with (inject_Z 500) in G1, G2.
    change 1%Q with (inject_Z 1) in G1, G2.
    rewrite <- !inject_Z_mult, <- !inject_Z_plus in G1.
    rewrite <- inject_Z_plus, <- !inject_Z_mult in G2.
    rewrite <- Zlt_Qlt in G1.
    assert (G2' : (inject_Z (500 * Zpos ph) + - inject_Z 1
                   < inject_Z ((t + 1) * Zpos pw))%Q) by exact G2.
    rewrite <- inject_Z_opp, <- inject_Z_plus, <- Zlt_Qlt in G2'.
    lia.
Qed.

End ResizeFacts.

(** ** The display size and the aspect ratio *)
Section AspectFacts.
Import F64 Resize.
Local Open Scope Z_scope.

(** C8, amended: for an image of positive width and height (below
    [2 ^ 31], as sizes are), the resize targets the width 500 and a
    height that keeps the aspect ratio within one pixel: the height is
    not above [500 * height / width] and less than one below it in the
    rationals. It is the truncation of that quotient, or one less than
    it, which can only be when the width divides [500 * height]. *)
Theorem display_size_keeps_aspect (width height : Z) :
  1 <= width < 2 ^ 31 -> 1 <= height < 2 ^ 31 ->
  exists new_height,
    display_size width height = Ok (500, new_height)
    /\ 0 <= new_height
    /\ new_height * width <= 500 * height <= (new_height + 1) * width
    /\ (new_height = 500 * height / width
        \/ ((500 * height) mod width = 0
            /\ new_height = 500 * height / width - 1)).
Proof.
  intros Hw Hh.
  destruct (display_size_bounds width height Hw Hh) as (nh & Hd & H0 & Hlo & Hhi).
  exists nh. repeat split; try assumption.
  destruct (Z.eq_dec (500 * height) ((nh + 1) * width)) as [E|E].
  - right. rewrite E. split; [apply Z.mod_mul; lia|].
    rewrite Z.div_mul by lia. lia.
  - left. apply Z.div_unique with (500 * height - nh * width); lia.
Qed.

Lemma display_size_keeps_aspect_witness :
  display_size 1920 1080 = Ok (500, 281).
Proof.
  destruct (display_size_keeps_aspect 1920 1080)
    as (new_height & Hd & _ & _ & [E | [E _]]).
  - split; [lia | reflexivity].
  - split; [lia | reflexivity].
  - rewrite Hd, E. reflexivity.
  - discriminate E.
Defined.

(** C8 as stated fails on an image of 50 by 78 pixels: the quotient
    [500 / (50 / 78)] is 780 and the height computed is 779, for
    [50 / 78] rounds up and [500] divided by it falls short of 780. *)
Lemma display_height_one_below :
  display_size 50 78 = Ok (500, 779) /\ 500 * 78 / 50 = 780.
Proof. split; reflexivity. Qed.

(** The height of a wide image: zero. *)
Lemma display_size_wide (width height : Z) :
  1 <= height -> width < 2 ^ 31 -> 500 * height < width ->
  display_size width height = Ok (500, 0).
Proof.
  intros Hh Hw Hwide.
  assert (H31 : 2 ^ 31 = 2147483648) by reflexivity.
  destruct (display_size_bounds width height ltac:(lia) ltac:(lia))
    as (nh & Hd & H0 & Hlo & Hhi).
  rewrite Hd. repeat f_equal.
  destruct (Z.eq_dec nh 0) as [E|E]; [assumption|].
  assert (1 * width <= nh * width)
    by (apply Z.mul_le_mono_nonneg_r; lia).
  lia.
Qed.

End AspectFacts.

(** ** Runs of the script, step by step *)
Section RunFacts.
Import Text Docx F64 Resize App.
Local Open Scope list_scope.

Variable dcmread : upload -> result pixel_array.
Variable pil_open : upload -> result PILImage.
Variable resample : PILImage -> Z * Z -> list Z.
Variable gemini : string -> PILImage -> result string.
Variable st_image : PILImage -> result unit.
Variable image_save : PILImage -> string -> result unit.
Variable docx_save : document PILImage -> result unit.

(** A run with an upload, after the page head. *)
Lemma run_upload (key : option string) (f : upload) (clicked : bool)
      (s : session) :
  run dcmread pil_open resample gemini st_image image_save
    docx_save key (Some f) clicked s
  = (image <- ingest dcmread pil_open f ;;
     '(resized_image, analyze_button) <-
       present resample st_image clicked image ;;
     if analyze_button
     then analyze gemini image_save docx_save key resized_image
     else ret tt)
      {| rendered := page_head key; session_state := s |}.
Proof. unfold run, script, bind at 1. rewrite shell_run. reflexivity. Qed.

(** An upload that is no DICOM file by its name goes to [PILImage.open]. *)
Lemma ingest_plain (f : upload) (st : state) :
  is_dicom_name (name f) = false ->
  ingest dcmread pil_open f st
  = match pil_open f with
    | Ok img => (Done (Some img), st)
    | Raised e => (Exc e, st)
    end.
Proof.
  intros Hname. unfold ingest. unfold is_dicom_name in Hname. rewrite Hname.
  unfold bind, lift. now destruct (pil_open f).
Qed.

(** A DICOM file goes through [dcmread] and the normalisation; whatever
    either raises is reported and leaves no image. *)
Lemma ingest_dicom (f : upload) (st : state) :
  is_dicom_name (name f) = true ->
  ingest dcmread pil_open f st
  = match dcmread f with
    | Ok ds =>
        match Dicom.normalize (samples ds) with
        | Ok px => (Done (Some (fromarray (shape ds) px)), st)
        | Raised e =>
            (Done None,
             {| rendered := rendered st
                            ++ [Error ("Failed to read DICOM file: " ++ e)%string];
                session_state := session_state st |})
        end
    | Raised e =>
        (Done None,
         {| rendered := rendered st
                        ++ [Error ("Failed to read DICOM file: " ++ e)%string];
            session_state := session_state st |})
    end.
Proof.
  intros Hname. unfold ingest. unfold is_dicom_name in Hname. rewrite Hname.
  unfold try_except, bind, lift.
  destruct (dcmread f) as [ds|e]; [|reflexivity].
  cbn [ret]. now destruct (Dicom.normalize (samples ds)).
Qed.

(** The display of an image whose resize succeeds and that the page
    accepts. *)
Lemma present_shown (clicked : bool) (img resized : PILImage)
      (target : Z * Z) (st : state) :
  display_size (fst (size img)) (snd (size img)) = Ok target ->
  resize resample img target = Ok resized ->
  st_image resized = Ok tt ->
  present resample st_image clicked (Some img) st
  = (Done (resized, clicked),
     {| rendered := rendered st
                    ++ [ShowImage resized "Uploaded Medical Image";
                        Button "Analyze Image"];
        session_state := session_state st |}).
Proof.
  intros Hsize Hresize Hshow. unfold present, bind at 1. cbn [ret].
  destruct (size img) as [width height]. cbn [fst snd] in Hsize.
  unfold bind at 1, lift. rewrite Hsize. cbn [ret].
  unfold bind at 1. rewrite Hresize. cbn [ret].
  unfold bind at 1. rewrite Hshow. cbn [ret].
  unfold bind, emit, ret. cbn. now rewrite <- app_assoc.
Qed.

(** The display of an image that the page refuses. *)
Lemma present_hidden (clicked : bool) (img resized : PILImage)
      (target : Z * Z) (e : exn) (st : state) :
  display_size (fst (size img)) (snd (size img)) = Ok target ->
  resize resample img target = Ok resized ->
  st_image resized = Raised e ->
  present resample st_image clicked (Some img) st = (Exc e, st).
Proof.
  intros Hsize Hresize Hshow. unfold present, bind at 1. cbn [ret].
  destruct (size img) as [width height]. cbn [fst snd] in Hsize.
  unfold bind at 1, lift. rewrite Hsize. cbn [ret].
  unfold bind at 1. rewrite Hresize. cbn [ret].
  unfold bind at 1. now rewrite Hshow.
Qed.

(** The display of an image whose resize is refused. *)
Lemma present_refused (clicked : bool) (img : PILImage) (target : Z * Z)
      (e : exn) (st : state) :
  display_size (fst (size img)) (snd (size img)) = Ok target ->
  resize resample img target = Raised e ->
  present resample st_image clicked (Some img) st = (Exc e, st).
Proof.
  intros Hsize Hresize. unfold present, bind at 1. cbn [ret].
  destruct (size img) as [width height]. cbn [fst snd] in Hsize.
  unfold bind at 1, lift. rewrite Hsize. cbn [ret].
  unfold bind at 1. now rewrite Hresize.
Qed.

Lemma page_head_no_image (key : option string) :
  existsb is_show_image (page_head key) = false.
Proof.
  unfold page_head, shell, sidebar, medical_agent.
  now destruct (truthy key).
Qed.

(** C10: an image more than 500 times as wide as high gets the display
    height 0; [resize] refuses the size, the exception ends the run
    after the page head, and nothing is shown. So a run that shows the
    image had a width of at most 500 times the height. *)
Theorem wide_image_fails (key : option string) (f : upload)
        (img : PILImage) (width height : Z) (clicked : bool) (s : session) :
  (1 <= width < 2 ^ 31)%Z -> (1 <= height < 2 ^ 31)%Z ->
  is_dicom_name (name f) = false ->
  pil_open f = Ok img ->
  size img = (width, height) ->
  let r := run dcmread pil_open resample gemini st_image image_save
    docx_save key (Some f) clicked s in
  ((500 * height < width)%Z ->
   display_size width height = Ok (500, 0)%Z
   /\ resize resample img (500, 0)%Z = Raised "height and width must be > 0"
   /\ fst r = Exc "height and width must be > 0"
   /\ rendered (snd r) = page_head key
   /\ session_state (snd r) = s)
  /\ (existsb is_show_image (rendered (snd r)) = true ->
      (width <= 500 * height)%Z).
Proof.
  intros Hw Hh Hname Himg Hsize r.
  assert (Hwide : (500 * height < width)%Z ->
                  display_size width height = Ok (500, 0)%Z
                  /\ resize resample img (500, 0)%Z
                     = Raised "height and width must be > 0"
                  /\ r = (Exc "height and width must be > 0",
                          {| rendered := page_head key; session_state := s |})).
  { intros Hlt.
    assert (Hd : display_size width height = Ok (500, 0)%Z)
      by (apply display_size_wide; lia).
    split; [exact Hd|]. split; [reflexivity|].
    unfold r. rewrite run_upload. unfold bind at 1.
    rewrite ingest_plain, Himg by assumption.
    unfold bind at 1.
    rewrite (present_refused clicked img (500, 0)%Z
               "height and width must be > 0");
      [reflexivity | now rewrite Hsize | reflexivity]. }
  split.
  - intros Hlt. destruct (Hwide Hlt) as (Hd & Hr & E).
    rewrite E. repeat split; assumption.
  - intros Hshown.
    destruct (Z.lt_ge_cases (500 * height) width) as [Hlt|Hge]; [|lia].
    destruct (Hwide Hlt) as (_ & _ & E). rewrite E in Hshown.
    cbn [snd rendered] in Hshown. rewrite page_head_no_image in Hshown.
    discriminate.
Qed.

End RunFacts.

Section RunWitnesses.
Import Text Docx F64 Resize App.
Local Open Scope list_scope.

Lemma wide_image_fails_witness :
  fst (run (refuses "no DICOM file") (opens_as (sample_image 1000 1))
         blank_resample (answers "No finding.")
         shows_all saves_all builds_all
         None (Some (sample_upload "strip.png")) false fresh_session)
  = Exc "height and width must be > 0".
Proof.
  refine (proj1 (proj2 (proj2
            (proj1 (wide_image_fails
                      (refuses "no DICOM file")
                      (opens_as (sample_image 1000 1))
                      blank_resample (answers "No finding.")
                      shows_all saves_all builds_all
                      None (sample_upload "strip.png") (sample_image 1000 1)
                      1000 1 false fresh_session
                      _ _ eq_refl eq_refl eq_refl) _))));
    first [lia | split; [lia | reflexivity]].
Defined.

Lemma corrupt_dicom_halts_witness :
  fst (run (refuses "File is missing DICOM File Meta Information header")
         (opens_as (sample_image 1 1)) blank_resample (answers "No finding.")
         shows_all saves_all builds_all
         (Some "key") (Some (sample_upload "scan.dicom")) true fresh_session)
  = Halt.
Proof.
  exact (proj1 (corrupt_dicom_halts
                  (refuses "File is missing DICOM File Meta Information header")
                  (opens_as (sample_image 1 1)) blank_resample
                  (answers "No finding.")
                  shows_all saves_all builds_all
                  (Some "key") (sample_upload "scan.dicom") true fresh_session
                  "File is missing DICOM File Meta Information header"
                  eq_refl eq_refl)).
Defined.

(** C1: the code on a 1000 by 800 image named [xray.png], without a
    key. The page says that the service is not available, and offers
    the button all the same; a click saves the image and runs into the
    agent that is not there: the page shows the error of [None.run].
    The model is not called. *)
Lemma no_key_button_offered :
  In (Warning "Service is not available because the API key is not configured.")
     (page_head None)
  /\ run (refuses "no DICOM file") (opens_as (sample_image 1000 800))
       blank_resample (answers "No finding.")
       shows_all saves_all builds_all
       None (Some (sample_upload "xray.png")) false fresh_session
     = (Done tt,
        {| rendered :=
             page_head None
             ++ [ShowImage {| size := (500, 400)%Z; raster := [] |}
                   "Uploaded Medical Image";
                 Button "Analyze Image"];
           session_state := fresh_session |})
  /\ run (refuses "no DICOM file") (opens_as (sample_image 1000 800))
       blank_resample (answers "No finding.")
       shows_all saves_all builds_all
       None (Some (sample_upload "xray.png")) true fresh_session
     = (Done tt,
        {| rendered :=
             page_head None
             ++ [ShowImage {| size := (500, 400)%Z; raster := [] |}
                   "Uploaded Medical Image";
                 Button "Analyze Image";
                 SaveImage "temp_resized_image.png"
                   {| size := (500, 400)%Z; raster := [] |};
                 Error "Analysis error: 'NoneType' object has no attribute 'run'"];
           session_state := fresh_session |}).
Proof.
  split; [vm_compute; tauto|].
  split; vm_compute; reflexivity.
Qed.

End RunWitnesses.

(** ** Lines of the markdown *)
Section LineFacts.
Import Text Regex Docx.
Local Open Scope string_scope.
Variable image : Type.

Lemma split_single (sep : ascii) (s : string) :
  mem sep s = false -> split sep s = [s].
Proof.
  induction s as [|c s IH]; [reflexivity|].
  simpl. intros H. apply orb_false_iff in H as [Hc Hs].
  now rewrite Hc, IH.
Qed.

Lemma split_join (sep : ascii) (parts : list string) :
  parts <> [] -> Forall (fun p => mem sep p = false) parts ->
  split sep (join sep parts) = parts.
Proof.
  induction parts as [|p rest IH]; [contradiction|].
  intros _ Hall. inversion Hall as [|? ? Hp Hrest]; subst.
  destruct rest as [|q rest].
  - now apply split_single.
  - change (join sep (p :: q :: rest))
      with (p ++ String sep (join sep (q :: rest))).
    rewrite split_append, split_single, IH by (auto; discriminate).
    reflexivity.
Qed.

(** X1: [split] loses nothing: joining the pieces with the separator
    gives the text back. *)
Theorem join_split (sep : ascii) (s : string) :
  join sep (split sep s) = s.
Proof.
  induction s as [|c s IH]; [reflexivity|].
  cbn [split]. destruct (Ascii.eqb c sep) eqn:E.
  - apply Ascii.eqb_eq in E. subst c.
    pose proof (split_not_nil sep s) as Hne.
    destruct (split sep s) as [|h t]; [contradiction|].
    cbn [join]. cbn [join] in IH. now rewrite IH.
  - pose proof (split_not_nil sep s) as Hne.
    destruct (split sep s) as [|h t]; [contradiction|].
    destruct t as [|q t].
    + cbn [join] in *. now rewrite IH.
    + change (join sep (String c h :: q :: t))
        with (String c (join sep (h :: q :: t))).
      now rewrite IH.
Qed.

(** X2: the document of a text made of lines is the header followed by
    what the lines add, one after the other. *)
Theorem create_docx_lines (lines : list string) (img : image) :
  lines <> [] ->
  Forall (fun l => mem newline l = false) lines ->
  create_docx (join newline lines) img
  = fold_left add_line lines
      [Heading 0 "Medical Imaging Analysis";
       Heading 1 "Uploaded Image";
       Picture img 5].
Proof.
  intros Hne Hall. unfold create_docx. now rewrite split_join.
Qed.

Lemma add_line_block (doc : document image) (line : string) :
  exists b,
    add_line doc line = (doc ++ b)%list
    /\ forallb line_block b = true
    /\ List.length b <= 1.
Proof.
  unfold add_line.
  destruct (startswith "#" line).
  { eexists. split; [reflexivity|]. split; [reflexivity | simpl; lia]. }
  destruct (String.eqb (strip line) "---").
  { eexists. split; [reflexivity|]. split; [reflexivity | simpl; lia]. }
  destruct (negb (String.eqb (strip line) "")).
  { eexists. split; [reflexivity|]. split; [reflexivity | simpl; lia]. }
  exists []. rewrite app_nil_r. split; [reflexivity|].
  split; [reflexivity | simpl; lia].
Qed.

Lemma fold_add_line_blocks (lines : list string) (doc : document image) :
  exists body,
    fold_left add_line lines doc = (doc ++ body)%list
    /\ forallb line_block body = true
    /\ List.length body <= List.length lines.
Proof.
  revert doc. induction lines as [|l lines IH]; intros doc.
  - exists []. rewrite app_nil_r. repeat split. simpl. lia.
  - cbn [fold_left].
    destruct (add_line_block doc l) as (b & Hb & Pb & Lb).
    destruct (IH (add_line doc l)) as (body & Hbody & Pbody & Lbody).
    exists (b ++ body)%list. rewrite Hbody, Hb, <- app_assoc.
    split; [reflexivity|]. split.
    + rewrite forallb_app. now rewrite Pb, Pbody.
    + rewrite length_app. simpl. lia.
Qed.

(** X3: every document starts with the title, the heading of the image
    and the picture, five inches wide; what follows holds no other
    picture, its headings are all of level 1, and it has at most one
    block for each line of the text. *)
Theorem create_docx_header (analysis_markdown : string) (img : image) :
  exists body,
    create_docx analysis_markdown img
    = ([Heading 0 "Medical Imaging Analysis";
        Heading 1 "Uploaded Image";
        Picture img 5] ++ body)%list
    /\ forallb line_block body = true
    /\ List.length body <= List.length (split newline analysis_markdown).
Proof. unfold create_docx. apply fold_add_line_blocks. Qed.

Lemma startswith_hash_strip (line : string) :
  startswith "#" line = true -> mem "#" (strip line) = true.
Proof.
  intros H. apply mem_strip_keep; [reflexivity|].
  destruct line as [|c line]; [discriminate|].
  destruct (ascii_dec "#" c) as [<-|Hc]; [reflexivity|].
  now rewrite startswith_neq in H.
Qed.

(** X4: a line of white space only, or an empty one, adds nothing to the
    document: no empty paragraph. *)
Theorem blank_line_skipped (doc : document image) (line : string) :
  strip line = "" -> add_line doc line = doc.
Proof.
  intros H. unfold add_line.
  destruct (startswith "#" line) eqn:E.
  - apply startswith_hash_strip in E. rewrite H in E. discriminate.
  - now rewrite H.
Qed.

(** X5: a rule may have white space around it: a line that is [---]
    once stripped adds a page break. *)
Theorem rule_line_spaced (doc : document image) (line : string) :
  strip line = "---" -> add_line doc line = (doc ++ [PageBreak])%list.
Proof.
  intros H. unfold add_line.
  destruct (startswith "#" line) eqn:E.
  - apply startswith_hash_strip in E. rewrite H in E. discriminate.
  - now rewrite H.
Qed.

Lemma replace_append (c : ascii) (new s t : string) :
  replace c new (s ++ t) = replace c new s ++ replace c new t.
Proof.
  induction s as [|d s IH]; [reflexivity|].
  simpl. destruct (Ascii.eqb d c); rewrite IH.
  - now rewrite append_assoc.
  - reflexivity.
Qed.

Lemma replace_absent (c : ascii) (new s : string) :
  mem c s = false -> replace c new s = s.
Proof.
  induction s as [|d s IH]; [reflexivity|].
  simpl. intros H. apply orb_false_iff in H as [Hd Hs].
  now rewrite Hd, IH.
Qed.

Lemma replace_all_hashes (marks : string) :
  all_hashes marks = true -> replace "#" "" marks = "".
Proof.
  induction marks as [|c marks IH]; [reflexivity|].
  simpl. intros H. apply andb_true_iff in H as [Hc Hm].
  rewrite Hc. now apply IH.
Qed.

Lemma strip_space (s : string) : strip (String " " s) = strip s.
Proof.
  unfold strip. cbn [rstrip].
  destruct (rstrip s) as [|d r]; reflexivity.
Qed.

(** X6: heading markers, a space and a title: the heading holds exactly
    the title, and is of level 1 however many the markers. The title has
    no [#] and no white space at its ends. *)
Theorem heading_line_general (doc : document image) (marks title : string) :
  marks <> "" -> all_hashes marks = true ->
  mem "#" title = false -> strip title = title ->
  add_line doc (marks ++ " " ++ title) = (doc ++ [Heading 1 title])%list.
Proof.
  intros Hne Hm Ht Hs. unfold add_line.
  destruct marks as [|c marks]; [contradiction|].
  simpl in Hm. apply andb_true_iff in Hm as [Hc Hm].
  apply Ascii.eqb_eq in Hc. subst c.
  change ((String "#" marks) ++ " " ++ title)
    with (String "#" (marks ++ " " ++ title)).
  rewrite startswith_eq, startswith_nil.
  change (String "#" (marks ++ " " ++ title))
    with ((String "#" marks) ++ String " " title).
  rewrite replace_append.
  rewrite (replace_all_hashes (String "#" marks))
    by (simpl; now rewrite Hm).
  change (replace "#" "" (String " " title))
    with (String " " (replace "#" "" title)).
  rewrite replace_absent by assumption.
  cbn [append]. now rewrite strip_space, Hs.
Qed.

(** X7: a text line without [*] and [_] becomes a paragraph of one plain
    run that holds the line as it is, leading and trailing white space
    included. *)
Theorem plain_line_one_run (doc : document image) (line : string) :
  startswith "#" line = false ->
  strip line <> "---" -> strip line <> "" ->
  no_delim line = true ->
  add_line doc line = (doc ++ [Paragraph [plain line]])%list.
Proof.
  intros Hh Hr Hb Hd. unfold add_line. rewrite Hh.
  apply String.eqb_neq in Hr, Hb. rewrite Hr, Hb. cbn [negb].
  rewrite paragraph_runs_plain by assumption.
  destruct line as [|c line]; [discriminate|]. reflexivity.
Qed.

End LineFacts.

Section LineWitnesses.
Import Text Regex Docx.
Local Open Scope string_scope.

Lemma create_docx_lines_witness :
  create_docx (join newline ["### Findings"; ""; "No fracture."]) tt
  = fold_left add_line ["### Findings"; ""; "No fracture."]
      [Heading 0 "Medical Imaging Analysis";
       Heading 1 "Uploaded Image";
       Picture tt 5].
Proof.
  apply (create_docx_lines unit ["### Findings"; ""; "No fracture."] tt).
  - discriminate.
  - repeat constructor.
Defined.

Lemma blank_line_skipped_witness :
  add_line (image:=unit) [PageBreak] "   " = [PageBreak].
Proof. apply (blank_line_skipped unit [PageBreak] "   "). reflexivity. Defined.

Lemma rule_line_spaced_witness :
  add_line (image:=unit) [] "  ---  " = [PageBreak].
Proof. apply (rule_line_spaced unit [] "  ---  "). reflexivity. Defined.

Lemma heading_line_general_witness :
  add_line (image:=unit) [] ("##" ++ " " ++ "Diagnostic Assessment")
  = [Heading 1 "Diagnostic Assessment"].
Proof.
  apply (heading_line_general unit [] "##" "Diagnostic Assessment").
  - discriminate.
  - reflexivity.
  - reflexivity.
  - reflexivity.
Defined.

Lemma plain_line_one_run_witness :
  add_line (image:=unit) [] "  - Rate severity: Mild"
  = [Paragraph [plain "  - Rate severity: Mild"]].
Proof.
  apply (plain_line_one_run unit [] "  - Rate severity: Mild").
  - reflexivity.
  - discriminate.
  - discriminate.
  - reflexivity.
Defined.

End LineWitnesses.

(** ** Pairs of markers of either kind *)
Section PairFacts.
Import Text Regex Docx.
Local Open Scope string_scope.
Variable image : Type.

(** The lazy group stops at the first closing marker, whichever the
    marker. *)
Lemma lazy_inner_pair (d : ascii) (inner post : string) :
  inner <> "" -> mem d inner = false -> mem newline inner = false ->
  lazy_inner (String d (String d "")) (inner ++ String d (String d post))
  = Some inner.
Proof.
  induction inner as [|c inner IH]; intros Hne Hs Hn; [contradiction|].
  simpl in Hs, Hn.
  apply orb_false_iff in Hs as [Hs1 Hs2].
  apply orb_false_iff in Hn as [Hn1 Hn2].
  change ((String c inner) ++ String d (String d post))
    with (String c (inner ++ String d (String d post))).
  cbn [lazy_inner]. rewrite Hn1.
  destruct inner as [|b inner].
  - cbn [append]. now rewrite !startswith_eq, startswith_nil.
  - rewrite IH by (auto; discriminate).
    simpl in Hs2. apply orb_false_iff in Hs2 as [Hb _].
    apply Ascii.eqb_neq in Hb.
    change ((String b inner) ++ String d (String d post))
      with (String b (inner ++ String d (String d post))).
    now rewrite startswith_neq by congruence.
Qed.

Lemma match_here_underscores (inner post : string) :
  inner <> "" -> mem "_" inner = false -> mem newline inner = false ->
  match_here ("__" ++ inner ++ "__" ++ post)
  = Some (inner, 2 + String.length inner + 2).
Proof.
  intros Hne Hs Hn. unfold match_here, delim_at.
  change ("__" ++ inner ++ "__" ++ post)
    with (String "_" (String "_" (inner ++ String "_" (String "_" post)))).
  rewrite startswith_neq by discriminate.
  rewrite !startswith_eq, startswith_nil. cbn [drop].
  now rewrite lazy_inner_pair.
Qed.

(** X8: a pair of [__] markers makes a bold run as a pair of [**] does:
    in a text line, a non-empty text without [_] between two [__], after
    text free of [*] and [_], becomes one bold run between the plain
    text before and the runs of the rest of the line. *)
Theorem underscore_pair_runs (doc : document image)
        (pre inner post : string) :
  startswith "#" pre = false ->
  no_delim pre = true ->
  inner <> "" ->
  mem "_" inner = false ->
  mem newline inner = false ->
  add_line doc (pre ++ "__" ++ inner ++ "__" ++ post)
  = (doc ++ [Paragraph (plain_run pre ++ bold inner :: paragraph_runs post)])%list.
Proof.
  intros Hh Hpre Hne Hs Hn. unfold add_line.
  assert (Hstart : startswith "#" (pre ++ "__" ++ inner ++ "__" ++ post)
                   = false).
  { destruct pre as [|c pre]; [reflexivity|].
    destruct (ascii_dec "#" c) as [<-|Hc].
    - rewrite startswith_eq, startswith_nil in Hh. discriminate.
    - change ((String c pre) ++ "__" ++ inner ++ "__" ++ post)
        with (String c (pre ++ "__" ++ inner ++ "__" ++ post)).
      now apply startswith_neq. }
  assert (Hm : mem "_" (pre ++ "__" ++ inner ++ "__" ++ post) = true).
  { rewrite mem_append. simpl. apply orb_true_r. }
  apply (mem_strip_keep "_" _ eq_refl) in Hm.
  assert (H1 : String.eqb (strip (pre ++ "__" ++ inner ++ "__" ++ post)) "---"
               = false)
    by (apply String.eqb_neq; intros E; rewrite E in Hm; discriminate).
  assert (H2 : String.eqb (strip (pre ++ "__" ++ inner ++ "__" ++ post)) ""
               = false)
    by (apply String.eqb_neq; intros E; rewrite E in Hm; discriminate).
  rewrite Hstart, H1, H2. cbn [negb].
  rewrite (paragraph_runs_pair "__"); [reflexivity | reflexivity | |].
  - now apply match_here_underscores.
  - intros fuel pos Hf. now apply scan_skip.
Qed.

End PairFacts.

Section PairWitnesses.
Import Text Regex Docx.
Local Open Scope string_scope.

Lemma underscore_pair_runs_witness :
  add_line (image:=unit) []
    ("Severity: " ++ "__" ++ "Moderate" ++ "__" ++ " (left lobe)")
  = [Paragraph (plain_run "Severity: " ++ bold "Moderate"
                  :: paragraph_runs " (left lobe)")].
Proof.
  apply (underscore_pair_runs unit [] "Severity: " "Moderate" " (left lobe)").
  - reflexivity.
  - reflexivity.
  - discriminate.
  - reflexivity.
  - reflexivity.
Defined.

End PairWitnesses.

(** ** What the runs of a paragraph keep of the line *)
Section ConserveFacts.
Import Text Regex Docx.
Local Open Scope string_scope.

Lemma startswith_length (p s : string) :
  startswith p s = true -> String.length p <= String.length s.
Proof.
  unfold startswith. revert s. induction p as [|a p IH]; intros s H.
  - simpl. lia.
  - destruct s as [|c s]; [discriminate|].
    cbn [prefix] in H. destruct (ascii_dec a c); [|discriminate].
    apply IH in H. simpl. lia.
Qed.

Lemma lazy_inner_length (d s g : string) :
  lazy_inner d s = Some g ->
  1 <= String.length g /\ String.length g + String.length d <= String.length s.
Proof.
  revert g. induction s as [|c s IH]; intros g H; [discriminate|].
  cbn [lazy_inner] in H.
  destruct (Ascii.eqb c newline); [discriminate|].
  destruct (startswith d s) eqn:E.
  - injection H as <-. apply startswith_length in E. simpl. lia.
  - destruct (lazy_inner d s) as [g'|]; [|discriminate].
    injection H as <-. destruct (IH g' eq_refl). simpl. lia.
Qed.

Lemma delim_at_length (s d : string) :
  delim_at s = Some d ->
  String.length d = 2 /\ 2 <= String.length s.
Proof.
  unfold delim_at.
  destruct (startswith "**" s) eqn:E1.
  - intros [= <-]. apply startswith_length in E1. auto.
  - destruct (startswith "__" s) eqn:E2; [|discriminate].
    intros [= <-]. apply startswith_length in E2. auto.
Qed.

Lemma match_here_bounds (s g : string) (len : nat) :
  match_here s = Some (g, len) ->
  len = 4 + String.length g /\ 1 <= String.length g
  /\ len <= String.length s.
Proof.
  unfold match_here.
  destruct (delim_at s) as [d|] eqn:Ed; [|discriminate].
  destruct (lazy_inner d (drop 2 s)) as [g'|] eqn:El; [|discriminate].
  intros [= <- <-].
  apply delim_at_length in Ed as [Hd Hs].
  apply lazy_inner_length in El as [Hg Hl].
  rewrite length_drop in Hl. lia.
Qed.

Lemma ordered_weaken (ms : list rmatch) (lo lo' hi : nat) :
  lo' <= lo -> ordered ms lo hi -> ordered ms lo' hi.
Proof. destruct ms; simpl; intuition lia. Qed.

Lemma scan_ordered (fuel pos : nat) (s : string) :
  ordered (scan fuel pos s) pos (pos + String.length s).
Proof.
  revert pos s. induction fuel as [|fuel IH]; intros pos s.
  - simpl. lia.
  - destruct s as [|c s]; [simpl; lia|].
    cbn [scan].
    destruct (match_here (String c s)) as [[g len]|] eqn:E.
    + apply match_here_bounds in E as (Hlen & Hg & Hs).
      cbn [ordered m_start m_end m_group2].
      repeat split; try lia.
      specialize (IH (pos + len) (drop len (String c s))).
      rewrite length_drop in IH.
      replace (pos + len + (String.length (String c s) - len))
        with (pos + String.length (String c s)) in IH by lia.
      exact IH.
    + apply ordered_weaken with (S pos); [lia|].
      specialize (IH (S pos) s). simpl.
      now replace (pos + S (String.length s))
        with (S pos + String.length s) by lia.
Qed.

Lemma ordered_le (ms : list rmatch) (lo hi : nat) :
  ordered ms lo hi -> lo <= hi.
Proof.
  revert lo. induction ms as [|m ms IH]; intros lo H; [exact H|].
  simpl in H. destruct H as (H1 & H2 & H3 & H4). apply IH in H4. lia.
Qed.

Lemma length_substring (s : string) (a n : nat) :
  a + n <= String.length s -> String.length (substring a n s) = n.
Proof.
  revert a n. induction s as [|c s IH]; intros a n H.
  - simpl in H. assert (a = 0) by lia. assert (n = 0) by lia. now subst.
  - destruct a as [|a].
    + destruct n as [|n]; [reflexivity|].
      simpl. rewrite IH; [reflexivity | simpl in H; lia].
    + simpl. apply IH. simpl in H. lia.
Qed.

Lemma length_slice (s : string) (a b : nat) :
  a <= b -> b <= String.length s -> String.length (slice s a b) = b - a.
Proof. intros Ha Hb. unfold slice. apply length_substring. lia. Qed.

Lemma runs_of_conserve (line : string) (ms : list rmatch) (last_idx : nat) :
  ordered ms last_idx (String.length line) ->
  text_length (runs_of line ms last_idx)
  + 4 * bold_count (runs_of line ms last_idx)
  = String.length line - last_idx
  /\ forallb (fun r => negb (String.eqb (run_text r) ""))
       (runs_of line ms last_idx) = true.
Proof.
  revert last_idx. induction ms as [|m ms IH]; intros last_idx H.
  - cbn [runs_of]. simpl in H.
    destruct (Nat.ltb_spec last_idx (String.length line)) as [Hlt|Hge].
    + unfold text_length, bold_count. cbn.
      pose proof (length_slice line last_idx (String.length line)
                    ltac:(lia) ltac:(lia)) as Hl.
      split; [lia|].
      destruct (slice line last_idx (String.length line));
        [simpl in Hl; lia | reflexivity].
    + split; [cbn; lia | reflexivity].
  - cbn [runs_of]. simpl in H. destruct H as (H1 & H2 & H3 & H4).
    pose proof (ordered_le _ _ _ H4) as Hend.
    destruct (IH _ H4) as [IH1 IH2].
    assert (Hg : negb (String.eqb (m_group2 m) "") = true)
      by (destruct (m_group2 m); [simpl in H3; lia | reflexivity]).
    destruct (Nat.ltb_spec last_idx (m_start m)) as [Hlt|Hge].
    + pose proof (length_slice line last_idx (m_start m)
                    ltac:(lia) ltac:(lia)) as Hl.
      unfold text_length, bold_count in *. cbn in *.
      split; [lia|].
      rewrite Hg, IH2.
      destruct (slice line last_idx (m_start m));
        [simpl in Hl; lia | reflexivity].
    + unfold text_length, bold_count in *. cbn in *.
      split; [lia|]. now rewrite Hg, IH2.
Qed.

(** X9: whatever the line, the runs of its paragraph keep every
    character but the markers: their texts have the length of the line
    less four characters for each bold run, and no run is empty. *)
Theorem paragraph_runs_conserve (line : string) :
  text_length (paragraph_runs line) + 4 * bold_count (paragraph_runs line)
  = String.length line
  /\ forallb (fun r => negb (String.eqb (run_text r) ""))
       (paragraph_runs line) = true.
Proof.
  rewrite paragraph_runs_unrolled.
  destruct (runs_of_conserve line (finditer line) 0) as [H1 H2].
  - exact (scan_ordered (String.length line) 0 line).
  - split; [lia | exact H2].
Qed.

End ConserveFacts.

(** ** Normalisation on any samples *)
Section NormalizeMore.
Import F64 Dicom.
Local Open Scope Z_scope.

(** A non-empty array is normalised, element by element. *)
Lemma normalize_total (px : list Z) :
  px <> [] ->
  exists out,
    normalize px = Ok out
    /\ length out = length px
    /\ Forall (fun x => 0 <= x <= 255) out.
Proof.
  destruct px as [|x rest]; [contradiction|]. intros _.
  unfold normalize. cbn [map array_min array_max].
  eexists. split; [reflexivity|]. split.
  - destruct (ltb _ _); cbn [map length]; now rewrite !length_map.
  - apply Forall_forall. intros y Hy.
    apply in_map_iff in Hy as (v & <- & _). apply astype_uint8_range.
Qed.

(** X10: normalisation fails on an empty array only, as [min()] does in
    numpy; on any other array of integers it gives as many elements as
    it got, each from 0 to 255. *)
Theorem normalize_outcome (pixel_array : list Z) :
  match normalize pixel_array with
  | Ok out =>
      pixel_array <> []
      /\ length out = length pixel_array
      /\ Forall (fun x => 0 <= x <= 255) out
  | Raised e =>
      pixel_array = []
      /\ e = "zero-size array to reduction operation minimum which has no identity"%string
  end.
Proof.
  destruct pixel_array as [|x rest].
  - split; reflexivity.
  - destruct (normalize_total (x :: rest)) as (out & -> & Hl & Hr);
      [discriminate|].
    repeat split; [discriminate | assumption | assumption].
Qed.

Lemma list_min_offset (l : list Z) (lo k : Z) :
  list_min l = Some lo -> list_min (map (fun v => v + k) l) = Some (lo + k).
Proof.
  rewrite !list_min_spec. intros [Hin Hmin]. split.
  - apply in_map_iff. now exists lo.
  - intros y Hy. apply in_map_iff in Hy as (v & <- & Hv).
    specialize (Hmin v Hv). lia.
Qed.

Lemma list_max_offset (l : list Z) (hi k : Z) :
  list_max l = Some hi -> list_max (map (fun v => v + k) l) = Some (hi + k).
Proof.
  rewrite !list_max_spec. intros [Hin Hmax]. split.
  - apply in_map_iff. now exists hi.
  - intros y Hy. apply in_map_iff in Hy as (v & <- & Hv).
    specialize (Hmax v Hv). lia.
Qed.

(** X11: the result does not depend on the level of the samples: adding
    one offset to every sample changes nothing, as long as the samples
    stay within 32 bits. *)
Theorem normalize_offset (pixel_array : list Z) (k : Z) :
  Forall valid_sample pixel_array ->
  Forall valid_sample (map (fun v => v + k) pixel_array) ->
  normalize (map (fun v => v + k) pixel_array) = normalize pixel_array.
Proof.
  intros Hv Hk.
  destruct pixel_array as [|x rest] eqn:E; [reflexivity|]. rewrite <- E in *.
  assert (Hlo : exists lo, list_min pixel_array = Some lo)
    by (rewrite E; eexists; reflexivity).
  assert (Hhi : exists hi, list_max pixel_array = Some hi)
    by (rewrite E; eexists; reflexivity).
  destruct Hlo as [lo Hlo]. destruct Hhi as [hi Hhi].
  rewrite (normalize_scaled_samples _ (lo + k) (hi + k) Hk
             (list_min_offset _ _ _ Hlo) (list_max_offset _ _ _ Hhi)).
  rewrite (normalize_scaled_samples _ lo hi Hv Hlo Hhi).
  f_equal. rewrite map_map. apply map_ext. intros v. unfold scaled.
  replace (hi + k - (lo + k)) with (hi - lo) by lia.
  now replace (v + k - (lo + k)) with (v - lo) by lia.
Qed.

End NormalizeMore.

Section NormalizeWitnesses.
Import F64 Dicom.
Local Open Scope Z_scope.

Lemma normalize_offset_witness :
  normalize (map (fun v => v + -1024) [1024; 1500; 3000])
  = normalize [1024; 1500; 3000].
Proof.
  apply (normalize_offset [1024; 1500; 3000] (-1024));
    unfold valid_sample; repeat constructor; cbn; lia.
Defined.

End NormalizeWitnesses.

(** ** Exact quotients *)
Section ExactFacts.
Import F64 Resize.
Local Open Scope Z_scope.

(** A quotient of integers that is an integer is computed exactly. *)
Lemma div_exact (a b : positive) :
  Zpos a * Zpos b < 2 ^ 53 ->
  div (of_int (Zpos a * Zpos b)) (of_int (Zpos b)) = of_int (Zpos a).
Proof.
  intros Hab.
  assert (H52 : 2 ^ 52 = 4503599627370496) by reflexivity.
  assert (H53 : 2 ^ 53 = 9007199254740992) by reflexivity.
  assert (H54 : 2 ^ 54 = 18014398509481984) by reflexivity.
  change (Zpos a * Zpos b) with (Zpos (a * b)) in *.
  assert (Hb : Zpos b < 2 ^ 53) by nia.
  rewrite (of_int_pos (a * b)), (of_int_pos b) by lia.
  destruct (mant_spec (a * b) ltac:(lia)) as (Hmx & Hdx & Hex).
  destruct (mant_spec b ltac:(lia)) as (Hmy & Hdy & Hey).
  pose proof (digits2_bounds (mant (a * b))) as Hbx. rewrite Hdx in Hbx.
  pose proof (digits2_bounds (mant b)) as Hby. rewrite Hdy in Hby.
  change (53 - 1) with 52 in *.
  unfold div, SFdiv, SFdiv_core_binary. cbn [Zdigits2 xorb].
  rewrite Hdx, Hdy, fexp_normal by lia.
  replace (Z.min (53 + expo (a * b) - (53 + expo b) - 53)
                 (expo (a * b) - expo b))
    with (expo (a * b) - expo b - 53) by lia.
  replace (expo (a * b) - expo b - (expo (a * b) - expo b - 53))
    with 53 by lia.
  cbv iota.
  rewrite Z.shiftl_mul_pow2, div_eucl_div_mod by lia.
  set (k := 53 - Zpos (digits2_pos (a * b)) + Zpos (digits2_pos b)).
  assert (Hk : 1 <= k <= 106) by (unfold k, expo in *; lia).
  assert (Hm : Zpos (mant (a * b)) * 2 ^ 53
               = Zpos a * 2 ^ k * Zpos (mant b)).
  { rewrite Hmx, Hmy. unfold k.
    replace (Zpos (a * b)) with (Zpos a * Zpos b) by reflexivity.
    replace (Zpos a * Zpos b * 2 ^ (53 - Zpos (digits2_pos (a * b))) * 2 ^ 53)
      with (Zpos a * Zpos b
            * (2 ^ (53 - Zpos (digits2_pos (a * b))) * 2 ^ 53)) by ring.
    replace (Zpos a
             * 2 ^ (53 - Zpos (digits2_pos (a * b)) + Zpos (digits2_pos b))
             * (Zpos b * 2 ^ (53 - Zpos (digits2_pos b))))
      with (Zpos a * Zpos b
            * (2 ^ (53 - Zpos (digits2_pos (a * b)) + Zpos (digits2_pos b))
               * 2 ^ (53 - Zpos (digits2_pos b)))) by ring.
    rewrite <- !Z.pow_add_r by (unfold expo in *; lia).
    do 2 f_equal. lia. }
  rewrite Hm, Z.div_mul, Z.mod_mul, new_location_zero by lia.
  replace (expo (a * b) - expo b - 53) with (- k) by (unfold k, expo; lia).
  rewrite <- (normalize_scaled (Zpos a) k) by (nia || lia).
  assert (Hq : 2 ^ 52 <= Zpos a * 2 ^ k).
  { assert (Hp : 0 < 2 ^ k) by (apply Z.pow_pos_nonneg; lia).
    assert (Hlt : 2 ^ 52 * Zpos (mant b) <= Zpos a * 2 ^ k * Zpos (mant b)).
    { rewrite <- Hm. apply Z.le_trans with (2 ^ 52 * 2 ^ 53).
      - apply Z.mul_le_mono_nonneg_l; lia.
      - apply Z.mul_le_mono_nonneg_r; lia. }
    apply Z.mul_le_mono_pos_r in Hlt; lia. }
  destruct (Zpos a * 2 ^ k) as [|q|q] eqn:Eq; try lia.
  cbn [binary_normalize]. unfold binary_round.
  pose proof (digits2_bounds q) as Hdq.
  assert (Hd : 53 <= Zpos (digits2_pos q)).
  { destruct (Z.le_gt_cases 53 (Zpos (digits2_pos q))) as [H|H]; [exact H|].
    assert (2 ^ Zpos (digits2_pos q) <= 2 ^ 52)
      by (apply Z.pow_le_mono_r; lia).
    lia. }
  rewrite fexp_normal by lia.
  unfold shl_align.
  destruct (Zpos (digits2_pos q) + - k - 53 - - k) as [|j|j] eqn:Ej;
    try lia; reflexivity.
Qed.

(** The height of an image 500 times as wide as high: one pixel. *)
Lemma display_size_limit (height : Z) :
  1 <= height -> 500 * height < 2 ^ 53 ->
  display_size (500 * height) height = Ok (500, 1).
Proof.
  intros Hh Hw. unfold display_size, truediv.
  replace (height =? 0) with false by (symmetry; apply Z.eqb_neq; lia).
  destruct height as [|b|b]; try lia.
  change (500 * Zpos b) with (Zpos 500 * Zpos b) in *.
  rewrite div_exact by assumption. reflexivity.
Qed.

(** The height of an image at most 500 times as wide as high: at least
    one pixel, and within one pixel of the proportions. *)
Lemma display_size_fits (width height : Z) :
  1 <= width < 2 ^ 31 -> height < 2 ^ 31 -> width <= 500 * height ->
  exists new_height,
    display_size width height = Ok (500, new_height)
    /\ 1 <= new_height
    /\ new_height * width <= 500 * height <= (new_height + 1) * width.
Proof.
  intros Hw Hh Hfit.
  assert (H31 : 2 ^ 31 = 2147483648) by reflexivity.
  assert (H53 : 2 ^ 53 = 9007199254740992) by reflexivity.
  destruct (Z.eq_dec width (500 * height)) as [->|Hne].
  - exists 1. rewrite display_size_limit by lia. repeat split; lia.
  - destruct (display_size_bounds width height ltac:(lia) ltac:(lia))
      as (nh & Hd & H0 & Hlo & Hhi).
    exists nh. repeat split; try assumption.
    assert (nh <> 0) by (intros ->; lia). lia.
Qed.

End ExactFacts.

Section ResizeOutcome.
Import Text Docx F64 Resize App.
Local Open Scope Z_scope.
Variable resample : PILImage -> Z * Z -> list Z.

(** X25: for an image of a usual size the resize succeeds exactly when
    the image is at most 500 times as wide as high; the resized image
    then has the computed size. *)
Theorem resize_succeeds_iff (img : PILImage) (width height : Z) :
  1 <= width < 2 ^ 31 -> 1 <= height < 2 ^ 31 ->
  size img = (width, height) ->
  (exists (target : Z * Z) (resized : PILImage),
      display_size width height = Ok target
      /\ resize resample img target = Ok resized
      /\ size resized = target
      /\ fst target = 500)
  <-> width <= 500 * height.
Proof.
  intros Hw Hh Hsize. split.
  - intros (target & resized & Hd & Hr & _).
    destruct (Z.le_gt_cases width (500 * height)) as [Hle|Hgt]; [exact Hle|].
    rewrite display_size_wide in Hd by lia.
    injection Hd as <-. discriminate.
  - intros Hfit.
    destruct (display_size_fits width height Hw ltac:(lia) Hfit)
      as (nh & Hd & H1 & _).
    exists (500, nh), {| size := (500, nh); raster := resample img (500, nh) |}.
    split; [exact Hd|]. split; [|split; reflexivity].
    unfold resize. cbn [fst snd].
    now replace (nh <? 1) with false by (symmetry; apply Z.ltb_ge; lia).
Qed.

End ResizeOutcome.

Section ResizeOutcomeWitness.
Import Text Docx F64 Resize App.
Local Open Scope Z_scope.

Lemma resize_succeeds_iff_witness :
  (exists (target : Z * Z) (resized : PILImage),
      display_size 500 1 = Ok target
      /\ resize blank_resample (sample_image 500 1) target = Ok resized
      /\ size resized = target
      /\ fst target = 500)
  <-> 500 <= 500 * 1.
Proof.
  apply (resize_succeeds_iff blank_resample (sample_image 500 1) 500 1);
    first [reflexivity | split; [lia | reflexivity]].
Defined.

End ResizeOutcomeWitness.

(** ** The display of images of usual proportions *)
Section DisplayFacts.
Import Text Docx F64 Resize App.
Local Open Scope list_scope.

Variable dcmread : upload -> result pixel_array.
Variable pil_open : upload -> result PILImage.
Variable resample : PILImage -> Z * Z -> list Z.
Variable gemini : string -> PILImage -> result string.
Variable st_image : PILImage -> result unit.
Variable image_save : PILImage -> string -> result unit.
Variable docx_save : document PILImage -> result unit.

(** X12: a square image is shown 500 pixels a side: both divisions are
    exact. *)
Theorem square_image_size (n : Z) :
  (1 <= n < 2 ^ 53)%Z -> display_size n n = Ok (500, 500)%Z.
Proof.
  intros H. unfold display_size, truediv.
  replace (n =? 0)%Z with false by (symmetry; apply Z.eqb_neq; lia).
  rewrite div_self_of_int by lia. reflexivity.
Qed.

(** X13: an image at most 500 times as wide as high is resized to the
    width 500 and a height of at least one pixel that keeps the
    proportions within one pixel. When the page takes the resized
    image, the run without a click renders it after the page head, then
    the button, and ends normally; when [st.image] refuses it, the
    exception ends the run after the page head. *)
Theorem narrow_image_shown (key : option string) (f : upload)
        (img : PILImage) (width height : Z) (s : session) :
  (1 <= width < 2 ^ 31)%Z -> (height < 2 ^ 31)%Z ->
  (width <= 500 * height)%Z ->
  is_dicom_name (name f) = false ->
  pil_open f = Ok img ->
  size img = (width, height) ->
  exists new_height,
    (1 <= new_height)%Z
    /\ (new_height * width <= 500 * height <= (new_height + 1) * width)%Z
    /\ let resized :=
         {| size := (500, new_height)%Z;
            raster := resample img (500, new_height)%Z |} in
       run dcmread pil_open resample gemini st_image image_save docx_save
         key (Some f) false s
       = match st_image resized with
         | Ok _ =>
             (Done tt,
              {| rendered :=
                   page_head key
                   ++ [ShowImage resized "Uploaded Medical Image";
                       Button "Analyze Image"];
                 session_state := s |})
         | Raised e =>
             (Exc e, {| rendered := page_head key; session_state := s |})
         end.
Proof.
  intros Hw Hh Hfit Hname Himg Hsize.
  destruct (display_size_fits width height Hw Hh Hfit)
    as (nh & Hd & H1 & Hlo).
  exists nh. split; [assumption|]. split; [assumption|].
  cbv zeta.
  assert (Hresize : resize resample img (500, nh)%Z
                    = Ok {| size := (500, nh)%Z;
                            raster := resample img (500, nh)%Z |}).
  { unfold resize. cbn [fst snd].
    now replace (nh <? 1)%Z with false by (symmetry; apply Z.ltb_ge; lia). }
  rewrite run_upload. unfold bind at 1.
  rewrite ingest_plain, Himg by assumption.
  unfold bind at 1.
  destruct (st_image {| size := (500, nh)%Z;
                        raster := resample img (500, nh)%Z |})
    as [[]|e] eqn:Hshow.
  - rewrite (present_shown resample st_image false img
               {| size := (500, nh)%Z; raster := resample img (500, nh)%Z |}
               (500, nh)%Z);
      [reflexivity | now rewrite Hsize | assumption | assumption].
  - rewrite (present_hidden resample st_image false img
               {| size := (500, nh)%Z; raster := resample img (500, nh)%Z |}
               (500, nh)%Z e);
      [reflexivity | now rewrite Hsize | assumption | assumption].
Qed.

End DisplayFacts.

Section DisplayWitnesses.
Import Text Docx F64 Resize App.
Local Open Scope list_scope.

Lemma square_image_size_witness :
  display_size 2048 2048 = Ok (500, 500)%Z.
Proof. apply (square_image_size 2048). split; [lia | reflexivity]. Defined.

Lemma narrow_image_shown_witness :
  exists new_height,
    (1 <= new_height)%Z
    /\ (new_height * 1000 <= 500 * 800 <= (new_height + 1) * 1000)%Z
    /\ run (refuses "no DICOM file") (opens_as (sample_image 1000 800))
         blank_resample (answers "No finding.")
         shows_all saves_all builds_all
         None (Some (sample_upload "xray.png")) false fresh_session
       = (Done tt,
          {| rendered :=
               page_head None
               ++ [ShowImage
                     {| size := (500, new_height)%Z;
                        raster :=
                          blank_resample (sample_image 1000 800)
                            (500, new_height)%Z |}
                     "Uploaded Medical Image";
                   Button "Analyze Image"];
             session_state := fresh_session |}).
Proof.
  apply (narrow_image_shown
           (refuses "no DICOM file") (opens_as (sample_image 1000 800))
           blank_resample (answers "No finding.")
           shows_all saves_all builds_all
           None (sample_upload "xray.png") (sample_image 1000 800) 1000 800
           fresh_session);
    first [reflexivity | lia | split; [lia | reflexivity]].
Defined.

End DisplayWitnesses.

(** ** Every run of the script *)
Section ScriptCases.
Import Text Docx F64 Resize App.
Local Open Scope list_scope.

Variable dcmread : upload -> result pixel_array.
Variable pil_open : upload -> result PILImage.
Variable resample : PILImage -> Z * Z -> list Z.
Variable gemini : string -> PILImage -> result string.
Variable st_image : PILImage -> result unit.
Variable image_save : PILImage -> string -> result unit.
Variable docx_save : document PILImage -> result unit.

(** The display of an image whose size cannot be computed. *)
Lemma present_unsized (clicked : bool) (img : PILImage) (e : exn)
      (st : state) :
  display_size (fst (size img)) (snd (size img)) = Raised e ->
  present resample st_image clicked (Some img) st = (Exc e, st).
Proof.
  intros Hsize. unfold present, bind at 1. cbn [ret].
  destruct (size img) as [width height]. cbn [fst snd] in Hsize.
  unfold bind at 1, lift. now rewrite Hsize.
Qed.

(** No image: the script stops. *)
Lemma present_none (clicked : bool) (st : state) :
  present resample st_image clicked None st = (Halt, st).
Proof. reflexivity. Qed.

(** The analysis of an image that cannot be saved. *)
Lemma analyze_unsaved (key : option string) (resized : PILImage) (e : exn)
      (st : state) :
  image_save resized "temp_resized_image.png" = Raised e ->
  analyze gemini image_save docx_save key resized st
  = (Done tt,
     {| rendered := rendered st ++ [Error ("Analysis error: " ++ e)%string];
        session_state := session_state st |}).
Proof.
  intros Hs. unfold analyze, try_except.
  unfold bind at 1, lift. now rewrite Hs.
Qed.

(** The analysis without an agent. *)
Lemma analyze_no_agent (key : option string) (resized : PILImage)
      (st : state) :
  image_save resized "temp_resized_image.png" = Ok tt ->
  truthy key = false ->
  analyze gemini image_save docx_save key resized st
  = (Done tt,
     {| rendered :=
          rendered st
          ++ [SaveImage "temp_resized_image.png" resized;
              Error "Analysis error: 'NoneType' object has no attribute 'run'"];
        session_state := session_state st |}).
Proof.
  intros Hs Hk. unfold analyze, try_except, agent_run.
  rewrite medical_agent_none by assumption.
  unfold bind, lift. rewrite Hs.
  unfold emit, raise, ret. cbn. now rewrite <- app_assoc.
Qed.

(** The analysis with an agent whose call fails. *)
Lemma analyze_failed (key : option string) (resized : PILImage) (e : exn)
      (st : state) :
  image_save resized "temp_resized_image.png" = Ok tt ->
  truthy key = true ->
  gemini query resized = Raised e ->
  analyze gemini image_save docx_save key resized st
  = (Done tt,
     {| rendered :=
          rendered st
          ++ [SaveImage "temp_resized_image.png" resized;
              ModelCall query resized;
              Error ("Analysis error: " ++ e)%string];
        session_state := session_state st |}).
Proof.
  intros Hs Hk Hg. unfold analyze, try_except, agent_run, medical_agent.
  rewrite Hk. unfold bind, lift. rewrite Hs.
  unfold emit, ret. rewrite Hg.
  unfold raise. cbn [rendered session_state].
  now rewrite <- !app_assoc.
Qed.

(** The analysis with an agent that answers, up to the session state. *)
Lemma analyze_answered (key : option string) (resized : PILImage)
      (response : string) (st : state) :
  image_save resized "temp_resized_image.png" = Ok tt ->
  truthy key = true ->
  gemini query resized = Ok response ->
  analyze gemini image_save docx_save key resized st
  = match docx_save (create_docx response resized) with
    | Ok _ =>
        (Done tt,
         {| rendered :=
              rendered st
              ++ [SaveImage "temp_resized_image.png" resized;
                  ModelCall query resized;
                  Markdown "### Analysis Results";
                  Markdown "---";
                  Markdown response;
                  Markdown "---";
                  Caption "Note: This analysis is generated by AI and should be reviewed by a qualified healthcare professional.";
                  DownloadButton "Download Analysis as DOCX"
                    (create_docx response resized)
                    "medical_image_analysis.docx"];
            session_state :=
              {| analysis_result := Some response;
                 analysis_image := Some resized |} |})
    | Raised e =>
        (Done tt,
         {| rendered :=
              rendered st
              ++ [SaveImage "temp_resized_image.png" resized;
                  ModelCall query resized;
                  Markdown "### Analysis Results";
                  Markdown "---";
                  Markdown response;
                  Markdown "---";
                  Caption "Note: This analysis is generated by AI and should be reviewed by a qualified healthcare professional.";
                  Error ("Analysis error: " ++ e)%string];
            session_state :=
              {| analysis_result := Some response;
                 analysis_image := Some resized |} |})
    end.
Proof.
  intros Hs Hk Hg. unfold analyze, try_except, agent_run, medical_agent.
  rewrite Hk. unfold bind, lift. rewrite Hs.
  unfold emit, ret. rewrite Hg.
  unfold set_session, get_session.
  cbn [rendered session_state analysis_result analysis_image].
  destruct (docx_save (create_docx response resized)) as [[]|e];
    unfold raise; cbn [rendered session_state];
    now rewrite <- !app_assoc.
Qed.

(** Every run has one of the shapes of [run_shape]. *)
Lemma run_cases (key : option string) (uploaded_file : option upload)
      (clicked : bool) (s : session) :
  run_shape key clicked s
    (run dcmread pil_open resample gemini st_image image_save docx_save
       key uploaded_file clicked s).
Proof.
  destruct uploaded_file as [f|].
  2:{ unfold run, script, bind at 1. rewrite shell_run. apply shape_no_upload. }
  rewrite run_upload. unfold bind at 1.
  assert (Hingest :
            (exists img, ingest dcmread pil_open f
                           {| rendered := page_head key; session_state := s |}
                         = (Done (Some img),
                            {| rendered := page_head key;
                               session_state := s |}))
            \/ (exists e, ingest dcmread pil_open f
                            {| rendered := page_head key; session_state := s |}
                          = (Exc e,
                             {| rendered := page_head key;
                                session_state := s |}))
            \/ (exists e, ingest dcmread pil_open f
                            {| rendered := page_head key; session_state := s |}
                          = (Done None,
                             {| rendered :=
                                  page_head key
                                  ++ [Error ("Failed to read DICOM file: " ++ e)%string];
                                session_state := s |}))).
  { destruct (is_dicom_name (name f)) eqn:Hname.
    - rewrite ingest_dicom by assumption.
      destruct (dcmread f) as [ds|e]; [|right; right; now exists e].
      destruct (Dicom.normalize (samples ds)) as [px|e];
        [left; eexists; reflexivity | right; right; now exists e].
    - rewrite ingest_plain by assumption.
      destruct (pil_open f) as [img|e];
        [left; now exists img | right; left; now exists e]. }
  destruct Hingest as [[img ->]|[[e ->]|[e ->]]].
  - unfold bind at 1.
    destruct (display_size (fst (size img)) (snd (size img)))
      as [target|e] eqn:Hsize.
    2:{ rewrite (present_unsized clicked img e) by assumption.
        apply shape_raised. }
    destruct (resize resample img target) as [resized|e] eqn:Hresize.
    2:{ rewrite (present_refused resample st_image clicked img target e)
          by assumption.
        apply shape_raised. }
    destruct (st_image resized) as [[]|e] eqn:Hshow.
    2:{ rewrite (present_hidden resample st_image clicked img resized
                   target e) by assumption.
        apply shape_raised. }
    rewrite (present_shown resample st_image clicked img resized target)
      by assumption.
    cbn [rendered session_state].
    destruct clicked; [|now apply shape_shown].
    destruct (image_save resized "temp_resized_image.png")
      as [[]|e] eqn:Hsave.
    2:{ rewrite (analyze_unsaved key resized e) by assumption.
        cbn [rendered session_state]. rewrite <- app_assoc.
        now apply shape_save_failed. }
    destruct (truthy key) eqn:Hk.
    + destruct (gemini query resized) as [response|e] eqn:Hg.
      * rewrite (analyze_answered key resized response) by assumption.
        destruct (docx_save (create_docx response resized)) as [[]|e];
          cbn [rendered session_state]; rewrite <- app_assoc.
        -- now apply shape_analysed.
        -- now apply shape_export_failed.
      * rewrite (analyze_failed key resized e) by assumption.
        cbn [rendered session_state]. rewrite <- app_assoc.
        now apply shape_model_failed.
    + rewrite analyze_no_agent by assumption.
      cbn [rendered session_state]. rewrite <- app_assoc.
      now apply shape_no_agent.
  - apply shape_raised.
  - unfold bind at 1. rewrite present_none. apply shape_dicom_failed.
Qed.

End ScriptCases.

(** ** Paths of the script *)
Section ScriptPaths.
Import Text Docx F64 Resize App.
Local Open Scope list_scope.

Variable dcmread : upload -> result pixel_array.
Variable pil_open : upload -> result PILImage.
Variable resample : PILImage -> Z * Z -> list Z.
Variable gemini : string -> PILImage -> result string.
Variable st_image : PILImage -> result unit.
Variable image_save : PILImage -> string -> result unit.
Variable docx_save : document PILImage -> result unit.

(** X14: without an upload the run renders the page head and the
    invitation to upload, and ends there, whatever the key and the
    state of the button. *)
Theorem no_upload_invites (key : option string) (clicked : bool)
        (s : session) :
  run dcmread pil_open resample gemini st_image image_save docx_save
    key None clicked s
  = (Done tt,
     {| rendered :=
          page_head key
          ++ [Info "Please upload a medical image to begin analysis"];
        session_state := s |}).
Proof. unfold run, script, bind at 1. now rewrite shell_run. Qed.

(** X15: an upload that is no DICOM file by its name and that
    [PILImage.open] refuses ends the run with that exception: no
    message is rendered after the page head, unlike for a DICOM file. *)
Theorem unreadable_image_raises (key : option string) (f : upload)
        (clicked : bool) (s : session) (e : exn) :
  is_dicom_name (name f) = false ->
  pil_open f = Raised e ->
  run dcmread pil_open resample gemini st_image image_save docx_save
    key (Some f) clicked s
  = (Exc e, {| rendered := page_head key; session_state := s |}).
Proof.
  intros Hname Hopen. rewrite run_upload. unfold bind at 1.
  now rewrite ingest_plain, Hopen by assumption.
Qed.

(** X16: a DICOM file that decodes to an empty pixel array is reported
    as one that cannot be read, with the message of [min()], and the
    run halts. *)
Theorem empty_dicom_reported (key : option string) (f : upload)
        (ds : pixel_array) (clicked : bool) (s : session) :
  is_dicom_name (name f) = true ->
  dcmread f = Ok ds ->
  samples ds = [] ->
  run dcmread pil_open resample gemini st_image image_save docx_save
    key (Some f) clicked s
  = (Halt,
     {| rendered :=
          page_head key
          ++ [Error "Failed to read DICOM file: zero-size array to reduction operation minimum which has no identity"];
        session_state := s |}).
Proof.
  intros Hname Hread Hempty. rewrite run_upload. unfold bind at 1.
  rewrite ingest_dicom, Hread, Hempty by assumption. reflexivity.
Qed.

(** X17: a DICOM file that decodes to a non-empty array gives an image
    as wide as the array has columns and as high as it has rows, whose
    raster is the normalised array: one value from 0 to 255 for each
    sample; nothing is rendered on the way. *)
Theorem dicom_image_ingested (f : upload) (ds : pixel_array) (st : state) :
  is_dicom_name (name f) = true ->
  dcmread f = Ok ds ->
  samples ds <> [] ->
  exists px,
    Dicom.normalize (samples ds) = Ok px
    /\ length px = length (samples ds)
    /\ Forall (fun x => (0 <= x <= 255)%Z) px
    /\ ingest dcmread pil_open f st
       = (Done (Some {| size := (snd (shape ds), fst (shape ds));
                        raster := px |}), st).
Proof.
  intros Hname Hread Hne.
  destruct (normalize_total (samples ds) Hne) as (px & Hpx & Hl & Hr).
  exists px. repeat split; try assumption.
  now rewrite ingest_dicom, Hread, Hpx by assumption.
Qed.

(** X18: with a key, a click on the button of a displayed image saves
    the resized image, calls the model once, with the fixed prompt and
    the resized image, renders the answer between two rules and the
    note, and stores the answer and the image in the session state.
    Then the document of that answer and that image is built: when
    python-docx takes it, its download is offered; when it raises, the
    page shows the error instead, and the session state stays
    written. *)
Theorem analysis_rendered (key : option string) (f : upload)
        (img resized : PILImage) (target : Z * Z) (response : string)
        (s : session) :
  truthy key = true ->
  is_dicom_name (name f) = false ->
  pil_open f = Ok img ->
  display_size (fst (size img)) (snd (size img)) = Ok target ->
  resize resample img target = Ok resized ->
  st_image resized = Ok tt ->
  image_save resized "temp_resized_image.png" = Ok tt ->
  gemini query resized = Ok response ->
  run dcmread pil_open resample gemini st_image image_save docx_save
    key (Some f) true s
  = (Done tt,
     {| rendered :=
          page_head key
          ++ [ShowImage resized "Uploaded Medical Image";
              Button "Analyze Image";
              SaveImage "temp_resized_image.png" resized;
              ModelCall query resized;
              Markdown "### Analysis Results";
              Markdown "---";
              Markdown response;
              Markdown "---";
              Caption "Note: This analysis is generated by AI and should be reviewed by a qualified healthcare professional.";
              match docx_save (create_docx response resized) with
              | Ok _ =>
                  DownloadButton "Download Analysis as DOCX"
                    (create_docx response resized)
                    "medical_image_analysis.docx"
              | Raised e => Error ("Analysis error: " ++ e)%string
              end];
        session_state :=
          {| analysis_result := Some response;
             analysis_image := Some resized |} |}).
Proof.
  intros Hk Hname Hopen Hsize Hresize Hshow Hsave Hg.
  rewrite run_upload. unfold bind at 1.
  rewrite ingest_plain, Hopen by assumption.
  unfold bind at 1.
  rewrite (present_shown resample st_image true img resized target)
    by assumption.
  rewrite (analyze_answered gemini image_save docx_save key resized
             response) by assumption.
  destruct (docx_save (create_docx response resized)) as [[]|e];
    cbn [rendered session_state]; now rewrite <- app_assoc.
Qed.

(** X19: with a key, a failure of the call to the model is caught: once
    the image is shown and saved, the run ends normally with the
    message of the failure after the saved image and the call, renders
    no result, offers no export and leaves the session state as it
    was. *)
Theorem analysis_failure_reported (key : option string) (f : upload)
        (img resized : PILImage) (target : Z * Z) (e : exn) (s : session) :
  truthy key = true ->
  is_dicom_name (name f) = false ->
  pil_open f = Ok img ->
  display_size (fst (size img)) (snd (size img)) = Ok target ->
  resize resample img target = Ok resized ->
  st_image resized = Ok tt ->
  image_save resized "temp_resized_image.png" = Ok tt ->
  gemini query resized = Raised e ->
  run dcmread pil_open resample gemini st_image image_save docx_save
    key (Some f) true s
  = (Done tt,
     {| rendered :=
          page_head key
          ++ [ShowImage resized "Uploaded Medical Image";
              Button "Analyze Image";
              SaveImage "temp_resized_image.png" resized;
              ModelCall query resized;
              Error ("Analysis error: " ++ e)%string];
        session_state := s |}).
Proof.
  intros Hk Hname Hopen Hsize Hresize Hshow Hsave Hg.
  rewrite run_upload. unfold bind at 1.
  rewrite ingest_plain, Hopen by assumption.
  unfold bind at 1.
  rewrite (present_shown resample st_image true img resized target)
    by assumption.
  rewrite (analyze_failed gemini image_save docx_save key resized e)
    by assumption.
  cbn [rendered session_state]. now rewrite <- app_assoc.
Qed.

(** X20: the name of the upload alone chooses the decoder: for a name
    that does not end in [.dcm] or [.dicom] the DICOM decoder is never
    consulted, and for one that does, [PILImage.open] never is. *)
Theorem decoder_by_name (key : option string) (f : upload)
        (clicked : bool) (s : session) :
  (is_dicom_name (name f) = false ->
   forall dcmread' : upload -> result pixel_array,
     run dcmread' pil_open resample gemini st_image image_save docx_save
       key (Some f) clicked s
     = run dcmread pil_open resample gemini st_image image_save docx_save
         key (Some f) clicked s)
  /\ (is_dicom_name (name f) = true ->
      forall pil_open' : upload -> result PILImage,
        run dcmread pil_open' resample gemini st_image image_save
          docx_save key (Some f) clicked s
        = run dcmread pil_open resample gemini st_image image_save docx_save
         key (Some f) clicked s).
Proof.
  split; intros Hname other; rewrite !run_upload; unfold bind at 1 3.
  - now rewrite !ingest_plain by assumption.
  - now rewrite !ingest_dicom by assumption.
Qed.

Lemma page_head_idle (key : option string) :
  forallb idle (page_head key) = true.
Proof.
  unfold page_head, shell, sidebar, medical_agent.
  now destruct (truthy key).
Qed.

(** X21: a run without a click does nothing of an analysis: it saves no
    image, calls no model, renders no result, offers no export and
    leaves the session state as it was, whatever the key, the upload
    and the decoders. *)
Theorem no_click_stays_idle (key : option string)
        (uploaded_file : option upload) (s : session) :
  let r := run dcmread pil_open resample gemini st_image image_save
             docx_save key uploaded_file false s in
  forallb idle (rendered (snd r)) = true /\ session_state (snd r) = s.
Proof.
  intros r.
  pose proof (run_cases dcmread pil_open resample gemini st_image
                image_save docx_save key uploaded_file false s) as H.
  fold r in H.
  inversion H; try discriminate; cbn [snd rendered session_state];
    (split; [|reflexivity]);
    rewrite ?forallb_app, ?page_head_idle; reflexivity.
Qed.

Lemma page_head_no_call (key : option string) (p : string) (i : PILImage) :
  ~ In (ModelCall p i) (page_head key).
Proof.
  intros Hin. pose proof (page_head_idle key) as H.
  rewrite forallb_forall in H. specialize (H _ Hin). discriminate.
Qed.

(** X22: the model is only ever called after a click, with a key, with
    the fixed prompt and on the image that the page shows and that was
    saved before; and at most once in a run. *)
Theorem model_call_guarded (key : option string)
        (uploaded_file : option upload) (clicked : bool) (s : session) :
  let r := run dcmread pil_open resample gemini st_image image_save
             docx_save key uploaded_file clicked s in
  (forall (p : string) (i : PILImage),
      In (ModelCall p i) (rendered (snd r)) ->
      clicked = true /\ truthy key = true /\ p = query
      /\ In (ShowImage i "Uploaded Medical Image") (rendered (snd r))
      /\ In (SaveImage "temp_resized_image.png" i) (rendered (snd r)))
  /\ List.length (filter is_model_call (rendered (snd r))) <= 1.
Proof.
  intros r.
  pose proof (run_cases dcmread pil_open resample gemini st_image
                image_save docx_save key uploaded_file clicked s) as H.
  fold r in H.
  assert (Hfilter : filter is_model_call (page_head key) = []).
  { unfold page_head, shell, sidebar, medical_agent.
    now destruct (truthy key). }
  split.
  - intros p i Hin.
    inversion H as [E|e E|e E|resized Hc E|resized e Hc E|resized Hc Hk E
                    |resized e Hc Hk E|resized response e Hc Hk E
                    |resized response Hc Hk E];
      rewrite <- E in Hin; cbn [snd rendered] in Hin |- *;
      try (now apply page_head_no_call in Hin);
      apply in_app_or in Hin as [Hin|Hin];
      try (now apply page_head_no_call in Hin);
      cbn [In] in Hin;
      repeat (destruct Hin as [Hin|Hin]; try discriminate);
      try contradiction;
      injection Hin as <- <-;
      (repeat split; try assumption;
       apply in_or_app; right; cbn [In]; auto 6).
  - inversion H; cbn [snd rendered];
      rewrite ?filter_app, Hfilter; cbn; lia.
Qed.

(** X23: the session state changes only when the model has answered:
    the run then ended normally, and the state holds the answer that the
    page renders and the image that it shows. The state is written
    before the document is built: the page then offers the download of
    the document made of that answer and that image, or shows the error
    that building it raised. *)
Theorem session_written_with_result (key : option string)
        (uploaded_file : option upload) (clicked : bool) (s : session) :
  let r := run dcmread pil_open resample gemini st_image image_save
             docx_save key uploaded_file clicked s in
  session_state (snd r) = s
  \/ exists (response : string) (resized : PILImage),
       session_state (snd r)
       = {| analysis_result := Some response;
            analysis_image := Some resized |}
       /\ fst r = Done tt
       /\ In (ShowImage resized "Uploaded Medical Image") (rendered (snd r))
       /\ In (ModelCall query resized) (rendered (snd r))
       /\ In (Markdown response) (rendered (snd r))
       /\ (In (DownloadButton "Download Analysis as DOCX"
                 (create_docx response resized)
                 "medical_image_analysis.docx") (rendered (snd r))
           \/ exists e : exn,
                In (Error ("Analysis error: " ++ e)%string)
                   (rendered (snd r))
                /\ existsb is_download (rendered (snd r)) = false).
Proof.
  intros r.
  assert (Hhead : existsb is_download (page_head key) = false).
  { unfold page_head, shell, sidebar, medical_agent.
    now destruct (truthy key). }
  pose proof (run_cases dcmread pil_open resample gemini st_image
                image_save docx_save key uploaded_file clicked s) as H.
  fold r in H.
  inversion H as [E|e E|e E|resized Hc E|resized e Hc E|resized Hc Hk E
                  |resized e Hc Hk E|resized response e Hc Hk E
                  |resized response Hc Hk E];
    try (left; reflexivity);
    right; exists response, resized; cbn [fst snd rendered session_state];
    (split; [reflexivity|]); (split; [reflexivity|]).
  - split; [apply in_or_app; right; cbn [In]; auto 12|].
    split; [apply in_or_app; right; cbn [In]; auto 12|].
    split; [apply in_or_app; right; cbn [In]; auto 12|].
    right. exists e. split; [apply in_or_app; right; cbn [In]; auto 12|].
    rewrite existsb_app, Hhead. reflexivity.
  - split; [apply in_or_app; right; cbn [In]; auto 12|].
    split; [apply in_or_app; right; cbn [In]; auto 12|].
    split; [apply in_or_app; right; cbn [In]; auto 12|].
    left. apply in_or_app. right. cbn [In]. auto 12.
Qed.

(** X24: an exception leaves the script only before anything is shown:
    the run has then rendered the page head and nothing else; a halt
    comes only after the message of a DICOM file that cannot be read;
    either way the session state is as it was. *)
Theorem run_ends_early_unchanged (key : option string)
        (uploaded_file : option upload) (clicked : bool) (s : session) :
  let r := run dcmread pil_open resample gemini st_image image_save
             docx_save key uploaded_file clicked s in
  match fst r with
  | Done _ => True
  | Exc _ => rendered (snd r) = page_head key /\ session_state (snd r) = s
  | Halt =>
      (exists e : exn,
          rendered (snd r)
          = page_head key ++ [Error ("Failed to read DICOM file: " ++ e)%string])
      /\ session_state (snd r) = s
  end.
Proof.
  intros r.
  pose proof (run_cases dcmread pil_open resample gemini st_image
                image_save docx_save key uploaded_file clicked s) as H.
  fold r in H.
  inversion H; cbn [fst snd rendered session_state]; auto.
  split; [now eexists | reflexivity].
Qed.

End ScriptPaths.

Section ScriptWitnesses.
Import Text Docx F64 Resize App.
Local Open Scope list_scope.

Lemma unreadable_image_raises_witness :
  run (refuses "no DICOM file") (refuses "cannot identify image file")
    blank_resample (answers "No finding.")
    shows_all saves_all builds_all
    (Some "key") (Some (sample_upload "notes.png")) true fresh_session
  = (Exc "cannot identify image file",
     {| rendered := page_head (Some "key"); session_state := fresh_session |}).
Proof.
  apply (unreadable_image_raises
           (refuses "no DICOM file") (refuses "cannot identify image file")
           blank_resample (answers "No finding.")
           shows_all saves_all builds_all
           (Some "key") (sample_upload "notes.png") true fresh_session
           "cannot identify image file");
    reflexivity.
Defined.

Lemma empty_dicom_reported_witness :
  run (fun _ => Ok {| shape := (0, 0)%Z; samples := [] |})
    (refuses "cannot identify image file")
    blank_resample (answers "No finding.")
    shows_all saves_all builds_all
    (Some "key") (Some (sample_upload "empty.dicom")) false fresh_session
  = (Halt,
     {| rendered :=
          page_head (Some "key")
          ++ [Error "Failed to read DICOM file: zero-size array to reduction operation minimum which has no identity"];
        session_state := fresh_session |}).
Proof.
  apply (empty_dicom_reported
           (fun _ => Ok {| shape := (0, 0)%Z; samples := [] |})
           (refuses "cannot identify image file")
           blank_resample (answers "No finding.")
           shows_all saves_all builds_all
           (Some "key") (sample_upload "empty.dicom")
           {| shape := (0, 0)%Z; samples := [] |} false fresh_session);
    reflexivity.
Defined.

Lemma dicom_image_ingested_witness :
  exists px,
    Dicom.normalize [0; 100; 200; 400; 50; 0]%Z = Ok px
    /\ length px = 6
    /\ Forall (fun x => (0 <= x <= 255)%Z) px
    /\ ingest
         (fun _ => Ok {| shape := (2, 3)%Z;
                         samples := [0; 100; 200; 400; 50; 0]%Z |})
         (refuses "cannot identify image file")
         (sample_upload "slice.dicom")
         {| rendered := []; session_state := fresh_session |}
       = (Done (Some {| size := (3, 2)%Z; raster := px |}),
          {| rendered := []; session_state := fresh_session |}).
Proof.
  apply (dicom_image_ingested
           (fun _ => Ok {| shape := (2, 3)%Z;
                           samples := [0; 100; 200; 400; 50; 0]%Z |})
           (refuses "cannot identify image file")
           (sample_upload "slice.dicom")
           {| shape := (2, 3)%Z; samples := [0; 100; 200; 400; 50; 0]%Z |}
           {| rendered := []; session_state := fresh_session |});
    first [reflexivity | discriminate].
Defined.

Lemma analysis_rendered_witness :
  session_state
    (snd (run (refuses "no DICOM file") (opens_as (sample_image 1000 800))
            blank_resample (answers "**Normal** study.")
            shows_all saves_all builds_all
            (Some "key") (Some (sample_upload "xray.png")) true
            fresh_session))
  = {| analysis_result := Some "**Normal** study.";
       analysis_image :=
         Some {| size := (500, 400)%Z; raster := [] |} |}.
Proof.
  exact (f_equal (fun r => session_state (snd r))
           (analysis_rendered
              (refuses "no DICOM file") (opens_as (sample_image 1000 800))
              blank_resample (answers "**Normal** study.")
              shows_all saves_all builds_all
              (Some "key")
              (sample_upload "xray.png") (sample_image 1000 800)
              {| size := (500, 400)%Z; raster := [] |} (500, 400)%Z
              "**Normal** study." fresh_session
              eq_refl eq_refl eq_refl eq_refl eq_refl eq_refl eq_refl
              eq_refl)).
Defined.

Lemma analysis_failure_reported_witness :
  session_state
    (snd (run (refuses "no DICOM file") (opens_as (sample_image 1000 800))
            blank_resample (fun _ _ => Raised "429 quota exceeded")
            shows_all saves_all builds_all
            (Some "key") (Some (sample_upload "xray.png")) true
            fresh_session))
  = fresh_session.
Proof.
  exact (f_equal (fun r => session_state (snd r))
           (analysis_failure_reported
              (refuses "no DICOM file") (opens_as (sample_image 1000 800))
              blank_resample (fun _ _ => Raised "429 quota exceeded")
              shows_all saves_all builds_all
              (Some "key")
              (sample_upload "xray.png") (sample_image 1000 800)
              {| size := (500, 400)%Z; raster := [] |} (500, 400)%Z
              "429 quota exceeded" fresh_session
              eq_refl eq_refl eq_refl eq_refl eq_refl eq_refl eq_refl
              eq_refl)).
Defined.

End ScriptWitnesses.
